(** * xMath: 4x4 matrices, quaternions and TRS transforms

    A shallow embedding of the matrix / quaternion core of the xMath
    library (src/xMath/src/{mat4,matrix,quat,transforms,scale,math_utils}.cpp)
    together with the properties its specification states about it.

    Numbers.  The library computes on C++ [float] (and, in a few places, on
    [double]).  Both are modelled by [spec_float], the IEEE-754 datatype of
    the Standard Library, with the operations of [SpecFloat] instantiated at
    binary32 (24-bit significand, [emax = 128]) and binary64 (53 bits,
    [emax = 1024]).  Every arithmetic operator of the source is one correctly
    rounded (to nearest, ties to even) operation of the operand type; no
    contraction into fused multiply-add and no excess precision is assumed.

    Returned locals.  Functions that fill a local [Mat4] and return it by name
    are modelled as returning the value they built (the copy is elided, as
    the test-suite of the repository relies on).  An explicit copy
    construction from an lvalue, [Mat4 b(a)], always runs the user-provided
    copy constructor and is modelled by [Mat4.copy_ctor]. *)

From Stdlib Require Import ZArith Bool List Lia.
From Stdlib Require Import Floats.SpecFloat.
Import ListNotations.

Local Open Scope Z_scope.

(** ** Floating-point formats *)

(** Rounding of an arbitrary finite value into a format: this is what a
    conversion between [float] and [double] does. *)
Definition SFround (prec emax : Z) (x : spec_float) : spec_float :=
  match x with
  | S754_finite s m e => binary_round prec emax s m e
  | _ => x
  end.

(** The correctly rounded value of the decimal literal [num / den]. *)
Definition SFliteral (prec emax : Z) (num den : positive) : spec_float :=
  SFdiv prec emax (S754_finite false num 0) (S754_finite false den 0).

Definition is_nan (x : spec_float) : bool :=
  match x with S754_nan => true | _ => false end.

(** [std::isfinite]. *)
Definition isfinite (x : spec_float) : bool :=
  match x with
  | S754_zero _ | S754_finite _ _ _ => true
  | S754_infinity _ | S754_nan => false
  end.

Definition is_zero (x : spec_float) : bool :=
  match x with S754_zero _ => true | _ => false end.

(** The sign bit is clear (or the value is a NaN). *)
Definition pos_signed (a : spec_float) : bool :=
  match a with
  | S754_nan => true
  | S754_zero s | S754_infinity s | S754_finite s _ _ => negb s
  end.

(** [s'] is the sum of the opposites of the terms of the sum [s]: the
    opposite of [s], except that a sum that cancels exactly is +0 both
    ways. *)
Definition opposite_sums (s s' : spec_float) : Prop :=
  s' = SFopp s \/ (s = S754_zero false /\ s' = S754_zero false).

(** C++ [float]. *)
Module F32.
Definition prec : Z := 24.
Definition emax : Z := 128.
Definition t := spec_float.

Definition add : t -> t -> t := SFadd prec emax.
Definition sub : t -> t -> t := SFsub prec emax.
Definition mul : t -> t -> t := SFmul prec emax.
Definition div : t -> t -> t := SFdiv prec emax.
Definition sqrt : t -> t := SFsqrt prec emax.
Definition neg : t -> t := SFopp.
Definition fabs : t -> t := SFabs.

(** Comparison operators; each is [false] as soon as an operand is NaN,
      except [ne] which is then [true]. *)
Definition lt (a b : t) : bool := SFltb a b.
Definition le (a b : t) : bool := SFleb a b.
Definition gt (a b : t) : bool := SFltb b a.
Definition ge (a b : t) : bool := SFleb b a.
Definition eq (a b : t) : bool := SFeqb a b.
Definition ne (a b : t) : bool := negb (SFeqb a b).

Definition zero : t := S754_zero false.
Definition nan : t := S754_nan.

(** An [int] (or an integral literal) converted to [float]. *)
Definition of_Z (n : Z) : t := binary_normalize prec emax n 0 false.
Definition one : t := of_Z 1.

(** A decimal literal with the [f] suffix. *)
Definition literal (num den : positive) : t := SFliteral prec emax num den.

(** Narrowing conversion [double -> float]. *)
Definition of_double (d : spec_float) : t := SFround prec emax d.

(** The value of a 32-bit pattern read as a [float]
    ([*reinterpret_cast<float *>(&bits)]): sign in bit 31, biased exponent
    in bits 30..23, fraction in bits 22..0. *)
Definition of_bits (bits : Z) : t :=
  let s := Z.testbit bits 31 in
  let e := Z.land (Z.shiftr bits 23) 255 in
  let m := Z.land bits 8388607 in
  if (e =? 0)%Z then
    match m with
    | Zpos p => S754_finite s p (-149)
    | _ => S754_zero s
    end
  else if (e =? 255)%Z then
    (if (m =? 0)%Z then S754_infinity s else S754_nan)
  else
    match (m + 8388608)%Z with
    | Zpos p => S754_finite s p (e - 150)
    | _ => S754_nan
    end.

(** A representable [float]: a zero, an infinity, a NaN, or a finite
    number in canonical binary32 form. *)
Definition valid (x : t) : bool := valid_binary prec emax x.
End F32.

(** C++ [double]. *)
Module F64.
Definition prec : Z := 53.
Definition emax : Z := 1024.
Definition t := spec_float.

Definition add : t -> t -> t := SFadd prec emax.
Definition sub : t -> t -> t := SFsub prec emax.
Definition mul : t -> t -> t := SFmul prec emax.
Definition div : t -> t -> t := SFdiv prec emax.
Definition neg : t -> t := SFopp.

Definition lt (a b : t) : bool := SFltb a b.
Definition gt (a b : t) : bool := SFltb b a.

Definition of_Z (n : Z) : t := binary_normalize prec emax n 0 false.
Definition literal (num den : positive) : t := SFliteral prec emax num den.

(** Widening conversion [float -> double]; exact. *)
Definition of_float (f : spec_float) : t := SFround prec emax f.
End F64.

Declare Scope f32_scope.
Delimit Scope f32_scope with f32.
Infix "+" := F32.add : f32_scope.
Infix "-" := F32.sub : f32_scope.
Infix "*" := F32.mul : f32_scope.
Infix "/" := F32.div : f32_scope.
Notation "- x" := (F32.neg x) : f32_scope.
Infix "<?" := F32.lt : f32_scope.
Infix "<=?" := F32.le : f32_scope.
Infix ">?" := F32.gt : f32_scope.
Infix ">=?" := F32.ge : f32_scope.
Infix "==?" := F32.eq (at level 70) : f32_scope.
Infix "!=?" := F32.ne (at level 70) : f32_scope.

Declare Scope f64_scope.
Delimit Scope f64_scope with f64.
Infix "+" := F64.add : f64_scope.
Infix "-" := F64.sub : f64_scope.
Infix "*" := F64.mul : f64_scope.
Infix "/" := F64.div : f64_scope.
Notation "- x" := (F64.neg x) : f64_scope.
Infix "<?" := F64.lt : f64_scope.
Infix ">?" := F64.gt : f64_scope.

(** ** The C math library

    [sinf], [cosf], [acosf], [tan], [atan2] and [asin] are not part of the
    repository.  They are an interface the code is linked against; nothing
    is assumed about the values they return. *)
Class Libm := {
  sinf  : F32.t -> F32.t;
  cosf  : F32.t -> F32.t;
  acosf : F32.t -> F32.t;
  tanf  : F32.t -> F32.t;
  (* atan2 and asin on double arguments *)
  atan2 : F64.t -> F64.t -> F64.t;
  asin  : F64.t -> F64.t;
  (* atan2 called on two float arguments: whichever overload the toolchain
     selects for that call, its result read as a double (exactly, when the
     overload returns a float) *)
  atan2_ff : F32.t -> F32.t -> F64.t
}.

(** ** Constants (src/xMath/includes/constants.h and literals of the source) *)

(** [PI = 3.14159265358979323846f]. *)
Definition PI : F32.t :=
  F32.literal 314159265358979323846 100000000000000000000.

(** [DEG_TO_RAD = PI / 180.0f]. *)
Definition DEG_TO_RAD : F32.t := (PI / F32.of_Z 180)%f32.

(** [M_PI], the [double] closest to pi. *)
Definition M_PI : F64.t :=
  F64.literal 314159265358979323846 100000000000000000000.

(** [constexpr float ToRadians(float degrees)] (math_utils.h). *)
Definition ToRadians (degrees : F32.t) : F32.t := (degrees * DEG_TO_RAD)%f32.

(** Modelled from the spec: [epsilon<float>()] of the absent header
    epsilon.h; the test-suite pins it to [std::numeric_limits<float>::epsilon()],
    that is 2^-23. *)
Definition epsilon : F32.t := binary_normalize F32.prec F32.emax 1 (-23) false.

(** Modelled from the spec: [epsilonEqual(a, b, eps)] of the absent header
    epsilon.h, "a is approximately b within eps": the distance of [a] and [b]
    does not exceed [eps]. *)
Definition epsilonEqual (a b eps : F32.t) : bool :=
  (F32.fabs (a - b) <=? eps)%f32.

(** [template <typename T> constexpr int sign(T x)] (math_utils.h). *)
Definition sign (x : F32.t) : Z :=
  Z.b2z (F32.zero <? x)%f32 - Z.b2z (x <? F32.zero)%f32.

(** [std::clamp(v, lo, hi)]. *)
Definition clamp (v lo hi : F32.t) : F32.t :=
  if (v <? lo)%f32 then lo else if (hi <? v)%f32 then hi else v.

(** ** Vectors (src/xMath/includes/vec3.h, vec4.h) *)

Module Vec3.
Record t := mk { x : F32.t; y : F32.t; z : F32.t }.

(** [explicit TVector3(T s)]. *)
Definition splat (s : F32.t) : t := mk s s s.

(** [operator[]]: [(&x)[i]].  Only indices 0..2 occur in the source. *)
Definition get (v : t) (i : nat) : F32.t :=
    match i with O => x v | 1%nat => y v | _ => z v end.
Definition set (v : t) (i : nat) (a : F32.t) : t :=
    match i with
    | O => mk a (y v) (z v)
    | 1%nat => mk (x v) a (z v)
    | _ => mk (x v) (y v) a
    end.

(** [operator*(T s)], [operator/(T s)] and unary minus. *)
Definition scale (v : t) (s : F32.t) : t :=
    mk (x v * s)%f32 (y v * s)%f32 (z v * s)%f32.
Definition divide (v : t) (s : F32.t) : t :=
    mk (x v / s)%f32 (y v / s)%f32 (z v / s)%f32.
Definition neg (v : t) : t := mk (- x v)%f32 (- y v)%f32 (- z v)%f32.
End Vec3.

Module Vec4.
Record t := mk { x : F32.t; y : F32.t; z : F32.t; w : F32.t }.

(** [TVector4()]: all four components are zero-initialised (vec4.h:47). *)
Definition default : t := mk F32.zero F32.zero F32.zero F32.zero.

(** [TVector4(const TVector3<T>& v, T _w)]. *)
Definition of_vec3 (v : Vec3.t) (w_ : F32.t) : t :=
    mk (Vec3.x v) (Vec3.y v) (Vec3.z v) w_.

(** [explicit TVector3(const TVector4<T>& v)]: drops [w]. *)
Definition to_vec3 (v : t) : Vec3.t := Vec3.mk (x v) (y v) (z v).

(** [operator[]]: [(&x)[i]].  Only indices 0..3 occur in the source. *)
Definition get (v : t) (i : nat) : F32.t :=
    match i with O => x v | 1%nat => y v | 2%nat => z v | _ => w v end.
Definition set (v : t) (i : nat) (a : F32.t) : t :=
    match i with
    | O => mk a (y v) (z v) (w v)
    | 1%nat => mk (x v) a (z v) (w v)
    | 2%nat => mk (x v) (y v) a (w v)
    | _ => mk (x v) (y v) (z v) a
    end.

(** [operator==]: exact, component by component. *)
Definition eqb (a b : t) : bool :=
    (x a ==? x b)%f32 && (y a ==? y b)%f32 &&
    (z a ==? z b)%f32 && (w a ==? w b)%f32.

(** [operator+], [operator-], [operator*(T s)], [operator/(T s)]. *)
Definition add (a r : t) : t :=
  mk (x a + x r)%f32 (y a + y r)%f32 (z a + z r)%f32 (w a + w r)%f32.
Definition sub (a r : t) : t :=
  mk (x a - x r)%f32 (y a - y r)%f32 (z a - z r)%f32 (w a - w r)%f32.
Definition scale (a : t) (s : F32.t) : t :=
  mk (x a * s)%f32 (y a * s)%f32 (z a * s)%f32 (w a * s)%f32.
Definition divide (a : t) (s : F32.t) : t :=
  mk (x a / s)%f32 (y a / s)%f32 (z a / s)%f32 (w a / s)%f32.
End Vec4.

(** ** Vec3 helpers (src/xMath/src/math_utils.cpp), exported as
    [xMath::Utils] by xmath.hpp *)

Module Utils.
Definition Normalize (v : Vec3.t) : Vec3.t :=
  let len2 := (Vec3.x v * Vec3.x v + Vec3.y v * Vec3.y v
               + Vec3.z v * Vec3.z v)%f32 in
  if (len2 <=? F32.zero)%f32 then Vec3.mk F32.zero F32.zero F32.zero
  else
    let invLen := (F32.one / F32.sqrt len2)%f32 in
    Vec3.mk (Vec3.x v * invLen)%f32 (Vec3.y v * invLen)%f32
            (Vec3.z v * invLen)%f32.

Definition Dot (a b : Vec3.t) : F32.t :=
  (Vec3.x a * Vec3.x b + Vec3.y a * Vec3.y b + Vec3.z a * Vec3.z b)%f32.

Definition Cross (a b : Vec3.t) : Vec3.t :=
  Vec3.mk (Vec3.y a * Vec3.z b - Vec3.z a * Vec3.y b)%f32
          (Vec3.z a * Vec3.x b - Vec3.x a * Vec3.z b)%f32
          (Vec3.x a * Vec3.y b - Vec3.y a * Vec3.x b)%f32.

(** [float Distance(const Vec3& a, const Vec3& b)]. *)
Definition Distance (a b : Vec3.t) : F32.t :=
  let dx := (Vec3.x b - Vec3.x a)%f32 in
  let dy := (Vec3.y b - Vec3.y a)%f32 in
  let dz := (Vec3.z b - Vec3.z a)%f32 in
  F32.sqrt (dx * dx + dy * dy + dz * dz)%f32.

(** [bool IsEqual(float a, float b, float epsilon)] and [IsZero]. *)
Definition IsEqual (a b epsilon : F32.t) : bool :=
  (F32.fabs (a - b) <=? epsilon)%f32.

Definition IsZero (value epsilon : F32.t) : bool :=
  (F32.fabs value <=? epsilon)%f32.

(** [template<typename T> static T Min(T a, T b)], [Max], [Clamp] and
    [Clamp01] of math_utils.h, at [T = float]. *)
Definition Min (a b : F32.t) : F32.t := if (a <? b)%f32 then a else b.

Definition Max (a b : F32.t) : F32.t := if (a >? b)%f32 then a else b.

Definition Clamp (value min max : F32.t) : F32.t :=
  let '(min, max) := if (min >? max)%f32 then (max, min) else (min, max) in
  Min (Max value min) max.

Definition Clamp01 (value : F32.t) : F32.t :=
  Clamp value (F32.of_Z 0) (F32.of_Z 1).

(** [float Lerp(float from, float to, float t)] and [LerpUnclamped]. *)
Definition Lerp (from to t_ : F32.t) : F32.t :=
  let tt := Clamp01 t_ in
  (from * (F32.one - tt) + to * tt)%f32.

Definition LerpUnclamped (from to t_ : F32.t) : F32.t :=
  (from * (F32.one - t_) + to * t_)%f32.

(** Unsigned 32-bit arithmetic: results are reduced modulo 2^32. *)
Definition wrap32 (n : Z) : Z := n mod 4294967296.

(** [float ToFloat32(uint16_t float16)]: the bit pattern built in [t1],
    then read as a [float]. *)
Definition ToFloat32_bits (float16 : Z) : Z :=
  let t1 := Z.land float16 32767 in
  let t2 := Z.land float16 32768 in
  let t3 := Z.land float16 31744 in
  let t1 := wrap32 (Z.shiftl t1 13) in
  let t2 := wrap32 (Z.shiftl t2 16) in
  let t1 := wrap32 (t1 + 939524096) in
  let t1 := if (t3 =? 0)%Z then 0%Z else t1 in
  let t1 := Z.lor t1 t2 in
  t1.

Definition ToFloat32 (float16 : Z) : F32.t := F32.of_bits (ToFloat32_bits float16).

(** [constexpr uint32_t power_of_two_previous(uint32_t x)]. *)
Definition power_of_two_previous (x : Z) : Z :=
  let x := Z.lor x (Z.shiftr x 1) in
  let x := Z.lor x (Z.shiftr x 2) in
  let x := Z.lor x (Z.shiftr x 4) in
  let x := Z.lor x (Z.shiftr x 8) in
  let x := Z.lor x (Z.shiftr x 16) in
  wrap32 (x - Z.shiftr x 1).

(** [constexpr uint32_t power_of_two_next(uint32_t x)]; the last statement
    is [return x++;], whose value is [x] before the increment. *)
Definition power_of_two_next (x : Z) : Z :=
  if (x <? 2)%Z then 2%Z
  else if (x mod 2 =? 0)%Z then wrap32 (Z.shiftl x 1)
  else
    let x := wrap32 (x - 1) in
    let x := Z.lor x (Z.shiftr x 1) in
    let x := Z.lor x (Z.shiftr x 2) in
    let x := Z.lor x (Z.shiftr x 4) in
    let x := Z.lor x (Z.shiftr x 8) in
    let x := Z.lor x (Z.shiftr x 16) in
    x.
End Utils.

(** [Vec3 Scale(const Vec3 &vector, float desiredLength)] (scale.cpp). *)
Definition ScaleTo (vector : Vec3.t) (desiredLength : F32.t) : Vec3.t :=
  let mag := F32.sqrt (Vec3.x vector * Vec3.x vector
                       + Vec3.y vector * Vec3.y vector
                       + Vec3.z vector * Vec3.z vector)%f32 in
  if epsilonEqual mag F32.zero epsilon then Vec3.splat F32.zero
  else Vec3.divide (Vec3.scale vector desiredLength) mag.

(** ** Mat4 (src/xMath/includes/mat4.h, src/xMath/src/mat4.cpp, matrix.cpp) *)

Module Mat4.

(** [Vec4 rows[4]], row-major. *)
Record t := mk { row0 : Vec4.t; row1 : Vec4.t; row2 : Vec4.t; row3 : Vec4.t }.

(** [operator[](int index)]: [rows[index]]. *)
Definition row (m : t) (i : nat) : Vec4.t :=
    match i with O => row0 m | 1%nat => row1 m | 2%nat => row2 m | _ => row3 m end.
Definition set_row (m : t) (i : nat) (r : Vec4.t) : t :=
    match i with
    | O => mk r (row1 m) (row2 m) (row3 m)
    | 1%nat => mk (row0 m) r (row2 m) (row3 m)
    | 2%nat => mk (row0 m) (row1 m) r (row3 m)
    | _ => mk (row0 m) (row1 m) (row2 m) r
    end.

(** [m[i][j]] read and written. *)
Definition get (m : t) (i j : nat) : F32.t := Vec4.get (row m i) j.
Definition set (m : t) (i j : nat) (a : F32.t) : t :=
    set_row m i (Vec4.set (row m i) j a).

(** [Mat4()]: the all-zero matrix. *)
Definition default : t :=
    mk Vec4.default Vec4.default Vec4.default Vec4.default.

(** [explicit Mat4(float diagonal)]. *)
Definition diag (d : F32.t) : t :=
    mk (Vec4.mk d F32.zero F32.zero F32.zero)
       (Vec4.mk F32.zero d F32.zero F32.zero)
       (Vec4.mk F32.zero F32.zero d F32.zero)
       (Vec4.mk F32.zero F32.zero F32.zero d).

(** [Mat4(std::initializer_list<Vec4> inRows)]: the first four rows given,
      the missing ones zero. *)
Definition of_rows (inRows : list Vec4.t) : t :=
    mk (nth 0 inRows Vec4.default) (nth 1 inRows Vec4.default)
       (nth 2 inRows Vec4.default) (nth 3 inRows Vec4.default).

(** [Mat4(const Mat4 &copy) noexcept { }] (mat4.cpp:80-82).  The body is
      empty and there is no member initialiser, so [rows] is
      default-initialised: each [Vec4] by [TVector4()], i.e. to zero.
      The argument is not read. *)
Definition copy_ctor (copy : t) : t :=
    mk Vec4.default Vec4.default Vec4.default Vec4.default.

Definition Zero : t := default.
Definition Identity : t := diag F32.one.

Definition Translate (translation : Vec3.t) : t :=
    of_rows [ Vec4.mk F32.one F32.zero F32.zero (Vec3.x translation);
              Vec4.mk F32.zero F32.one F32.zero (Vec3.y translation);
              Vec4.mk F32.zero F32.zero F32.one (Vec3.z translation);
              Vec4.mk F32.zero F32.zero F32.zero F32.one ].

(** [Mat4::Scale(const Vec3 &scale)]. *)
Definition Scale (scale : Vec3.t) : t :=
    of_rows [ Vec4.mk (Vec3.x scale) F32.zero F32.zero F32.zero;
              Vec4.mk F32.zero (Vec3.y scale) F32.zero F32.zero;
              Vec4.mk F32.zero F32.zero (Vec3.z scale) F32.zero;
              Vec4.mk F32.zero F32.zero F32.zero F32.one ].

(** [operator==]. *)
Definition eqb (a b : t) : bool :=
    Vec4.eqb (row0 a) (row0 b) && Vec4.eqb (row1 a) (row1 b) &&
    Vec4.eqb (row2 a) (row2 b) && Vec4.eqb (row3 a) (row3 b).

(** The loop [for (int i = 0; i < 4; i++)]. *)
Definition range4 : list nat := [0; 1; 2; 3]%nat.

(** [Mat4::Multiply(const Mat4&, const Mat4&)]: [result[i][j]] starts at 0
      and accumulates [lhs[i][k] * rhs[k][j]] for k = 0..3. *)
Definition Multiply (lhs rhs : t) : t :=
    fold_left (fun result i =>
      fold_left (fun result j =>
        fold_left (fun result k =>
            set result i j (get result i j + get lhs i k * get rhs k j)%f32)
          range4 (set result i j F32.zero))
        range4 result)
      range4 default.

(** [Mat4::Multiply(const Mat4&, const Vec4&)]. *)
Definition MultiplyVec4 (lhs : t) (rhs : Vec4.t) : Vec4.t :=
    fold_left (fun result i =>
      let value :=
        fold_left (fun value j => (value + get lhs i j * Vec4.get rhs j)%f32)
                  range4 F32.zero in
      Vec4.set result i value)
      range4 Vec4.default.

(** [Vec4 Mat4::operator*(const Vec3 &rhs) const]. *)
Definition mul_vec3 (m : t) (rhs : Vec3.t) : Vec4.t :=
    MultiplyVec4 m (Vec4.of_vec3 rhs F32.one).

(** The local [det] of [Mat4::GetInverse(const Mat4&)]: the determinant
    expanded along the first row of [matrix] over the cofactors [t11..t14]. *)
Definition GetInverse_det (matrix : t) : F32.t :=
  let n11 := get matrix 0 0 in let n12 := get matrix 1 0 in
  let n13 := get matrix 2 0 in let n14 := get matrix 3 0 in
  let n21 := get matrix 0 1 in let n22 := get matrix 1 1 in
  let n23 := get matrix 2 1 in let n24 := get matrix 3 1 in
  let n31 := get matrix 0 2 in let n32 := get matrix 1 2 in
  let n33 := get matrix 2 2 in let n34 := get matrix 3 2 in
  let n41 := get matrix 0 3 in let n42 := get matrix 1 3 in
  let n43 := get matrix 2 3 in let n44 := get matrix 3 3 in
  let t11 := (n23 * n34 * n42 - n24 * n33 * n42 + n24 * n32 * n43 - n22 *
      n34 * n43 - n23 * n32 * n44 + n22 * n33 * n44)%f32 in
  let t12 := (n14 * n33 * n42 - n13 * n34 * n42 - n14 * n32 * n43 + n12 *
      n34 * n43 + n13 * n32 * n44 - n12 * n33 * n44)%f32 in
  let t13 := (n13 * n24 * n42 - n14 * n23 * n42 + n14 * n22 * n43 - n12 *
      n24 * n43 - n13 * n22 * n44 + n12 * n23 * n44)%f32 in
  let t14 := (n14 * n23 * n32 - n13 * n24 * n32 - n14 * n22 * n33 + n12 *
      n24 * n33 + n13 * n22 * n34 - n12 * n23 * n34)%f32 in
  (n11 * t11 + n21 * t12 + n31 * t13 + n41 * t14)%f32.

(** [Mat4::GetInverse(const Mat4&)] (matrix.cpp:622-669): the closed-form
    inverse.  [idet = 1.0f / det] is formed without any test on [det], and
    every entry is a cofactor expression times [idet]. *)
Definition GetInverse (matrix : t) : t :=
  let n11 := get matrix 0 0 in let n12 := get matrix 1 0 in
  let n13 := get matrix 2 0 in let n14 := get matrix 3 0 in
  let n21 := get matrix 0 1 in let n22 := get matrix 1 1 in
  let n23 := get matrix 2 1 in let n24 := get matrix 3 1 in
  let n31 := get matrix 0 2 in let n32 := get matrix 1 2 in
  let n33 := get matrix 2 2 in let n34 := get matrix 3 2 in
  let n41 := get matrix 0 3 in let n42 := get matrix 1 3 in
  let n43 := get matrix 2 3 in let n44 := get matrix 3 3 in
  let t11 := (n23 * n34 * n42 - n24 * n33 * n42 + n24 * n32 * n43 - n22 *
      n34 * n43 - n23 * n32 * n44 + n22 * n33 * n44)%f32 in
  let t12 := (n14 * n33 * n42 - n13 * n34 * n42 - n14 * n32 * n43 + n12 *
      n34 * n43 + n13 * n32 * n44 - n12 * n33 * n44)%f32 in
  let t13 := (n13 * n24 * n42 - n14 * n23 * n42 + n14 * n22 * n43 - n12 *
      n24 * n43 - n13 * n22 * n44 + n12 * n23 * n44)%f32 in
  let t14 := (n14 * n23 * n32 - n13 * n24 * n32 - n14 * n22 * n33 + n12 *
      n24 * n33 + n13 * n22 * n34 - n12 * n23 * n34)%f32 in
  let det := (n11 * t11 + n21 * t12 + n31 * t13 + n41 * t14)%f32 in
  let idet := (F32.one / det)%f32 in
  mk
    (Vec4.mk
       (t11 * idet)%f32
       ((n24 * n33 * n41 - n23 * n34 * n41 - n24 * n31 * n43 + n21 * n34 *
         n43 + n23 * n31 * n44 - n21 * n33 * n44) * idet)%f32
       ((n22 * n34 * n41 - n24 * n32 * n41 + n24 * n31 * n42 - n21 * n34 *
         n42 - n22 * n31 * n44 + n21 * n32 * n44) * idet)%f32
       ((n23 * n32 * n41 - n22 * n33 * n41 - n23 * n31 * n42 + n21 * n33 *
         n42 + n22 * n31 * n43 - n21 * n32 * n43) * idet)%f32)
    (Vec4.mk
       (t12 * idet)%f32
       ((n13 * n34 * n41 - n14 * n33 * n41 + n14 * n31 * n43 - n11 * n34 *
         n43 - n13 * n31 * n44 + n11 * n33 * n44) * idet)%f32
       ((n14 * n32 * n41 - n12 * n34 * n41 - n14 * n31 * n42 + n11 * n34 *
         n42 + n12 * n31 * n44 - n11 * n32 * n44) * idet)%f32
       ((n12 * n33 * n41 - n13 * n32 * n41 + n13 * n31 * n42 - n11 * n33 *
         n42 - n12 * n31 * n43 + n11 * n32 * n43) * idet)%f32)
    (Vec4.mk
       (t13 * idet)%f32
       ((n14 * n23 * n41 - n13 * n24 * n41 - n14 * n21 * n43 + n11 * n24 *
         n43 + n13 * n21 * n44 - n11 * n23 * n44) * idet)%f32
       ((n12 * n24 * n41 - n14 * n22 * n41 + n14 * n21 * n42 - n11 * n24 *
         n42 - n12 * n21 * n44 + n11 * n22 * n44) * idet)%f32
       ((n13 * n22 * n41 - n12 * n23 * n41 - n13 * n21 * n42 + n11 * n23 *
         n42 + n12 * n21 * n43 - n11 * n22 * n43) * idet)%f32)
    (Vec4.mk
       (t14 * idet)%f32
       ((n13 * n24 * n31 - n14 * n23 * n31 + n14 * n21 * n33 - n11 * n24 *
         n33 - n13 * n21 * n34 + n11 * n23 * n34) * idet)%f32
       ((n14 * n22 * n31 - n12 * n24 * n31 - n14 * n21 * n32 + n11 * n24 *
         n32 + n12 * n21 * n34 - n11 * n22 * n34) * idet)%f32
       ((n12 * n23 * n31 - n13 * n22 * n31 + n13 * n21 * n32 - n11 * n23 *
         n32 - n12 * n21 * n33 + n11 * n22 * n33) * idet)%f32).

(** [Mat4::PerspectiveProjection(aspect, fieldOfView, n, f)] (matrix.cpp:73-83). *)
Definition PerspectiveProjection `{Libm} (aspect fieldOfView n f : F32.t) : t :=
  let tanHalfFOV := tanf (ToRadians (fieldOfView / F32.of_Z 2)%f32) in
  of_rows
    [ Vec4.mk (F32.of_Z 1 / (aspect * tanHalfFOV))%f32
              (F32.of_Z 0) (F32.of_Z 0) (F32.of_Z 0);
      Vec4.mk (F32.of_Z 0) (F32.of_Z (-1) / tanHalfFOV)%f32
              (F32.of_Z 0) (F32.of_Z 0);
      Vec4.mk (F32.of_Z 0) (F32.of_Z 0)
              (f / (f - n))%f32 (- f * n / (f - n))%f32;
      Vec4.mk (F32.of_Z 0) (F32.of_Z 0) (F32.of_Z 1) (F32.of_Z 0) ].

(** [Mat4(std::initializer_list<float> cells)]: all rows zeroed, then cell
    [i] (for [i < 16] and while cells remain) stored in [rows[i / 4][i % 4]]. *)
Definition of_cells (cells : list F32.t) : t :=
  fold_left (fun m ic => set m (fst ic / 4) (fst ic mod 4) (snd ic))
            (combine (seq 0 16) cells) default.

(** [Mat4::OrthographicProjection(l, r, t, b, nearPlane, farPlane)]
    and its three-argument overload. *)
Definition OrthographicProjection (l r t_ b nearPlane farPlane : F32.t) : t :=
  of_rows
    [ Vec4.mk (F32.of_Z 2 / (r - l))%f32 (F32.of_Z 0) (F32.of_Z 0)
              (- (r + l) / (r - l))%f32;
      Vec4.mk (F32.of_Z 0) (F32.of_Z 2 / (b - t_))%f32 (F32.of_Z 0)
              (- (b + t_) / (b - t_))%f32;
      Vec4.mk (F32.of_Z 0) (F32.of_Z 0)
              (F32.of_Z 1 / (farPlane - nearPlane))%f32
              (- nearPlane / (farPlane - nearPlane))%f32;
      Vec4.mk (F32.of_Z 0) (F32.of_Z 0) (F32.of_Z 0) (F32.of_Z 1) ].

Definition OrthographicProjection3 (aspect nearPlane farPlane : F32.t) : t :=
  OrthographicProjection (- aspect)%f32 aspect (- F32.one)%f32 F32.one
                         nearPlane farPlane.

(** [operator+], [operator-], [operator*(float)], [operator/(float)]:
    row by row into a zero-initialised [result]. *)
Definition add (m rhs : t) : t :=
  fold_left (fun result i => set_row result i (Vec4.add (row m i) (row rhs i)))
            range4 default.

Definition sub (m rhs : t) : t :=
  fold_left (fun result i => set_row result i (Vec4.sub (row m i) (row rhs i)))
            range4 default.

Definition scale (m : t) (rhs : F32.t) : t :=
  fold_left (fun result i => set_row result i (Vec4.scale (row m i) rhs))
            range4 default.

Definition divide (m : t) (rhs : F32.t) : t :=
  fold_left (fun result i => set_row result i (Vec4.divide (row m i) rhs))
            range4 default.

(** The compound assignments [Mat4 operator+=(const Mat4&)],
    [operator-=], [operator*=(float)], [operator/=(float)] and
    [operator*=(const Mat4&)].  Each assigns the result to [*this] and then
    executes [return *this;] with return type [Mat4] (by value): the
    returned object is copy-constructed from [*this].  The pair is
    (new value of [*this], value of the expression). *)
Definition add_assign (this rhs : t) : t * t :=
  let this := add this rhs in (this, copy_ctor this).

Definition sub_assign (this rhs : t) : t * t :=
  let this := sub this rhs in (this, copy_ctor this).

Definition scale_assign (this : t) (rhs : F32.t) : t * t :=
  let this := scale this rhs in (this, copy_ctor this).

Definition divide_assign (this : t) (rhs : F32.t) : t * t :=
  let this := divide this rhs in (this, copy_ctor this).

Definition mul_assign (this rhs : t) : t * t :=
  let this := Multiply this rhs in (this, copy_ctor this).

(** [Mat4::NearlyEqual(a, b, epsilon)]: false at the first cell whose
    difference exceeds [epsilon] in absolute value. *)
Definition NearlyEqual (a b : t) (epsilon : F32.t) : bool :=
  forallb (fun r =>
    forallb (fun c => negb (F32.fabs (get a r c - get b r c) >? epsilon)%f32)
            range4)
    range4.

(** [Mat4::GetTranspose(const Mat4&)]. *)
Definition GetTranspose (mat : t) : t :=
  fold_left (fun result i =>
    fold_left (fun result j => set result i j (get mat j i)) range4 result)
    range4 default.
End Mat4.

(** ** Quat (src/xMath/includes/quat.h, src/xMath/src/quat.cpp) *)

Module Quat.

(** Stored as [x, y, z, w]. *)
Record t := mk { x : F32.t; y : F32.t; z : F32.t; w : F32.t }.

(** [Quat()]: the identity. *)
Definition default : t := mk F32.zero F32.zero F32.zero F32.one.

(** [Quat(float w, float x, float y, float z)]: scalar part first. *)
Definition make (w_ x_ y_ z_ : F32.t) : t := mk x_ y_ z_ w_.

(** [Quat(const Vec4&)]. *)
Definition of_vec4 (v : Vec4.t) : t :=
  mk (Vec4.x v) (Vec4.y v) (Vec4.z v) (Vec4.w v).

(** [Quat::Identity()]: [return {};]. *)
Definition Identity : t := default.

(** The local [mag2] of [Quat::GetNormalized]. *)
Definition mag2 (q : t) : F32.t :=
  (w q * w q + x q * x q + y q * y q + z q * z q)%f32.

(** [Quat Quat::GetNormalized() const] (quat.cpp:433-442). *)
Definition GetNormalized (q : t) : t :=
  let mag2 := (w q * w q + x q * x q + y q * y q + z q * z q)%f32 in
  if (mag2 <=? F32.zero)%f32 then default
  else
    let mag := F32.sqrt mag2 in
    if (mag <=? F32.zero)%f32 then default
    else make (w q / mag)%f32 (x q / mag)%f32 (y q / mag)%f32 (z q / mag)%f32.

(** [void Quat::Normalize()] (quat.cpp:479-487): the state of [*this]
    after the call. *)
Definition Normalize (q : t) : t :=
  let mag := F32.sqrt (w q * w q + x q * x q + y q * y q + z q * z q)%f32 in
  let w' := (w q / mag)%f32 in
  let x' := (x q / mag)%f32 in
  let y' := (y q / mag)%f32 in
  let z' := (z q / mag)%f32 in
  mk x' y' z' w'.

Definition GetSqrMagnitude (q : t) : F32.t :=
  (x q * x q + y q * y q + z q * z q + w q * w q)%f32.

Definition GetInverse (q : t) : t :=
  let sqr := GetSqrMagnitude q in
  let invSqr := (F32.one / sqr)%f32 in
  make (w q * invSqr)%f32 (- x q * invSqr)%f32
       (- y q * invSqr)%f32 (- z q * invSqr)%f32.

(** [Quat Quat::operator*(const Quat& rhs) const]. *)
Definition mul (q rhs : t) : t :=
  mk (w q * x rhs + x q * w rhs + y q * z rhs - z q * y rhs)%f32
     (w q * y rhs - x q * z rhs + y q * w rhs + z q * x rhs)%f32
     (w q * z rhs + x q * y rhs - y q * x rhs + z q * w rhs)%f32
     (w q * w rhs - x q * x rhs - y q * y rhs - z q * z rhs)%f32.

(** [float Quat::Angle(const Quat& a, const Quat& b)], in degrees. *)
Definition Angle `{Libm} (a b : t) : F32.t :=
  let degrees := (acosf (w (mul b (GetInverse a))) * F32.of_Z 2
                  * F32.literal 572957795 10000000)%f32 in
  if (degrees >? F32.of_Z 180)%f32 then (F32.of_Z 360 - degrees)%f32
  else degrees.

(** [Quat Quat::AngleAxis(float angle, const Vec4& axis)], angle in degrees. *)
Definition AngleAxis `{Libm} (angle : F32.t) (axis : Vec4.t) : t :=
  let len := F32.sqrt (Vec4.x axis * Vec4.x axis + Vec4.y axis * Vec4.y axis
                       + Vec4.z axis * Vec4.z axis)%f32 in
  let vn :=
    if (len >? F32.zero)%f32 then
      let inv := (F32.one / len)%f32 in
      Vec4.mk (Vec4.x axis * inv)%f32 (Vec4.y axis * inv)%f32
              (Vec4.z axis * inv)%f32 (Vec4.w axis)
    else axis in
  let angle := (angle * F32.literal 174532925 10000000000)%f32 in
  let angle := (angle * F32.literal 1 2)%f32 in
  let sinAngle := sinf angle in
  make (cosf angle) (Vec4.x vn * sinAngle)%f32 (Vec4.y vn * sinAngle)%f32
       (Vec4.z vn * sinAngle)%f32.

(** [Quat Quat::FromToRotation(const Vec3& from, const Vec3& to)]
    (quat.cpp:623-654). *)
Definition FromToRotation `{Libm} (from to : Vec3.t) : t :=
  let unitFrom := Utils.Normalize from in
  let unitTo := Utils.Normalize to in
  let dot := Utils.Dot unitFrom unitTo in
  if (dot >=? F32.one)%f32 then default
  else if (dot <=? - F32.one)%f32 then
    let axis := Utils.Cross unitFrom (Vec3.mk (F32.of_Z 1) (F32.of_Z 0) (F32.of_Z 0)) in
    let axis :=
      if (Utils.Dot axis axis <? F32.literal 1 1000000)%f32
      then Utils.Cross unitFrom (Vec3.mk (F32.of_Z 0) (F32.of_Z 1) (F32.of_Z 0))
      else axis in
    let normAxis := Utils.Normalize axis in
    AngleAxis (F32.of_Z 180)
      (Vec4.mk (Vec3.x normAxis) (Vec3.y normAxis) (Vec3.z normAxis) F32.zero)
  else
    let s_from := Utils.Dot unitFrom unitFrom in
    let s_to := Utils.Dot unitTo unitTo in
    let s := (F32.sqrt (s_from * s_to) + Utils.Dot unitFrom unitTo)%f32 in
    let v := Utils.Cross unitFrom unitTo in
    GetNormalized (of_vec4 (Vec4.of_vec3 v s)).

(** [Quat Quat::Slerp(const Quat &from, const Quat &to, const float t)]
    (quat.cpp:794-822).  The assignments to [dot] and to the fields of [b]
    inside the first [if] are threaded as the pair [(dot, b)]. *)
Definition Slerp `{Libm} (from to : t) (t_ : F32.t) : t :=
  let a := GetNormalized from in
  let b := GetNormalized to in
  let dot := (w a * w b + x a * x b + y a * y b + z a * z b)%f32 in
  let '(dot, b) :=
    if (dot <? F32.zero)%f32
    then ((- dot)%f32, mk (- x b)%f32 (- y b)%f32 (- z b)%f32 (- w b)%f32)
    else (dot, b) in
  let dot := clamp dot (- F32.one)%f32 F32.one in
  if (F32.one - dot <? F32.literal 1 1000)%f32 then
    let result :=
      make (w a + t_ * (w b - w a))%f32 (x a + t_ * (x b - x a))%f32
           (y a + t_ * (y b - y a))%f32 (z a + t_ * (z b - z a))%f32 in
    GetNormalized result
  else
    let theta0 := acosf dot in
    let theta := (theta0 * t_)%f32 in
    let sinTheta0 := sinf theta0 in
    let sinTheta := sinf theta in
    let s0 := (cosf theta - dot * sinTheta / sinTheta0)%f32 in
    let s1 := (sinTheta / sinTheta0)%f32 in
    make (s0 * w a + s1 * w b)%f32 (s0 * x a + s1 * x b)%f32
         (s0 * y a + s1 * y b)%f32 (s0 * z a + s1 * z b)%f32.

(** [2.0 * e * invs] of [Quat::ToMatrix]: [2.0] is a [double] literal, so the
    [float] operands are promoted, both products are formed in [double] and
    the result is narrowed on assignment to the [float] cell. *)
Definition twice_times (e invs : F32.t) : F32.t :=
  F32.of_double (F64.of_Z 2 * F64.of_float e * F64.of_float invs)%f64.

(** [Mat4 Quat::ToMatrix(const Quat& q)]: cell [mat[k]] of the row-major
    array is [matrix[k / 4][k % 4]]. *)
Definition ToMatrix (q : t) : Mat4.t :=
  let sqw := (w q * w q)%f32 in
  let sqx := (x q * x q)%f32 in
  let sqy := (y q * y q)%f32 in
  let sqz := (z q * z q)%f32 in
  let invs := (F32.one / (sqx + sqy + sqz + sqw))%f32 in
  let matrix := Mat4.Identity in
  let matrix := Mat4.set matrix 0 0 ((sqx - sqy - sqz + sqw) * invs)%f32 in
  let matrix := Mat4.set matrix 1 1 ((- sqx + sqy - sqz + sqw) * invs)%f32 in
  let matrix := Mat4.set matrix 2 2 ((- sqx - sqy + sqz + sqw) * invs)%f32 in
  let tmp1 := (x q * y q)%f32 in
  let tmp2 := (z q * w q)%f32 in
  let matrix := Mat4.set matrix 1 0 (twice_times (tmp1 + tmp2)%f32 invs) in
  let matrix := Mat4.set matrix 0 1 (twice_times (tmp1 - tmp2)%f32 invs) in
  let tmp1 := (x q * z q)%f32 in
  let tmp2 := (y q * w q)%f32 in
  let matrix := Mat4.set matrix 2 0 (twice_times (tmp1 - tmp2)%f32 invs) in
  let matrix := Mat4.set matrix 0 2 (twice_times (tmp1 + tmp2)%f32 invs) in
  let tmp1 := (y q * z q)%f32 in
  let tmp2 := (x q * w q)%f32 in
  let matrix := Mat4.set matrix 2 1 (twice_times (tmp1 + tmp2)%f32 invs) in
  let matrix := Mat4.set matrix 1 2 (twice_times (tmp1 - tmp2)%f32 invs) in
  matrix.

(** The locals [test] and [unit] of [Quat::ToEulerRadians]: products and
    the sum [x*y + z*w] are formed in [float] and stored in a [double]; the
    four squares are added in [double]. *)
Definition euler_test (q : t) : F64.t :=
  F64.of_float (x q * y q + z q * w q)%f32.

Definition euler_unit (q : t) : F64.t :=
  let sqw := F64.of_float (w q * w q)%f32 in
  let sqx := F64.of_float (x q * x q)%f32 in
  let sqy := F64.of_float (y q * y q)%f32 in
  let sqz := F64.of_float (z q * z q)%f32 in
  (sqx + sqy + sqz + sqw)%f64.

(** [Vec3 Quat::ToEulerRadians() const] (quat.cpp:1281-1312).  The result
    is [euler] with [x] = pitch, [y] = yaw, [z] = roll. *)
Definition ToEulerRadians `{Libm} (q : t) : Vec3.t :=
  let sqw := F64.of_float (w q * w q)%f32 in
  let sqx := F64.of_float (x q * x q)%f32 in
  let sqy := F64.of_float (y q * y q)%f32 in
  let sqz := F64.of_float (z q * z q)%f32 in
  let unit := (sqx + sqy + sqz + sqw)%f64 in
  let test := F64.of_float (x q * y q + z q * w q)%f32 in
  if (test >? F64.literal 499 1000 * unit)%f64 then
    let euler_y := F32.of_double (F64.of_Z 2 * atan2_ff (x q) (w q))%f64 in
    let euler_x := F32.of_double (M_PI / F64.of_Z 2)%f64 in
    let euler_z := F32.of_Z 0 in
    Vec3.mk euler_x euler_y euler_z
  else if (test <? - F64.literal 499 1000 * unit)%f64 then
    let euler_y := F32.of_double (F64.of_Z (-2) * atan2_ff (x q) (w q))%f64 in
    let euler_x := F32.of_double (- M_PI / F64.of_Z 2)%f64 in
    let euler_z := F32.of_Z 0 in
    Vec3.mk euler_x euler_y euler_z
  else
    let euler_y :=
      F32.of_double
        (atan2 (F64.of_float (F32.of_Z 2 * y q * w q + F32.of_Z 2 * x q * z q)%f32)
               (sqw - sqx - sqy + sqz)%f64) in
    let euler_x :=
      F32.of_double
        (asin (F64.of_float (F32.of_Z (-2) * (x q * z q - y q * w q))%f32
               / unit)%f64) in
    let euler_z :=
      F32.of_double
        (atan2 (F64.of_float (F32.of_Z 2 * x q * w q + F32.of_Z 2 * y q * z q)%f32)
               (sqw + sqx - sqy - sqz)%f64) in
    Vec3.mk euler_x euler_y euler_z.

(** [operator==]: exact comparison of the four components. *)
Definition eqb (q rhs : t) : bool :=
  (w q ==? w rhs)%f32 && (x q ==? x rhs)%f32 &&
  (y q ==? y rhs)%f32 && (z q ==? z rhs)%f32.

(** [Quat& Quat::operator*=(const Quat& rhs)] (quat.cpp:235-245): the
    product is computed into the local [q] and assigned to [*this]; the
    value is the state of [*this] after the call, which the returned
    reference denotes. *)
Definition mul_assign (this rhs : t) : t :=
  let q_w := (w this * w rhs - x this * x rhs - y this * y rhs
              - z this * z rhs)%f32 in
  let q_x := (w this * x rhs + x this * w rhs + y this * z rhs
              - z this * y rhs)%f32 in
  let q_y := (w this * y rhs - x this * z rhs + y this * w rhs
              + z this * x rhs)%f32 in
  let q_z := (w this * z rhs + x this * y rhs - y this * x rhs
              + z this * w rhs)%f32 in
  mk q_x q_y q_z q_w.

(** [operator*(float)], [operator+], [operator-] and unary minus. *)
Definition scale (q : t) (rhs : F32.t) : t :=
  make (w q * rhs)%f32 (x q * rhs)%f32 (y q * rhs)%f32 (z q * rhs)%f32.

Definition add (q rhs : t) : t :=
  make (w q + w rhs)%f32 (x q + x rhs)%f32 (y q + y rhs)%f32 (z q + z rhs)%f32.

Definition sub (q rhs : t) : t :=
  make (w q - w rhs)%f32 (x q - x rhs)%f32 (y q - y rhs)%f32 (z q - z rhs)%f32.

Definition neg (q : t) : t :=
  make (- w q)%f32 (- x q)%f32 (- y q)%f32 (- z q)%f32.

(** [Quat Quat::Conjugate()]. *)
Definition Conjugate (q : t) : t :=
  make (w q) (- x q)%f32 (- y q)%f32 (- z q)%f32.

(** [float Quat::Dot(const Quat& b) const]. *)
Definition Dot (q b : t) : F32.t :=
  (w q * w b + x q * x b + y q * y b + z q * z b)%f32.

(** [Quat Quat::Lerp(const Quat& from, const Quat& to, const float t)]. *)
Definition Lerp (from to : t) (t_ : F32.t) : t :=
  let src := scale from (F32.one - t_)%f32 in
  let dst := scale to t_ in
  let q := add src dst in
  GetNormalized q.

(** The local [cw] of [Quat::AngleRadians]:
    [std::max(-1.0f, std::min(1.0f, x.w))], where [std::min(a, b)] is
    [(b < a) ? b : a] and [std::max(a, b)] is [(a < b) ? b : a]. *)
Definition AngleRadians_cw (q : t) : F32.t :=
  let mn := if (w q <? F32.one)%f32 then w q else F32.one in
  if (- F32.one <? mn)%f32 then mn else (- F32.one)%f32.

(** [float Quat::AngleRadians(const Quat &x)]. *)
Definition AngleRadians `{Libm} (q : t) : F32.t :=
  let cw := AngleRadians_cw q in
  (F32.of_Z 2 * acosf cw)%f32.

(** [Vec3 Quat::Axis(const Quat &x)]. *)
Definition Axis (q : t) : Vec3.t :=
  let tmp1 := (F32.one - w q * w q)%f32 in
  if (tmp1 <=? F32.literal 1 1000000000000)%f32
  then Vec3.mk F32.zero F32.zero F32.one
  else
    let inv := (F32.one / F32.sqrt tmp1)%f32 in
    Vec3.mk (x q * inv)%f32 (y q * inv)%f32 (z q * inv)%f32.
End Quat.

(** ** Transforms (src/xMath/src/transforms.cpp) *)

Module Transforms.

(** [Mat4 Transforms::Compose(translation, rotation, scale)]: [T * R * S]. *)
Definition Compose (translation : Vec3.t) (rotation : Quat.t) (scale : Vec3.t)
  : Mat4.t :=
  let T := Mat4.Translate translation in
  let R := Quat.ToMatrix rotation in
  let S := Mat4.Scale scale in
  Mat4.Multiply (Mat4.Multiply T R) S.

(** [static int Next[3] = { 1, 2, 0 }]. *)
Definition Next (i : nat) : nat :=
  match i with O => 1 | 1 => 2 | _ => 0 end%nat.

(** [Row[i]] and [Row[i][j]] of the local array [Vec3 Row[3]]. *)
Definition Row_get (Row : Vec3.t * Vec3.t * Vec3.t) (i : nat) : Vec3.t :=
  let '(r0, r1, r2) := Row in
  match i with O => r0 | 1%nat => r1 | _ => r2 end.

(** The body of [Transforms::Decompose] once [LocalMatrix] exists.  The
    result is [None] for [return false] (outputs not completed) and
    [Some (translation, rotation, scale)] for [return true].  The block
    under [#ifdef SEDX_DEBUG] is not compiled in. *)
Definition Decompose_body (LocalMatrix : Mat4.t)
  : option (Vec3.t * Quat.t * Vec3.t) :=
  if epsilonEqual (Mat4.get LocalMatrix 3 3) (F32.of_Z 0) epsilon then None
  else if negb (epsilonEqual (Mat4.get LocalMatrix 3 3) (F32.of_Z 1)
                             (F32.literal 1 100000)) then None
  else if negb (epsilonEqual (Mat4.get LocalMatrix 0 3) (F32.of_Z 0) epsilon &&
                epsilonEqual (Mat4.get LocalMatrix 1 3) (F32.of_Z 0) epsilon &&
                epsilonEqual (Mat4.get LocalMatrix 2 3) (F32.of_Z 0) epsilon)
  then None
  else
    let translation := Vec4.to_vec3 (Mat4.row LocalMatrix 3) in
    let LocalMatrix :=
      Mat4.set_row LocalMatrix 3
        (Vec4.mk (F32.of_Z 0) (F32.of_Z 0) (F32.of_Z 0)
                 (Vec4.w (Mat4.row LocalMatrix 3))) in
    let row_of i := Vec3.mk (Mat4.get LocalMatrix i 0) (Mat4.get LocalMatrix i 1)
                            (Mat4.get LocalMatrix i 2) in
    let Row0 := row_of 0%nat in
    let Row1 := row_of 1%nat in
    let Row2 := row_of 2%nat in
    let len r := F32.sqrt (Vec3.x r * Vec3.x r + Vec3.y r * Vec3.y r
                           + Vec3.z r * Vec3.z r)%f32 in
    let scale_x := len Row0 in
    let Row0 := ScaleTo Row0 (F32.of_Z 1) in
    let scale_y := len Row1 in
    let Row1 := ScaleTo Row1 (F32.of_Z 1) in
    let scale_z := len Row2 in
    let Row2 := ScaleTo Row2 (F32.of_Z 1) in
    let Row := (Row0, Row1, Row2) in
    let R i j := Vec3.get (Row_get Row i) j in
    let trace := (Vec3.x Row0 + Vec3.y Row1 + Vec3.z Row2)%f32 in
    let half := F32.literal 1 2 in
    let '(qx, qy, qz, qw) :=
      if (trace >? F32.of_Z 0)%f32 then
        let root := F32.sqrt (trace + F32.of_Z 1)%f32 in
        let qw := (half * root)%f32 in
        let root := (half / root)%f32 in
        let qx := (root * (Vec3.z Row1 - Vec3.y Row2))%f32 in
        let qy := (root * (Vec3.x Row2 - Vec3.z Row0))%f32 in
        let qz := (root * (Vec3.y Row0 - Vec3.x Row1))%f32 in
        (qx, qy, qz, qw)
      else
        let i := 0%nat in
        let i := if (Vec3.y Row1 >? Vec3.x Row0)%f32 then 1%nat else i in
        let i := if (Vec3.z Row2 >? R i i)%f32 then 2%nat else i in
        let j := Next i in
        let k := Next j in
        let root := F32.sqrt (R i i - R j j - R k k + F32.of_Z 1)%f32 in
        let q := Vec4.default in
        let q := Vec4.set q i (half * root)%f32 in
        let root := (half / root)%f32 in
        let q := Vec4.set q j (root * (R i j + R j i))%f32 in
        let q := Vec4.set q k (root * (R i k + R k i))%f32 in
        let qw := (root * (R j k - R k j))%f32 in
        (Vec4.get q 0, Vec4.get q 1, Vec4.get q 2, qw) in
    let rotation := Quat.make qw qx qy qz in
    Some (translation, rotation, Vec3.mk scale_x scale_y scale_z).

(** [bool Transforms::Decompose(const Mat4 &transform, Vec3 &translation,
    Quat &rotation, Vec3 &scale)] (transforms.cpp:54-141): the function
    works on [Mat4 LocalMatrix(transform)], a copy made by the copy
    constructor of [Mat4]. *)
Definition Decompose (transform : Mat4.t) : option (Vec3.t * Quat.t * Vec3.t) :=
  let LocalMatrix := Mat4.copy_ctor transform in
  Decompose_body LocalMatrix.
End Transforms.

(** ** Legacy Matrix (src/xMath/includes/matrix.h, src/xMath/src/matrix.cpp) *)

Module Matrix.

(** The sixteen cells, in the order of the 16-argument constructor. *)
Record t := mk {
  m00 : F32.t; m01 : F32.t; m02 : F32.t; m03 : F32.t;
  m10 : F32.t; m11 : F32.t; m12 : F32.t; m13 : F32.t;
  m20 : F32.t; m21 : F32.t; m22 : F32.t; m23 : F32.t;
  m30 : F32.t; m31 : F32.t; m32 : F32.t; m33 : F32.t
}.

(** [Matrix::Matrix()]: the identity. *)
Definition default : t :=
  mk F32.one F32.zero F32.zero F32.zero
     F32.zero F32.one F32.zero F32.zero
     F32.zero F32.zero F32.one F32.zero
     F32.zero F32.zero F32.zero F32.one.

(** [Vec3 Matrix::GetScale() const] (matrix.cpp:832-840). *)
Definition GetScale (m : t) : Vec3.t :=
  let xs := if (sign (m00 m * m01 m * m02 m * m03 m)%f32 <? 0)%Z then (-1)%Z else 1%Z in
  let ys := if (sign (m10 m * m11 m * m12 m * m13 m)%f32 <? 0)%Z then (-1)%Z else 1%Z in
  let zs := if (sign (m20 m * m21 m * m22 m * m23 m)%f32 <? 0)%Z then (-1)%Z else 1%Z in
  Vec3.mk
    (F32.of_Z xs * F32.sqrt (m00 m * m00 m + m01 m * m01 m + m02 m * m02 m))%f32
    (F32.of_Z ys * F32.sqrt (m10 m * m10 m + m11 m * m11 m + m12 m * m12 m))%f32
    (F32.of_Z zs * F32.sqrt (m20 m * m20 m + m21 m * m21 m + m22 m * m22 m))%f32.

(** [Quat Matrix::RotationMatrixToQuaternion(const Matrix &mRot)]. *)
Definition RotationMatrixToQuaternion (mRot : t) : Quat.t :=
  let half_ := F32.literal 1 2 in
  let scale := (m00 mRot + m11 mRot + m22 mRot)%f32 in
  if (scale >? F32.zero)%f32 then
    let sqrt_ := F32.sqrt (scale + F32.one)%f32 in
    let qw := (sqrt_ * half_)%f32 in
    let sqrt_ := (half_ / sqrt_)%f32 in
    Quat.mk ((m12 mRot - m21 mRot) * sqrt_)%f32
            ((m20 mRot - m02 mRot) * sqrt_)%f32
            ((m01 mRot - m10 mRot) * sqrt_)%f32
            qw
  else if (m00 mRot >=? m11 mRot)%f32 && (m00 mRot >=? m22 mRot)%f32 then
    let sqrt_ := F32.sqrt (F32.one + m00 mRot - m11 mRot - m22 mRot)%f32 in
    let half := (half_ / sqrt_)%f32 in
    Quat.mk (half_ * sqrt_)%f32
            ((m01 mRot + m10 mRot) * half)%f32
            ((m02 mRot + m20 mRot) * half)%f32
            ((m12 mRot - m21 mRot) * half)%f32
  else if (m11 mRot >? m22 mRot)%f32 then
    let sqrt_ := F32.sqrt (F32.one + m11 mRot - m00 mRot - m22 mRot)%f32 in
    let half := (half_ / sqrt_)%f32 in
    Quat.mk ((m10 mRot + m01 mRot) * half)%f32
            (half_ * sqrt_)%f32
            ((m21 mRot + m12 mRot) * half)%f32
            ((m20 mRot - m02 mRot) * half)%f32
  else
    let sqrt_ := F32.sqrt (F32.one + m22 mRot - m00 mRot - m11 mRot)%f32 in
    let half := (half_ / sqrt_)%f32 in
    Quat.mk ((m20 mRot + m02 mRot) * half)%f32
            ((m21 mRot + m12 mRot) * half)%f32
            (half_ * sqrt_)%f32
            ((m01 mRot - m10 mRot) * half)%f32.

(** [Quat Matrix::GetRotation() const] (matrix.cpp:751-776). *)
Definition GetRotation (m : t) : Quat.t :=
  let scale := GetScale m in
  if (Vec3.x scale ==? F32.zero)%f32 || (Vec3.y scale ==? F32.zero)%f32
     || (Vec3.z scale ==? F32.zero)%f32
  then Quat.Identity
  else
    let normalized :=
      mk (m00 m / Vec3.x scale)%f32 (m01 m / Vec3.x scale)%f32
         (m02 m / Vec3.x scale)%f32 F32.zero
         (m10 m / Vec3.y scale)%f32 (m11 m / Vec3.y scale)%f32
         (m12 m / Vec3.y scale)%f32 F32.zero
         (m20 m / Vec3.z scale)%f32 (m21 m / Vec3.z scale)%f32
         (m22 m / Vec3.z scale)%f32 F32.zero
         (F32.of_Z 0) (F32.of_Z 0) (F32.of_Z 0) F32.one in
    RotationMatrixToQuaternion normalized.

(** The homogeneous product formed by [Matrix::operator*(const Vec3&)]:
    the locals [x], [y], [z], [w] before the test on [w]. *)
Definition homogeneous (m : t) (rhs : Vec3.t) : Vec4.t :=
  Vec4.mk
    (Vec3.x rhs * m00 m + Vec3.y rhs * m10 m + Vec3.z rhs * m20 m + m30 m)%f32
    (Vec3.x rhs * m01 m + Vec3.y rhs * m11 m + Vec3.z rhs * m21 m + m31 m)%f32
    (Vec3.x rhs * m02 m + Vec3.y rhs * m12 m + Vec3.z rhs * m22 m + m32 m)%f32
    (Vec3.x rhs * m03 m + Vec3.y rhs * m13 m + Vec3.z rhs * m23 m + m33 m)%f32.

(** [Vec3 Matrix::operator*(const Vec3 &rhs) const] (matrix.cpp:1032-1048). *)
Definition mul_vec3 (m : t) (rhs : Vec3.t) : Vec3.t :=
  let x := (Vec3.x rhs * m00 m + Vec3.y rhs * m10 m + Vec3.z rhs * m20 m + m30 m)%f32 in
  let y := (Vec3.x rhs * m01 m + Vec3.y rhs * m11 m + Vec3.z rhs * m21 m + m31 m)%f32 in
  let z := (Vec3.x rhs * m02 m + Vec3.y rhs * m12 m + Vec3.z rhs * m22 m + m32 m)%f32 in
  let w := (Vec3.x rhs * m03 m + Vec3.y rhs * m13 m + Vec3.z rhs * m23 m + m33 m)%f32 in
  let '(x, y, z) :=
    if (w !=? F32.one)%f32 then ((x / w)%f32, (y / w)%f32, (z / w)%f32)
    else (x, y, z) in
  Vec3.mk x y z.

(** [Vec3 Matrix::GetTranslation() const]. *)
Definition GetTranslation (m : t) : Vec3.t := Vec3.mk (m30 m) (m31 m) (m32 m).

(** [Matrix Matrix::CreateRotation(const Quat &rotation)]. *)
Definition CreateRotation (rotation : Quat.t) : t :=
  let num9 := (Quat.x rotation * Quat.x rotation)%f32 in
  let num8 := (Quat.y rotation * Quat.y rotation)%f32 in
  let num7 := (Quat.z rotation * Quat.z rotation)%f32 in
  let num6 := (Quat.x rotation * Quat.y rotation)%f32 in
  let num5 := (Quat.z rotation * Quat.w rotation)%f32 in
  let num4 := (Quat.z rotation * Quat.x rotation)%f32 in
  let num3 := (Quat.y rotation * Quat.w rotation)%f32 in
  let num2 := (Quat.y rotation * Quat.z rotation)%f32 in
  let num := (Quat.x rotation * Quat.w rotation)%f32 in
  let two := F32.of_Z 2 in
  mk (F32.one - (two * (num8 + num7)))%f32
     (two * (num6 + num5))%f32
     (two * (num4 - num3))%f32
     F32.zero
     (two * (num6 - num5))%f32
     (F32.one - (two * (num7 + num9)))%f32
     (two * (num2 + num))%f32
     F32.zero
     (two * (num4 + num3))%f32
     (two * (num2 - num))%f32
     (F32.one - (two * (num8 + num9)))%f32
     F32.zero
     F32.zero F32.zero F32.zero F32.one.

(** [Matrix::Matrix(const Vec3 &translation, const Quat &rotation,
    const Vec3 &scale)]. *)
Definition of_TRS (translation : Vec3.t) (rotation : Quat.t) (scale : Vec3.t) : t :=
  let mRotation := CreateRotation rotation in
  mk (Vec3.x scale * m00 mRotation)%f32 (Vec3.x scale * m01 mRotation)%f32
     (Vec3.x scale * m02 mRotation)%f32 F32.zero
     (Vec3.y scale * m10 mRotation)%f32 (Vec3.y scale * m11 mRotation)%f32
     (Vec3.y scale * m12 mRotation)%f32 F32.zero
     (Vec3.z scale * m20 mRotation)%f32 (Vec3.z scale * m21 mRotation)%f32
     (Vec3.z scale * m22 mRotation)%f32 F32.zero
     (Vec3.x translation) (Vec3.y translation) (Vec3.z translation) F32.one.

(** [void Matrix::Decompose(Vec3& scale, Quat& rotation, Vec3& translation)
    const]: the three outputs, in the order of the parameters. *)
Definition Decompose (m : t) : Vec3.t * Quat.t * Vec3.t :=
  let translation := GetTranslation m in
  let scale := GetScale m in
  let rotation := GetRotation m in
  (scale, rotation, translation).

(** [Matrix Matrix::Transpose(const Matrix &matrix)] (static) and
    [Transposed()]. *)
Definition Transpose (matrix : t) : t :=
  mk (m00 matrix) (m10 matrix) (m20 matrix) (m30 matrix)
     (m01 matrix) (m11 matrix) (m21 matrix) (m31 matrix)
     (m02 matrix) (m12 matrix) (m22 matrix) (m32 matrix)
     (m03 matrix) (m13 matrix) (m23 matrix) (m33 matrix).

Definition Transposed (m : t) : t := Transpose m.

(** [Vec4 Matrix::operator*(const Vec4 &rhs) const]. *)
Definition mul_vec4 (m : t) (rhs : Vec4.t) : Vec4.t :=
  Vec4.mk
    (Vec4.x rhs * m00 m + Vec4.y rhs * m10 m + Vec4.z rhs * m20 m
     + Vec4.w rhs * m30 m)%f32
    (Vec4.x rhs * m01 m + Vec4.y rhs * m11 m + Vec4.z rhs * m21 m
     + Vec4.w rhs * m31 m)%f32
    (Vec4.x rhs * m02 m + Vec4.y rhs * m12 m + Vec4.z rhs * m22 m
     + Vec4.w rhs * m32 m)%f32
    (Vec4.x rhs * m03 m + Vec4.y rhs * m13 m + Vec4.z rhs * m23 m
     + Vec4.w rhs * m33 m)%f32.

(** The local [det] of [Matrix::Invert]. *)
Definition Invert_det (matrix : t) : F32.t :=
  let v0 := (m20 matrix * m31 matrix - m21 matrix * m30 matrix)%f32 in
  let v1 := (m20 matrix * m32 matrix - m22 matrix * m30 matrix)%f32 in
  let v2 := (m20 matrix * m33 matrix - m23 matrix * m30 matrix)%f32 in
  let v3 := (m21 matrix * m32 matrix - m22 matrix * m31 matrix)%f32 in
  let v4 := (m21 matrix * m33 matrix - m23 matrix * m31 matrix)%f32 in
  let v5 := (m22 matrix * m33 matrix - m23 matrix * m32 matrix)%f32 in
  let i00 := ((v5 * m11 matrix - v4 * m12 matrix + v3 * m13 matrix))%f32 in
  let i10 := (- (v5 * m10 matrix - v2 * m12 matrix + v1 * m13 matrix))%f32 in
  let i20 := ((v4 * m10 matrix - v2 * m11 matrix + v0 * m13 matrix))%f32 in
  let i30 := (- (v3 * m10 matrix - v1 * m11 matrix + v0 * m12 matrix))%f32 in
  (i00 * m00 matrix + i10 * m01 matrix + i20 * m02 matrix + i30 * m03 matrix)%f32.

(** [Matrix Matrix::Invert(const Matrix &matrix)] (matrix.cpp:912-969):
    the only test is [std::isnan(det)], which returns [Matrix::Identity]. *)
Definition Invert (matrix : t) : t :=
  let v0 := (m20 matrix * m31 matrix - m21 matrix * m30 matrix)%f32 in
  let v1 := (m20 matrix * m32 matrix - m22 matrix * m30 matrix)%f32 in
  let v2 := (m20 matrix * m33 matrix - m23 matrix * m30 matrix)%f32 in
  let v3 := (m21 matrix * m32 matrix - m22 matrix * m31 matrix)%f32 in
  let v4 := (m21 matrix * m33 matrix - m23 matrix * m31 matrix)%f32 in
  let v5 := (m22 matrix * m33 matrix - m23 matrix * m32 matrix)%f32 in
  let i00 := ((v5 * m11 matrix - v4 * m12 matrix + v3 * m13 matrix))%f32 in
  let i10 := (- (v5 * m10 matrix - v2 * m12 matrix + v1 * m13 matrix))%f32 in
  let i20 := ((v4 * m10 matrix - v2 * m11 matrix + v0 * m13 matrix))%f32 in
  let i30 := (- (v3 * m10 matrix - v1 * m11 matrix + v0 * m12 matrix))%f32 in
  let det := (i00 * m00 matrix + i10 * m01 matrix + i20 * m02 matrix + i30
      * m03 matrix)%f32 in
  if is_nan det then default
  else
    let inv_det := (F32.one / det)%f32 in
    let i00 := (i00 * inv_det)%f32 in
    let i10 := (i10 * inv_det)%f32 in
    let i20 := (i20 * inv_det)%f32 in
    let i30 := (i30 * inv_det)%f32 in
    let i01 := (- (v5 * m01 matrix - v4 * m02 matrix + v3 * m03 matrix) *
      inv_det)%f32 in
    let i11 := ((v5 * m00 matrix - v2 * m02 matrix + v1 * m03 matrix) *
      inv_det)%f32 in
    let i21 := (- (v4 * m00 matrix - v2 * m01 matrix + v0 * m03 matrix) *
      inv_det)%f32 in
    let i31 := ((v3 * m00 matrix - v1 * m01 matrix + v0 * m02 matrix) *
      inv_det)%f32 in
    let v0 := (m10 matrix * m31 matrix - m11 matrix * m30 matrix)%f32 in
    let v1 := (m10 matrix * m32 matrix - m12 matrix * m30 matrix)%f32 in
    let v2 := (m10 matrix * m33 matrix - m13 matrix * m30 matrix)%f32 in
    let v3 := (m11 matrix * m32 matrix - m12 matrix * m31 matrix)%f32 in
    let v4 := (m11 matrix * m33 matrix - m13 matrix * m31 matrix)%f32 in
    let v5 := (m12 matrix * m33 matrix - m13 matrix * m32 matrix)%f32 in
    let i02 := ((v5 * m01 matrix - v4 * m02 matrix + v3 * m03 matrix) *
      inv_det)%f32 in
    let i12 := (- (v5 * m00 matrix - v2 * m02 matrix + v1 * m03 matrix) *
      inv_det)%f32 in
    let i22 := ((v4 * m00 matrix - v2 * m01 matrix + v0 * m03 matrix) *
      inv_det)%f32 in
    let i32 := (- (v3 * m00 matrix - v1 * m01 matrix + v0 * m02 matrix) *
      inv_det)%f32 in
    let v0 := (m21 matrix * m10 matrix - m20 matrix * m11 matrix)%f32 in
    let v1 := (m22 matrix * m10 matrix - m20 matrix * m12 matrix)%f32 in
    let v2 := (m23 matrix * m10 matrix - m20 matrix * m13 matrix)%f32 in
    let v3 := (m22 matrix * m11 matrix - m21 matrix * m12 matrix)%f32 in
    let v4 := (m23 matrix * m11 matrix - m21 matrix * m13 matrix)%f32 in
    let v5 := (m23 matrix * m12 matrix - m22 matrix * m13 matrix)%f32 in
    let i03 := (- (v5 * m01 matrix - v4 * m02 matrix + v3 * m03 matrix) *
      inv_det)%f32 in
    let i13 := ((v5 * m00 matrix - v2 * m02 matrix + v1 * m03 matrix) *
      inv_det)%f32 in
    let i23 := (- (v4 * m00 matrix - v2 * m01 matrix + v0 * m03 matrix) *
      inv_det)%f32 in
    let i33 := ((v3 * m00 matrix - v1 * m01 matrix + v0 * m02 matrix) *
      inv_det)%f32 in
    mk i00 i01 i02 i03 i10 i11 i12 i13 i20 i21 i22 i23 i30 i31 i32 i33.
End Matrix.

(** ** SLERP as the specification words it

    "Normalizes both inputs, negates the second operand if the dot product
    is negative, clamps the dot to [-1,1] before acos, and falls back to
    normalized linear interpolation when 1-dot < 1e-3."

    The definitions of this module follow these words over the arithmetic
    of [float] and the four fields of a quaternion alone: none of the
    functions translated from quat.cpp is used. *)

Module SlerpSpec.

(** The squared magnitude.  A quaternion is degenerate when its squared
    magnitude, or the root of it, is not above zero. *)
Definition norm2 (q : Quat.t) : F32.t :=
  (Quat.w q * Quat.w q + Quat.x q * Quat.x q + Quat.y q * Quat.y q
   + Quat.z q * Quat.z q)%f32.

Definition degenerate (q : Quat.t) : bool :=
  (norm2 q <=? F32.zero)%f32 || (F32.sqrt (norm2 q) <=? F32.zero)%f32.

(** "Normalized": every component divided by the magnitude; a degenerate
    quaternion has no direction and stands for the identity rotation
    (x = y = z = 0, w = 1). *)
Definition normalized (q : Quat.t) : Quat.t :=
  let n := F32.sqrt (norm2 q) in
  if degenerate q then
    {| Quat.x := F32.zero; Quat.y := F32.zero; Quat.z := F32.zero;
       Quat.w := F32.one |}
  else
    {| Quat.x := (Quat.x q / n)%f32; Quat.y := (Quat.y q / n)%f32;
       Quat.z := (Quat.z q / n)%f32; Quat.w := (Quat.w q / n)%f32 |}.

(** The dot product of two quaternions, and the opposite quaternion. *)
Definition dot (a b : Quat.t) : F32.t :=
  (Quat.w a * Quat.w b + Quat.x a * Quat.x b + Quat.y a * Quat.y b
   + Quat.z a * Quat.z b)%f32.

Definition negated (q : Quat.t) : Quat.t :=
  {| Quat.x := (- Quat.x q)%f32; Quat.y := (- Quat.y q)%f32;
     Quat.z := (- Quat.z q)%f32; Quat.w := (- Quat.w q)%f32 |}.

(** The dot product of the two normalised inputs. *)
Definition raw_dot (from to : Quat.t) : F32.t :=
  dot (normalized from) (normalized to).

(** The second operand and the dot product after the double-cover
    correction. *)
Definition second (from to : Quat.t) : Quat.t :=
  if (raw_dot from to <? F32.zero)%f32 then negated (normalized to)
  else normalized to.

Definition corrected_dot (from to : Quat.t) : F32.t :=
  if (raw_dot from to <? F32.zero)%f32 then (- raw_dot from to)%f32
  else raw_dot from to.

(** "Clamps to [-1,1]": a number below -1 becomes -1, a number above 1
    becomes 1, every other one is kept. *)
Definition clamp_unit (d : F32.t) : F32.t :=
  if (d <? - F32.one)%f32 then (- F32.one)%f32
  else if (F32.one <? d)%f32 then F32.one
  else d.

(** The number handed to [acos]. *)
Definition acos_argument (from to : Quat.t) : F32.t :=
  clamp_unit (corrected_dot from to).

(** The [float] nearest to 1e-3: 8589935 * 2^-33 (bit pattern 0x3a83126f). *)
Definition small_angle : F32.t := S754_finite false 8589935 (-33).

(** Linear interpolation of the components, and its renormalisation. *)
Definition lerp (a b : Quat.t) (t_ : F32.t) : Quat.t :=
  {| Quat.x := (Quat.x a + t_ * (Quat.x b - Quat.x a))%f32;
     Quat.y := (Quat.y a + t_ * (Quat.y b - Quat.y a))%f32;
     Quat.z := (Quat.z a + t_ * (Quat.z b - Quat.z a))%f32;
     Quat.w := (Quat.w a + t_ * (Quat.w b - Quat.w a))%f32 |}.

Definition nlerp (a b : Quat.t) (t_ : F32.t) : Quat.t :=
  normalized (lerp a b t_).

(** The sine-ratio formula on the angle [theta0 = acos d]: the weight of
    [b] is [sin (t theta0) / sin theta0], that of [a] is
    [cos (t theta0) - d * sin (t theta0) / sin theta0]. *)
Definition sine_ratio `{Libm} (a b : Quat.t) (d t_ : F32.t) : Quat.t :=
  let theta0 := acosf d in
  let theta := (theta0 * t_)%f32 in
  let s1 := (sinf theta / sinf theta0)%f32 in
  let s0 := (cosf theta - d * sinf theta / sinf theta0)%f32 in
  {| Quat.x := (s0 * Quat.x a + s1 * Quat.x b)%f32;
     Quat.y := (s0 * Quat.y a + s1 * Quat.y b)%f32;
     Quat.z := (s0 * Quat.z a + s1 * Quat.z b)%f32;
     Quat.w := (s0 * Quat.w a + s1 * Quat.w b)%f32 |}.

Definition Slerp `{Libm} (from to : Quat.t) (t_ : F32.t) : Quat.t :=
  let a := normalized from in
  let b := second from to in
  let d := acos_argument from to in
  if (F32.one - d <? small_angle)%f32 then nlerp a b t_
  else sine_ratio a b d t_.
End SlerpSpec.

(** ** Inputs used in the examples *)

Definition vec3_of_Z (a b c : Z) : Vec3.t :=
  Vec3.mk (F32.of_Z a) (F32.of_Z b) (F32.of_Z c).

Definition vec4_of_Z (a b c d : Z) : Vec4.t :=
  Vec4.mk (F32.of_Z a) (F32.of_Z b) (F32.of_Z c) (F32.of_Z d).

(** The singular matrix of MatrixEdgeTests.cpp: rows 0 and 1 coincide. *)
Definition singular_test_matrix : Mat4.t :=
  Mat4.of_rows [ vec4_of_Z 1 0 0 0; vec4_of_Z 1 0 0 0;
                 vec4_of_Z 0 1 0 0; vec4_of_Z 0 0 1 1 ].

(** A matrix whose rows 1 and 2 coincide, with one large entry (2^30). *)
Definition duplicated_row_matrix : Mat4.t :=
  Mat4.of_rows [ vec4_of_Z 1 0 0 0; vec4_of_Z 0 1 1 1;
                 vec4_of_Z 0 1 1 1; vec4_of_Z 0 (2 ^ 30) 1 0 ].

(** A legacy matrix with bottom-right cell 2 (so that w = 2 for every
    vector) and one whose first basis row is zero. *)
Definition legacy_w2 : Matrix.t :=
  Matrix.mk F32.one F32.zero F32.zero F32.zero
            F32.zero F32.one F32.zero F32.zero
            F32.zero F32.zero F32.one F32.zero
            F32.zero F32.zero F32.zero (F32.of_Z 2).

Definition legacy_flat : Matrix.t :=
  Matrix.mk F32.zero F32.zero F32.zero F32.zero
            F32.zero F32.one F32.zero F32.zero
            F32.zero F32.zero F32.one F32.zero
            F32.zero F32.zero F32.zero F32.one.

(** An instance of the math-library interface, to run the definitions on
    concrete inputs.  The theorems hold for every instance. *)
Definition sample_libm : Libm :=
  {| sinf := fun a => a; cosf := fun a => a; acosf := fun a => a;
     tanf := fun a => a; atan2 := fun a _ => a; asin := fun a => a;
     atan2_ff := fun a _ => F64.of_float a |}.

(** A quaternion at the north pole of [ToEulerRadians]: x = y = 1, z = w = 0,
    so that x*y + z*w = 1 and 0.499 * (x^2+y^2+z^2+w^2) = 0.998. *)
Definition north_pole_quat : Quat.t :=
  Quat.mk F32.one F32.one F32.zero F32.zero.

(** An instance of the interface whose tangent returns 9686331 * 2^-24 =
    0.57735031... (bit pattern 0x3f13cd3b), the [float] nearest to the
    tangent of 8784530 * 2^-24. *)
Definition tan30_libm : Libm :=
  {| sinf := fun a => a; cosf := fun a => a; acosf := fun a => a;
     tanf := fun _ => S754_finite false 9686331 (-24);
     atan2 := fun a _ => a; asin := fun a => a;
     atan2_ff := fun a _ => F64.of_float a |}.

(** Quaternions on the x axis, of magnitude 2 and 1, and a quaternion with
    an infinite component. *)
Definition quat_2i : Quat.t := Quat.make F32.zero (F32.of_Z 2) F32.zero F32.zero.

Definition quat_minus_2i : Quat.t :=
  Quat.make F32.zero (F32.of_Z (-2)) F32.zero F32.zero.

Definition quat_i : Quat.t := Quat.make F32.zero F32.one F32.zero F32.zero.

Definition quat_infinite_x : Quat.t :=
  Quat.make F32.one (S754_infinity false) F32.zero F32.zero.

(** A quaternion close to the identity: w = 1, x = 1/32, not normalised. *)
Definition quat_small_tilt : Quat.t :=
  Quat.make F32.one (F32.literal 1 32) F32.zero F32.zero.

(** The legacy identity with bottom-right cell 0: w = 0 for every vector. *)
Definition legacy_w0 : Matrix.t :=
  Matrix.mk F32.one F32.zero F32.zero F32.zero
            F32.zero F32.one F32.zero F32.zero
            F32.zero F32.zero F32.one F32.zero
            F32.zero F32.zero F32.zero F32.zero.

(** Structural equality of two floating-point values. *)
Definition SFsame (a b : spec_float) : bool :=
  match a, b with
  | S754_zero s, S754_zero s' => Bool.eqb s s'
  | S754_infinity s, S754_infinity s' => Bool.eqb s s'
  | S754_nan, S754_nan => true
  | S754_finite s m e, S754_finite s' m' e' =>
      Bool.eqb s s' && Pos.eqb m m' && Z.eqb e e'
  | _, _ => false
  end.

(** The value of an IEEE binary16 pattern with sign bit [s], exponent
    field [e] (1..30) and fraction [m]: (1024 + m) * 2^(e - 25), written as
    a canonical binary32 number; patterns with exponent field 0 are read
    as zero. *)
Definition half_value_flushed (h : Z) : spec_float :=
  let s := Z.testbit h 15 in
  let e := Z.land (Z.shiftr h 10) 31 in
  let m := Z.land h 1023 in
  if (e =? 0)%Z then S754_zero s
  else match ((1024 + m) * 8192)%Z with
       | Zpos p => S754_finite s p (e - 38)
       | _ => S754_nan
       end.

(** [forall_bits k p acc]: [p] holds of every number whose binary
    writing is that of [acc] followed by [k] more bits. *)
Fixpoint forall_bits (k : nat) (p : Z -> bool) (acc : Z) : bool :=
  match k with
  | O => p acc
  | S k' => forall_bits k' p (2 * acc) && forall_bits k' p (2 * acc + 1)
  end.

(** The sixteen cells of a legacy [Matrix], in constructor order. *)
Definition Matrix_cells (m : Matrix.t) : list F32.t :=
  [ Matrix.m00 m; Matrix.m01 m; Matrix.m02 m; Matrix.m03 m;
    Matrix.m10 m; Matrix.m11 m; Matrix.m12 m; Matrix.m13 m;
    Matrix.m20 m; Matrix.m21 m; Matrix.m22 m; Matrix.m23 m;
    Matrix.m30 m; Matrix.m31 m; Matrix.m32 m; Matrix.m33 m ].

(** [window x w y]: bit [n] of [y] is set exactly when one of the [w] bits
    of [x] from position [n] upwards is set. *)
Definition window (x w y : Z) : Prop :=
  forall n, 0 <= n ->
    (Z.testbit y n = true <-> exists i, 0 <= i < w /\ Z.testbit x (n + i) = true).

(** The five or-shift steps of [power_of_two_previous] and
    [power_of_two_next]. *)
Definition smear (x : Z) : Z :=
  let x := Z.lor x (Z.shiftr x 1) in
  let x := Z.lor x (Z.shiftr x 2) in
  let x := Z.lor x (Z.shiftr x 4) in
  let x := Z.lor x (Z.shiftr x 8) in
  let x := Z.lor x (Z.shiftr x 16) in
  x.

(** The sixteen entries of a [Mat4], row by row. *)
Definition Mat4_entries (m : Mat4.t) : list F32.t :=
  flat_map (fun i => map (fun j => Mat4.get m i j) Mat4.range4) Mat4.range4.

(** * Properties *)

(** ** Facts of IEEE arithmetic used below *)

Section FloatFacts.
Variables prec emax : Z.

Lemma SFmul_infinity_not_finite (a : spec_float) (s : bool) :
  isfinite (SFmul prec emax a (S754_infinity s)) = false.
Proof. destruct a; reflexivity. Qed.

Lemma SFdiv_one_zero (m : positive) (e : Z) (s : bool) :
  SFdiv prec emax (S754_finite false m e) (S754_zero s) = S754_infinity s.
Proof. reflexivity. Qed.

(** Dividing by a zero or by a NaN never yields a finite number. *)
Lemma SFdiv_degenerate_not_finite (a d : spec_float) :
  is_zero d || is_nan d = true -> isfinite (SFdiv prec emax a d) = false.
Proof. destruct d; try discriminate; destruct a; reflexivity. Qed.

Lemma SFdiv_zero_zero (s s' : bool) :
  SFdiv prec emax (S754_zero s) (S754_zero s') = S754_nan.
Proof. reflexivity. Qed.

(** The square root of a number that is not above zero is a zero or a NaN. *)
Lemma SFsqrt_nonpositive (a : spec_float) :
  SFleb a (S754_zero false) = true ->
  is_zero (SFsqrt prec emax a) || is_nan (SFsqrt prec emax a) = true.
Proof.
  destruct a as [s | [] | | [] m e]; simpl; try reflexivity; discriminate.
Qed.
End FloatFacts.

(** ** Mat4 copy construction and TRS decomposition *)

(** C2 (the code departs from the claim).  The claim: a copy-constructed
    [Mat4] has the sixteen entries of its source and compares equal to it.
    The code: the copy constructor has an empty body, so whatever the source
    the copy is the zero matrix; the copy of the identity differs from the
    identity in its first entry and [operator==] tells them apart. *)
Theorem Mat4_copy_ctor_yields_zero :
  (forall M : Mat4.t, Mat4.copy_ctor M = Mat4.Zero) /\
  Mat4.get (Mat4.copy_ctor Mat4.Identity) 0 0 = F32.zero /\
  Mat4.get Mat4.Identity 0 0 = F32.one /\
  Mat4.eqb (Mat4.copy_ctor Mat4.Identity) Mat4.Identity = false.
Proof. repeat split. Qed.

(** Zero is approximately zero, whatever the tolerance compared with. *)
Lemma epsilonEqual_zero_zero : epsilonEqual F32.zero (F32.of_Z 0) epsilon = true.
Proof. reflexivity. Qed.

(** C1 (the code departs from the claim).  The claim: [Decompose] succeeds
    on every [Compose(T,R,S)] and gives back (T,R,S).  The code: [Decompose]
    inspects a copy of its argument made by the empty copy constructor;
    entry [3][3] of that copy is 0, the first test fires and the function
    returns false for every matrix, composed or not. *)
Theorem Decompose_always_fails :
  (forall transform : Mat4.t, Transforms.Decompose transform = None) /\
  (forall (T : Vec3.t) (R : Quat.t) (S : Vec3.t),
      Transforms.Decompose (Transforms.Compose T R S) = None).
Proof.
  assert (H : forall transform, Transforms.Decompose transform = None).
  { intro transform. unfold Transforms.Decompose, Transforms.Decompose_body.
    change (Mat4.get (Mat4.copy_ctor transform) 3 3) with F32.zero.
    rewrite epsilonEqual_zero_zero. reflexivity. }
  split; [exact H | intros; apply H].
Qed.

(** Beyond the copy: [Compose] stores the translation in column 3
    ([M[0][3]], [M[1][3]], [M[2][3]]), which is where the body of
    [Decompose] looks for perspective terms and rejects the matrix; the
    translation itself is read from row 3. *)
Lemma Decompose_body_rejects_translation :
  Transforms.Decompose_body
    (Transforms.Compose (vec3_of_Z 1 2 3) Quat.Identity (vec3_of_Z 1 1 1)) = None.
Proof. vm_compute. reflexivity. Qed.

(** With no translation and no rotation the body does return the scale. *)
Lemma Decompose_body_pure_scale :
  Transforms.Decompose_body
    (Transforms.Compose (vec3_of_Z 0 0 0) Quat.Identity (vec3_of_Z 2 3 4))
  = Some (vec3_of_Z 0 0 0, Quat.Identity, vec3_of_Z 2 3 4).
Proof. vm_compute. reflexivity. Qed.

(** ** Quaternion normalisation *)

(** C5.  When the squared magnitude of [q] is not above zero,
    [GetNormalized] answers the identity (x=0, y=0, z=0, w=1).  The in-place
    [Normalize] has no guard: it divides the four components by the
    magnitude, here a zero (or NaN), so none of them stays finite; and the
    zero quaternion becomes NaN in all four components. *)
Theorem GetNormalized_guarded_Normalize_unguarded (q : Quat.t) :
  (Quat.mag2 q <=? F32.zero)%f32 = true ->
  Quat.GetNormalized q = Quat.mk F32.zero F32.zero F32.zero F32.one /\
  (let mag := F32.sqrt (Quat.mag2 q) in
   Quat.Normalize q =
   Quat.mk (Quat.x q / mag)%f32 (Quat.y q / mag)%f32
           (Quat.z q / mag)%f32 (Quat.w q / mag)%f32) /\
  (let n := Quat.Normalize q in
   isfinite (Quat.x n) || isfinite (Quat.y n) || isfinite (Quat.z n)
   || isfinite (Quat.w n) = false) /\
  (is_zero (Quat.x q) && is_zero (Quat.y q) && is_zero (Quat.z q)
   && is_zero (Quat.w q) = true ->
   Quat.Normalize q = Quat.mk F32.nan F32.nan F32.nan F32.nan).
Proof.
  intro Hle. split; [| split; [| split]].
  - unfold Quat.GetNormalized. fold (Quat.mag2 q). rewrite Hle. reflexivity.
  - reflexivity.
  - unfold Quat.Normalize. fold (Quat.mag2 q). cbv zeta. simpl.
    pose proof (SFsqrt_nonpositive F32.prec F32.emax _ Hle) as Hs.
    unfold F32.div, F32.sqrt.
    rewrite !(SFdiv_degenerate_not_finite _ _ _ _ Hs). reflexivity.
  - destruct q as [[sx| | |] [sy| | |] [sz| | |] [sw| | |]]; simpl;
      try discriminate.
    intros _. destruct sx, sy, sz, sw; reflexivity.
Qed.

Lemma GetNormalized_guarded_Normalize_unguarded_witness :
  Quat.GetNormalized (Quat.mk F32.zero F32.zero F32.zero F32.zero) = Quat.Identity /\
  Quat.Normalize (Quat.mk F32.zero F32.zero F32.zero F32.zero)
  = Quat.mk F32.nan F32.nan F32.nan F32.nan.
Proof.
  destruct (GetNormalized_guarded_Normalize_unguarded
              (Quat.mk F32.zero F32.zero F32.zero F32.zero))
    as (Hg & _ & _ & Hz).
  - reflexivity.
  - split; [exact Hg | apply Hz; reflexivity].
Defined.

(** ** Legacy Matrix: rotation extraction *)

(** C10.  As soon as one component of [GetScale()] compares equal to zero,
    [GetRotation()] returns the identity quaternion and performs none of
    the divisions by the scale. *)
Theorem GetRotation_zero_scale_identity (m : Matrix.t) :
  (Vec3.x (Matrix.GetScale m) ==? F32.zero)%f32
  || (Vec3.y (Matrix.GetScale m) ==? F32.zero)%f32
  || (Vec3.z (Matrix.GetScale m) ==? F32.zero)%f32 = true ->
  Matrix.GetRotation m = Quat.mk F32.zero F32.zero F32.zero F32.one.
Proof.
  intro Hz. unfold Matrix.GetRotation. cbv zeta. rewrite Hz. reflexivity.
Qed.

Lemma GetRotation_zero_scale_identity_witness :
  Matrix.GetRotation legacy_flat = Quat.mk F32.zero F32.zero F32.zero F32.one.
Proof.
  apply (GetRotation_zero_scale_identity legacy_flat). vm_compute. reflexivity.
Defined.

(** ** Matrix times Vec3: the two conventions *)

(** C6.  The legacy [Matrix::operator*(Vec3)] forms the four components of
    the homogeneous product and, when the fourth is not 1, divides the
    first three by it; [Mat4::operator*(Vec3)] multiplies by the [Vec4]
    made of the vector and w = 1 and returns the four sums as they are. *)
Theorem mul_vec3_perspective_divide_only_in_legacy
  (M : Matrix.t) (N : Mat4.t) (v : Vec3.t) :
  let h := Matrix.homogeneous M v in
  Matrix.mul_vec3 M v =
    (if (Vec4.w h !=? F32.one)%f32
     then Vec3.mk (Vec4.x h / Vec4.w h)%f32 (Vec4.y h / Vec4.w h)%f32
                  (Vec4.z h / Vec4.w h)%f32
     else Vec3.mk (Vec4.x h) (Vec4.y h) (Vec4.z h)) /\
  Mat4.mul_vec3 N v = Mat4.MultiplyVec4 N (Vec4.of_vec3 v F32.one) /\
  (let dot4 (r : Vec4.t) :=
     (F32.zero + Vec4.x r * Vec3.x v + Vec4.y r * Vec3.y v
      + Vec4.z r * Vec3.z v + Vec4.w r * F32.one)%f32 in
   Mat4.mul_vec3 N v =
   Vec4.mk (dot4 (Mat4.row0 N)) (dot4 (Mat4.row1 N))
           (dot4 (Mat4.row2 N)) (dot4 (Mat4.row3 N))).
Proof.
  cbv zeta. split; [| split].
  - unfold Matrix.mul_vec3, Matrix.homogeneous. cbv zeta. simpl Vec4.w.
    destruct (_ !=? F32.one)%f32; reflexivity.
  - reflexivity.
  - destruct N as [[] [] [] []], v. reflexivity.
Qed.

(** The two conventions told apart on one input: with w = 2 the legacy
    product of (2,4,6) is halved, the [Mat4] product keeps (2,4,6) and w. *)
Lemma mul_vec3_conventions_differ :
  Matrix.mul_vec3 legacy_w2 (vec3_of_Z 2 4 6) = vec3_of_Z 1 2 3 /\
  Mat4.mul_vec3 (Mat4.Scale (vec3_of_Z 1 1 1)) (vec3_of_Z 2 4 6)
  = vec4_of_Z 2 4 6 1 /\
  Mat4.mul_vec3 (Mat4.set Mat4.Identity 3 3 (F32.of_Z 2)) (vec3_of_Z 2 4 6)
  = vec4_of_Z 2 4 6 2.
Proof. vm_compute. repeat split. Qed.

(** ** Perspective projection *)

(** C8.  [PerspectiveProjection(16/9, 60, 0.1, 1000)] has
    [P[0][0] = 1 / ((16/9) * tan(30 degrees))], [P[1][1] = -1 / tan(30 degrees)],
    [P[3][2] = 1], [P[3][3] = 0] and bottom row (0, 0, 1, 0).  The tangent
    is the library tangent at the half angle converted to radians, which
    the code computes as 8784530 * 2^-24 (bit pattern 0x3f060a92): the
    [float] nearest to pi/6 = 0.52359877559..., which lies within half a
    unit in the last place of it.  Whenever the library returns for it a
    [float] within four units in the last place of 9686330 * 2^-24, the
    [float] nearest to tan(pi/6) = 0.57735026918..., [P[1][1]] is negative,
    between -1.732052 and -1.732050, and [P[0][0]] is positive, between
    0.974278 and 0.974280. *)
Theorem PerspectiveProjection_structure `{Libm} :
  let aspect := (F32.of_Z 16 / F32.of_Z 9)%f32 in
  let P := Mat4.PerspectiveProjection aspect (F32.of_Z 60)
             (F32.literal 1 10) (F32.of_Z 1000) in
  let theta := S754_finite false 8784530 (-24) in
  let tan30 := tanf theta in
  ToRadians (F32.of_Z 60 / F32.of_Z 2)%f32 = theta /\
  ((2 * 8784530 - 1) * 10 ^ 11 < 52359877559 * 2 ^ 25 /\
   52359877560 * 2 ^ 25 < (2 * 8784530 + 1) * 10 ^ 11)%Z /\
  ((2 * 9686330 - 1) * 10 ^ 11 < 57735026918 * 2 ^ 25 /\
   57735026919 * 2 ^ 25 < (2 * 9686330 + 1) * 10 ^ 11)%Z /\
  Mat4.get P 0 0 = (F32.one / (aspect * tan30))%f32 /\
  Mat4.get P 1 1 = (- F32.one / tan30)%f32 /\
  Mat4.get P 3 2 = F32.one /\
  Mat4.get P 3 3 = F32.zero /\
  Mat4.row P 3 = Vec4.mk F32.zero F32.zero F32.one F32.zero /\
  (forall m : positive,
     (9686326 <= Zpos m <= 9686334)%Z ->
     tan30 = S754_finite false m (-24) ->
     (Mat4.get P 1 1 <? F32.zero)%f32 = true /\
     (F32.literal 1732050 1000000 <=? - Mat4.get P 1 1)%f32
     && (- Mat4.get P 1 1 <=? F32.literal 1732052 1000000)%f32 = true /\
     (F32.zero <? Mat4.get P 0 0)%f32 = true /\
     (F32.literal 974278 1000000 <=? Mat4.get P 0 0)%f32
     && (Mat4.get P 0 0 <=? F32.literal 974280 1000000)%f32 = true).
Proof.
  cbv zeta.
  assert (E : ToRadians (F32.of_Z 60 / F32.of_Z 2)%f32
              = S754_finite false 8784530 (-24)) by (vm_compute; reflexivity).
  split; [exact E |].
  split; [lia |].
  split; [lia |].
  unfold Mat4.PerspectiveProjection. rewrite E.
  repeat (split; [reflexivity |]).
  intros m Hm Htan. cbv zeta.
  rewrite Htan.
  assert (Hcases : In m [9686326; 9686327; 9686328; 9686329; 9686330;
                         9686331; 9686332; 9686333; 9686334]%positive).
  { cbv [In].
    assert (Zpos m = 9686326 \/ Zpos m = 9686327 \/ Zpos m = 9686328 \/
            Zpos m = 9686329 \/ Zpos m = 9686330 \/ Zpos m = 9686331 \/
            Zpos m = 9686332 \/ Zpos m = 9686333 \/ Zpos m = 9686334)%Z
      as Hz by lia.
    repeat (destruct Hz as [Hz | Hz];
            [injection Hz as <-; tauto |]).
    injection Hz as <-. tauto. }
  clear Hm Htan. cbv [In] in Hcases.
  repeat (destruct Hcases as [<- | Hcases];
          [vm_compute; repeat split |]).
  destruct Hcases.
Qed.

Lemma PerspectiveProjection_structure_witness :
  let P := @Mat4.PerspectiveProjection tan30_libm (F32.of_Z 16 / F32.of_Z 9)%f32
             (F32.of_Z 60) (F32.literal 1 10) (F32.of_Z 1000) in
  Mat4.get P 1 1 = S754_finite true 14529494 (-23) /\
  Mat4.get P 0 0 = S754_finite false 16345681 (-24) /\
  (Mat4.get P 1 1 <? F32.zero)%f32 = true /\
  (F32.zero <? Mat4.get P 0 0)%f32 = true.
Proof.
  cbv zeta.
  destruct (@PerspectiveProjection_structure tan30_libm)
    as (_ & _ & _ & _ & _ & _ & _ & _ & Hsign).
  destruct (Hsign 9686331%positive) as (H11 & _ & H00 & _);
    [lia | reflexivity |].
  split; [vm_compute; reflexivity |].
  split; [vm_compute; reflexivity |].
  split; [exact H11 | exact H00].
Defined.

(** ** Inverse of a singular Mat4 *)

Lemma Mat4_entries_head (m : Mat4.t) :
  Mat4_entries m = Mat4.get m 0 0 :: tl (Mat4_entries m).
Proof. reflexivity. Qed.

Lemma forallb_existsb_cons {A : Type} (p : A -> bool) (a : A) (l : list A) :
  forallb p (a :: l) = true -> existsb p (a :: l) = true.
Proof.
  simpl. intro H. apply andb_prop in H. destruct H as [-> _]. reflexivity.
Qed.

(** Every entry of [GetInverse] is a cofactor expression times
    [1.0f / det]: no branch, no test, no other result. *)
Lemma GetInverse_entries_scaled_by_idet (M : Mat4.t) :
  Forall (fun a => exists c, a = (c * (F32.one / Mat4.GetInverse_det M))%f32)
         (Mat4_entries (Mat4.GetInverse M)).
Proof.
  cbv [Mat4_entries Mat4.range4 flat_map map app].
  repeat (apply Forall_cons; [eexists; reflexivity |]). apply Forall_nil.
Qed.

(** C7, as stated, fails: this matrix has two identical rows, yet the
    determinant that [GetInverse] computes is -1 (the cofactor sums do not
    cancel in [float]) and all sixteen entries of the inverse are finite. *)
Lemma GetInverse_duplicated_row_all_finite :
  Mat4.row duplicated_row_matrix 1 = Mat4.row duplicated_row_matrix 2 /\
  Mat4.GetInverse_det duplicated_row_matrix = F32.of_Z (-1) /\
  existsb (fun a => negb (isfinite a))
          (Mat4_entries (Mat4.GetInverse duplicated_row_matrix)) = false.
Proof. vm_compute. repeat split. Qed.

(** C7, amended.  Whenever the determinant computed by [GetInverse] is a
    zero, every entry of the result (hence at least one) is an infinity or
    a NaN; the function has no other outcome. *)
Theorem GetInverse_zero_det_non_finite (M : Mat4.t) :
  is_zero (Mat4.GetInverse_det M) = true ->
  forallb (fun a => negb (isfinite a)) (Mat4_entries (Mat4.GetInverse M)) = true /\
  existsb (fun a => negb (isfinite a)) (Mat4_entries (Mat4.GetInverse M)) = true.
Proof.
  intro Hz.
  assert (Hall : forallb (fun a => negb (isfinite a))
                         (Mat4_entries (Mat4.GetInverse M)) = true).
  { apply forallb_forall. intros a Ha.
    pose proof (GetInverse_entries_scaled_by_idet M) as HF.
    rewrite Forall_forall in HF. destruct (HF a Ha) as [c ->].
    destruct (Mat4.GetInverse_det M) as [s | | |]; try discriminate.
    unfold F32.one, F32.div, F32.mul.
    change (SFdiv F32.prec F32.emax (F32.of_Z 1) (S754_zero s))
      with (S754_infinity s).
    rewrite SFmul_infinity_not_finite. reflexivity. }
  split; [exact Hall |].
  rewrite Mat4_entries_head in Hall |- *.
  apply forallb_existsb_cons. exact Hall.
Qed.

(** The duplicated-row matrix of the test-suite is such a matrix. *)
Lemma GetInverse_zero_det_non_finite_witness :
  existsb (fun a => negb (isfinite a))
          (Mat4_entries (Mat4.GetInverse singular_test_matrix)) = true.
Proof.
  apply (GetInverse_zero_det_non_finite singular_test_matrix). reflexivity.
Defined.

(** ** FromToRotation on opposite vectors *)

(** C9 (the code departs from the claim).  The claim: for every nonzero
    [v], [FromToRotation(v, -v)] is a half-turn.  The code: the half-turn
    branch is entered only when the dot product of the two normalised
    vectors is at most -1 exactly.  For v = (1,1,1) the normalised
    components are 0.57735026 and the dot product is -(1 - 2^-24), above
    -1; the general branch then builds the quaternion (0,0,0,0), which
    [GetNormalized] replaces by the identity.  The result is the rotation
    returned for [FromToRotation(v, v)], and its angle to the identity is
    the angle of the identity to itself. *)
Theorem FromToRotation_opposite_vectors_identity `{Libm} :
  let v := vec3_of_Z 1 1 1 in
  Utils.Dot (Utils.Normalize v) (Utils.Normalize (Vec3.neg v))
    = S754_finite true 16777215 (-24) /\
  (Utils.Dot (Utils.Normalize v) (Utils.Normalize (Vec3.neg v))
     <=? - F32.one)%f32 = false /\
  Quat.FromToRotation v (Vec3.neg v) = Quat.mk F32.zero F32.zero F32.zero F32.one /\
  Quat.FromToRotation v (Vec3.neg v) = Quat.FromToRotation v v /\
  Quat.Angle Quat.Identity (Quat.FromToRotation v (Vec3.neg v))
    = Quat.Angle Quat.Identity Quat.Identity.
Proof.
  cbv zeta.
  assert (E : Quat.FromToRotation (vec3_of_Z 1 1 1) (Vec3.neg (vec3_of_Z 1 1 1))
              = Quat.mk F32.zero F32.zero F32.zero F32.one)
    by (vm_compute; reflexivity).
  assert (E' : Quat.FromToRotation (vec3_of_Z 1 1 1) (vec3_of_Z 1 1 1)
               = Quat.mk F32.zero F32.zero F32.zero F32.one)
    by (vm_compute; reflexivity).
  rewrite E, E'. repeat split.
Qed.

(** The input of the test-suite, v = (1,0,0), does take the half-turn
    branch: the axis is (0,0,1) and the angle handed to [AngleAxis] is 180. *)
Lemma FromToRotation_opposite_unit_x `{Libm} :
  Quat.FromToRotation (vec3_of_Z 1 0 0) (Vec3.neg (vec3_of_Z 1 0 0))
  = Quat.AngleAxis (F32.of_Z 180) (vec4_of_Z 0 0 1 0).
Proof.
  unfold Quat.FromToRotation.
  change (Utils.Normalize (vec3_of_Z 1 0 0)) with (vec3_of_Z 1 0 0).
  reflexivity.
Qed.

(** ** Order, sign and rounding facts *)

Lemma SFcompare_None (a b : spec_float) :
  SFcompare a b = None -> is_nan a || is_nan b = true.
Proof.
  destruct a as [sa | sa | | sa ma ea], b as [sb | sb | | sb mb eb];
    simpl; try discriminate; try reflexivity;
    destruct sa; try discriminate; destruct sb; discriminate.
Qed.

Lemma compare_cont_swap (p q : positive) :
  Pos.compare_cont Eq q p = CompOpp (Pos.compare_cont Eq p q).
Proof. rewrite Pos.compare_cont_antisym. reflexivity. Qed.

Lemma SFcompare_swap (a b : spec_float) :
  SFcompare b a = option_map CompOpp (SFcompare a b).
Proof.
  destruct a as [sa | sa | | sa ma ea], b as [sb | sb | | sb mb eb];
    simpl; try reflexivity;
    try (destruct sa; reflexivity); try (destruct sb; reflexivity);
    destruct sa, sb; simpl; try reflexivity;
    rewrite (Z.compare_antisym ea eb);
    destruct (ea ?= eb)%Z; simpl; try reflexivity;
    rewrite (compare_cont_swap ma mb); reflexivity.
Qed.

Lemma SFcompare_opp (a b : spec_float) :
  SFcompare (SFopp a) (SFopp b) = SFcompare b a.
Proof.
  rewrite (SFcompare_swap a b).
  destruct a as [sa | sa | | sa ma ea], b as [sb | sb | | sb mb eb];
    simpl; try reflexivity;
    try (destruct sa; reflexivity); try (destruct sb; reflexivity);
    destruct sa, sb; simpl; try reflexivity;
    destruct (ea ?= eb)%Z; simpl; try reflexivity;
    rewrite CompOpp_involutive; reflexivity.
Qed.

Lemma SFltb_false_SFleb (a b : spec_float) :
  is_nan a = false -> is_nan b = false -> SFltb a b = false -> SFleb b a = true.
Proof.
  intros Ha Hb. unfold SFltb, SFleb. rewrite (SFcompare_swap a b).
  destruct (SFcompare a b) as [[] |] eqn:E; simpl; try reflexivity;
    try discriminate.
  apply SFcompare_None in E. rewrite Ha, Hb in E. discriminate.
Qed.

Section RoundingFacts.
Variables prec emax : Z.

Lemma shr_1_nonneg (mrs : shr_record) :
  (0 <= shr_m mrs)%Z -> (0 <= shr_m (shr_1 mrs))%Z.
Proof.
  destruct mrs as [m r s]. destruct m as [| [p | p |] | p]; simpl; lia.
Qed.

Lemma iter_pos_shr_1_nonneg (p : positive) :
  forall mrs, (0 <= shr_m mrs)%Z -> (0 <= shr_m (iter_pos shr_1 p mrs))%Z.
Proof.
  induction p as [p IH | p IH |]; simpl; intros mrs Hm.
  - apply IH, IH, shr_1_nonneg, Hm.
  - apply IH, IH, Hm.
  - apply shr_1_nonneg, Hm.
Qed.

Lemma shr_fexp_nonneg (m e : Z) (l : location) :
  (0 <= m)%Z -> (0 <= shr_m (fst (shr_fexp prec emax m e l)))%Z.
Proof.
  intro Hm. unfold shr_fexp, shr.
  assert (H0 : (0 <= shr_m (shr_record_of_loc m l))%Z)
    by (destruct l as [| []]; exact Hm).
  destruct (fexp prec emax (Zdigits2 m + e) - e)%Z; simpl; trivial.
  apply iter_pos_shr_1_nonneg, H0.
Qed.

Lemma round_nearest_even_nonneg (m : Z) (l : location) :
  (0 <= m)%Z -> (0 <= round_nearest_even m l)%Z.
Proof.
  intro Hm. destruct l as [| []]; simpl; try lia. destruct (Z.even m); lia.
Qed.

(** The shape of a rounded result: the sign asked for, or (for a negative
    significand only) a NaN. *)
Lemma binary_round_aux_shape (s : bool) (m e : Z) (l : location) :
  match binary_round_aux prec emax s m e l with
  | S754_zero s' | S754_infinity s' | S754_finite s' _ _ => s' = s
  | S754_nan => (m < 0)%Z
  end.
Proof.
  unfold binary_round_aux.
  pose proof (shr_fexp_nonneg m e l) as H1.
  destruct (shr_fexp prec emax m e l) as [mrs' e']. simpl in H1.
  pose proof (shr_fexp_nonneg
                (round_nearest_even (shr_m mrs') (loc_of_shr_record mrs'))
                e' loc_Exact) as H2.
  destruct (shr_fexp prec emax _ e' loc_Exact) as [mrs'' e'']. simpl in H2.
  destruct (shr_m mrs'') as [| p | p] eqn:E.
  - reflexivity.
  - destruct (e'' <=? emax - prec)%Z; reflexivity.
  - destruct (Z_lt_le_dec m 0) as [Hlt | Hge]; [exact Hlt |].
    specialize (H1 Hge).
    specialize (H2 (round_nearest_even_nonneg _ _ H1)). lia.
Qed.

Lemma binary_round_shape (s : bool) (m : positive) (e : Z) :
  match binary_round prec emax s m e with
  | S754_zero s' | S754_infinity s' | S754_finite s' _ _ => s' = s
  | S754_nan => False
  end.
Proof.
  unfold binary_round.
  destruct (shl_align m e _) as [mz ez].
  pose proof (binary_round_aux_shape s (Zpos mz) ez loc_Exact) as H.
  destruct (binary_round_aux prec emax s (Zpos mz) ez loc_Exact); trivial. lia.
Qed.

Lemma binary_round_aux_opp (s : bool) (m e : Z) (l : location) :
  binary_round_aux prec emax (negb s) m e l
  = SFopp (binary_round_aux prec emax s m e l).
Proof.
  unfold binary_round_aux.
  destruct (shr_fexp prec emax m e l) as [mrs' e'].
  destruct (shr_fexp prec emax _ e' loc_Exact) as [mrs'' e''].
  destruct (shr_m mrs''); try reflexivity.
  destruct (e'' <=? emax - prec)%Z; reflexivity.
Qed.

Lemma SFround_opp (a : spec_float) :
  SFround prec emax (SFopp a) = SFopp (SFround prec emax a).
Proof.
  destruct a as [s | s | | s m e]; try reflexivity.
  simpl. unfold binary_round. destruct (shl_align m e _) as [mz ez].
  apply binary_round_aux_opp.
Qed.

Lemma SFmul_opp_l (a b : spec_float) :
  SFmul prec emax (SFopp a) b = SFopp (SFmul prec emax a b).
Proof.
  destruct a as [sa | sa | | sa ma ea], b as [sb | sb | | sb mb eb];
    try reflexivity; simpl;
    try (destruct sa, sb; reflexivity).
  replace (xorb (negb sa) sb) with (negb (xorb sa sb))
    by (destruct sa, sb; reflexivity).
  apply binary_round_aux_opp.
Qed.

Lemma SFround_is_nan (a : spec_float) :
  is_nan (SFround prec emax a) = is_nan a.
Proof.
  destruct a as [s | s | | s m e]; try reflexivity. simpl.
  pose proof (binary_round_shape s m e) as H.
  destruct (binary_round prec emax s m e); trivial. destruct H.
Qed.

Lemma SFround_pos_signed (a : spec_float) :
  pos_signed a = true -> pos_signed (SFround prec emax a) = true.
Proof.
  destruct a as [s | s | | s m e]; trivial. simpl. intro Hs.
  pose proof (binary_round_shape s m e) as H.
  destruct (binary_round prec emax s m e); subst; trivial.
Qed.

(** Multiplying by a finite number keeps NaN-ness. *)
Lemma SFmul_finite_is_nan (s : bool) (m : positive) (e : Z) (a : spec_float) :
  is_nan (SFmul prec emax (S754_finite s m e) a) = is_nan a.
Proof.
  destruct a as [sa | sa | | sa ma ea]; try reflexivity. simpl.
  pose proof (binary_round_aux_shape (xorb s sa) (Zpos (m * ma)) (e + ea)
                                     loc_Exact) as H.
  destruct (binary_round_aux prec emax _ _ _ _); trivial. lia.
Qed.

(** A square never carries the sign bit. *)
Lemma SFmul_self_pos_signed (a : spec_float) :
  pos_signed (SFmul prec emax a a) = true.
Proof.
  destruct a as [s | s | | s m e]; simpl; try reflexivity;
    try (destruct s; reflexivity).
  pose proof (binary_round_aux_shape (xorb s s) (Zpos (m * m)) (e + e)
                                     loc_Exact) as H.
  destruct (binary_round_aux prec emax _ _ _ _); subst; trivial;
    destruct s; reflexivity.
Qed.

Lemma SFmul_pos_signed (a b : spec_float) :
  pos_signed a = true -> pos_signed b = true ->
  pos_signed (SFmul prec emax a b) = true.
Proof.
  destruct a as [sa | sa | | sa ma ea], b as [sb | sb | | sb mb eb];
    simpl; trivial; intros Ha Hb;
    apply negb_true_iff in Ha; apply negb_true_iff in Hb; subst; trivial.
  pose proof (binary_round_aux_shape (xorb false false) (Zpos (ma * mb))
                                     (ea + eb) loc_Exact) as H.
  destruct (binary_round_aux prec emax _ _ _ _); subst; trivial.
Qed.

Lemma SFadd_pos_signed (a b : spec_float) :
  pos_signed a = true -> pos_signed b = true ->
  pos_signed (SFadd prec emax a b) = true.
Proof.
  destruct a as [sa | sa | | sa ma ea], b as [sb | sb | | sb mb eb];
    simpl; trivial; intros Ha Hb;
    apply negb_true_iff in Ha; apply negb_true_iff in Hb; subst; trivial.
  unfold binary_normalize. simpl.
  pose proof (binary_round_shape false
                (fst (shl_align ma ea (Z.min ea eb))
                 + fst (shl_align mb eb (Z.min ea eb)))
                (Z.min ea eb)) as H.
  destruct (binary_round prec emax false _ _); subst; trivial.
Qed.
Lemma SFmul_comm (a b : spec_float) :
  SFmul prec emax a b = SFmul prec emax b a.
Proof.
  destruct a as [sa | sa | | sa ma ea], b as [sb | sb | | sb mb eb];
    simpl; try reflexivity; try (rewrite (xorb_comm sa sb); reflexivity).
  rewrite (xorb_comm sa sb), (Pos.mul_comm ma mb), (Z.add_comm ea eb).
  reflexivity.
Qed.

Lemma binary_round_opp (s : bool) (m : positive) (e : Z) :
  binary_round prec emax (negb s) m e = SFopp (binary_round prec emax s m e).
Proof.
  unfold binary_round. destruct (shl_align m e _) as [mz ez].
  apply binary_round_aux_opp.
Qed.

Lemma binary_normalize_opp (m e : Z) :
  binary_normalize prec emax (- m) e false
  = SFopp (binary_normalize prec emax m e false)
  \/ (m = 0%Z).
Proof.
  destruct m as [| p | p]; [right; reflexivity | left | left]; simpl.
  - apply (binary_round_opp false).
  - exact (binary_round_opp true p e).
Qed.

Lemma SFopp_involutive (a : spec_float) : SFopp (SFopp a) = a.
Proof. destruct a as [[] | [] | | [] m e]; reflexivity. Qed.

Lemma SFmul_opp_r (a b : spec_float) :
  SFmul prec emax a (SFopp b) = SFopp (SFmul prec emax a b).
Proof.
  rewrite (SFmul_comm a (SFopp b)), SFmul_opp_l.
  rewrite (SFmul_comm b a). reflexivity.
Qed.

Lemma SFdiv_opp_l (a b : spec_float) :
  SFdiv prec emax (SFopp a) b = SFopp (SFdiv prec emax a b).
Proof.
  destruct a as [sa | sa | | sa ma ea], b as [sb | sb | | sb mb eb];
    try reflexivity; try (destruct sa, sb; reflexivity).
  cbn [SFopp SFdiv].
  destruct (SFdiv_core_binary prec emax (Z.pos ma) ea (Z.pos mb) eb)
    as [[mz ez] lz].
  replace (xorb (negb sa) sb) with (negb (xorb sa sb))
    by (destruct sa, sb; reflexivity).
  apply binary_round_aux_opp.
Qed.

(** The sum of two opposites. *)
Lemma SFadd_opp_opp (a b : spec_float) :
  opposite_sums (SFadd prec emax a b) (SFadd prec emax (SFopp a) (SFopp b)).
Proof.
  unfold opposite_sums.
  destruct a as [sa | sa | | sa ma ea], b as [sb | sb | | sb mb eb];
    try (left; reflexivity);
    try (destruct sa, sb; (left; reflexivity) || (right; split; reflexivity)).
  cbn [SFopp SFadd].
  set (X := cond_Zopp sa (Zpos (fst (shl_align ma ea (Z.min ea eb))))).
  set (Y := cond_Zopp sb (Zpos (fst (shl_align mb eb (Z.min ea eb))))).
  replace (cond_Zopp (negb sa) (Zpos (fst (shl_align ma ea (Z.min ea eb)))))
    with (- X)%Z by (unfold X; destruct sa; reflexivity).
  replace (cond_Zopp (negb sb) (Zpos (fst (shl_align mb eb (Z.min ea eb)))))
    with (- Y)%Z by (unfold Y; destruct sb; reflexivity).
  replace (- X + - Y)%Z with (- (X + Y))%Z by lia.
  destruct (binary_normalize_opp (X + Y) (Z.min ea eb)) as [-> | ->].
  - left. reflexivity.
  - right. split; reflexivity.
Qed.

Lemma opposite_sums_add (s s' p : spec_float) :
  opposite_sums s s' ->
  opposite_sums (SFadd prec emax s p) (SFadd prec emax s' (SFopp p)).
Proof.
  intros [-> | [-> ->]].
  - apply SFadd_opp_opp.
  - unfold opposite_sums.
    destruct p as [[] | [] | | [] m e];
      (left; reflexivity) || (right; split; reflexivity).
Qed.

Lemma opposite_sums_nonzero (s s' : spec_float) :
  opposite_sums s s' -> is_zero s = false -> s' = SFopp s.
Proof. intros [-> | [-> _]]; [reflexivity | discriminate]. Qed.
End RoundingFacts.

(** Above a number without sign bit there are only positive numbers. *)
Lemma SFltb_pos_signed_positive (y x : spec_float) :
  pos_signed y = true -> SFltb y x = true -> SFltb (S754_zero false) x = true.
Proof.
  destruct y as [sy | sy | | sy my ey], x as [sx | sx | | sx mx ex];
    simpl; try discriminate; intros Hy; apply negb_true_iff in Hy; subst;
    try discriminate; destruct sx; try discriminate; reflexivity.
Qed.

(** A number whose absolute value exceeds [y >= 0] while it does not
    itself exceed [y] lies below [-y], hence below zero. *)
Lemma SFabs_above_negative (y x : spec_float) :
  pos_signed y = true -> SFltb y (SFabs x) = true -> SFltb y x = false ->
  SFltb x (SFopp y) = true /\ SFltb x (S754_zero false) = true.
Proof.
  intros Hy Habs Hnot.
  assert (Hx : x = SFopp (SFabs x) /\ SFltb x (S754_zero false) = true).
  { destruct x as [sx | sx | | sx mx ex]; simpl in *.
    - destruct y as [sy | sy | | sy my ey]; simpl in *; try discriminate;
        apply negb_true_iff in Hy; subst; discriminate.
    - destruct sx; [split; reflexivity | congruence].
    - destruct y; discriminate.
    - destruct sx; [split; reflexivity | congruence]. }
  destruct Hx as [Ex Hneg]. split; [| exact Hneg].
  rewrite Ex. unfold SFltb. rewrite SFcompare_opp. exact Habs.
Qed.

(** ** SLERP *)

(** [GetNormalized] computes the normalised quaternion of the
    specification. *)
Lemma GetNormalized_normalized (q : Quat.t) :
  Quat.GetNormalized q = SlerpSpec.normalized q.
Proof.
  unfold Quat.GetNormalized, SlerpSpec.normalized, SlerpSpec.degenerate,
    SlerpSpec.norm2, Quat.make, Quat.default.
  cbv zeta.
  generalize (Quat.w q * Quat.w q + Quat.x q * Quat.x q
              + Quat.y q * Quat.y q + Quat.z q * Quat.z q)%f32.
  intro n2.
  destruct (n2 <=? F32.zero)%f32; [reflexivity |].
  destruct (F32.sqrt n2 <=? F32.zero)%f32; reflexivity.
Qed.

(** After the double-cover correction the dot product is never below zero. *)
Lemma corrected_dot_not_negative (from to : Quat.t) :
  (SlerpSpec.corrected_dot from to <? F32.zero)%f32 = false.
Proof.
  unfold SlerpSpec.corrected_dot.
  destruct (SlerpSpec.raw_dot from to <? F32.zero)%f32 eqn:E; [| exact E].
  generalize dependent (SlerpSpec.raw_dot from to). intros d E.
  destruct d as [s | [] | | [] m e]; try discriminate; reflexivity.
Qed.

(** The correction keeps a NaN and nothing else as a NaN. *)
Lemma corrected_dot_is_nan (from to : Quat.t) :
  is_nan (SlerpSpec.corrected_dot from to) = is_nan (SlerpSpec.raw_dot from to).
Proof.
  unfold SlerpSpec.corrected_dot.
  generalize (SlerpSpec.raw_dot from to). intro d.
  destruct (d <? F32.zero)%f32; [| reflexivity].
  destruct d; reflexivity.
Qed.

(** On a number that is not negative the clamp can only cut at 1; it keeps
    a NaN, and every other result lies between 0 and 1. *)
Lemma clamp_unit_not_negative (d : F32.t) :
  (d <? F32.zero)%f32 = false ->
  SlerpSpec.clamp_unit d = (if (F32.one <? d)%f32 then F32.one else d) /\
  is_nan (SlerpSpec.clamp_unit d) = is_nan d /\
  (is_nan d = false ->
   (- F32.one <=? SlerpSpec.clamp_unit d)%f32
   && (F32.zero <=? SlerpSpec.clamp_unit d)%f32
   && (SlerpSpec.clamp_unit d <=? F32.one)%f32 = true).
Proof.
  intro Hd. unfold SlerpSpec.clamp_unit.
  assert (E : (d <? - F32.one)%f32 = false).
  { destruct d as [s | [] | | [] m e]; try reflexivity; discriminate Hd. }
  rewrite E. split; [reflexivity |].
  destruct (F32.one <? d)%f32 eqn:E1.
  - split; [destruct d; try reflexivity; discriminate E1 |].
    intros _. reflexivity.
  - split; [reflexivity |]. intro Hn.
    unfold F32.le, F32.lt in *.
    rewrite (SFltb_false_SFleb d (- F32.one)%f32 Hn eq_refl E).
    rewrite (SFltb_false_SFleb d F32.zero Hn eq_refl Hd).
    rewrite (SFltb_false_SFleb F32.one d eq_refl Hn E1). reflexivity.
Qed.

(** The source function and the function worded by the specification agree. *)
Lemma Slerp_refines_SlerpSpec `{Libm} (from to : Quat.t) (t_ : F32.t) :
  Quat.Slerp from to t_ = SlerpSpec.Slerp from to t_.
Proof.
  unfold Quat.Slerp, SlerpSpec.Slerp, SlerpSpec.acos_argument,
    SlerpSpec.second, SlerpSpec.corrected_dot, SlerpSpec.raw_dot,
    SlerpSpec.dot.
  cbv zeta. rewrite !GetNormalized_normalized.
  generalize (SlerpSpec.normalized from) (SlerpSpec.normalized to).
  intros a b.
  change (F32.literal 1 1000) with SlerpSpec.small_angle.
  change clamp with (fun v lo hi : F32.t =>
                       if (v <? lo)%f32 then lo
                       else if (hi <? v)%f32 then hi else v).
  unfold SlerpSpec.clamp_unit, SlerpSpec.nlerp, SlerpSpec.lerp,
    SlerpSpec.sine_ratio, SlerpSpec.negated, Quat.make.
  destruct (_ <? F32.zero)%f32; cbv beta iota zeta;
    rewrite GetNormalized_normalized; cbn [Quat.x Quat.y Quat.z Quat.w];
    reflexivity.
Qed.

(** The squared magnitude does not see the sign of the quaternion. *)
Lemma norm2_negated (q : Quat.t) :
  SlerpSpec.norm2 (SlerpSpec.negated q) = SlerpSpec.norm2 q.
Proof.
  unfold SlerpSpec.norm2, SlerpSpec.negated. cbn [Quat.x Quat.y Quat.z Quat.w].
  unfold F32.mul, F32.neg.
  rewrite !SFmul_opp_l, !SFmul_opp_r, !SFopp_involutive. reflexivity.
Qed.

(** Normalising the opposite quaternion gives the opposite of the
    normalised one; a degenerate quaternion and its opposite both stand for
    the identity. *)
Lemma normalized_negated (q : Quat.t) :
  SlerpSpec.normalized (SlerpSpec.negated q)
  = if SlerpSpec.degenerate q then SlerpSpec.normalized q
    else SlerpSpec.negated (SlerpSpec.normalized q).
Proof.
  unfold SlerpSpec.normalized, SlerpSpec.degenerate.
  rewrite norm2_negated. cbv zeta.
  destruct (_ || _); [reflexivity |].
  unfold SlerpSpec.negated. cbn [Quat.x Quat.y Quat.z Quat.w].
  unfold F32.div, F32.neg. rewrite !SFdiv_opp_l. reflexivity.
Qed.

Lemma negated_involutive (q : Quat.t) :
  SlerpSpec.negated (SlerpSpec.negated q) = q.
Proof.
  destruct q. unfold SlerpSpec.negated. cbn [Quat.x Quat.y Quat.z Quat.w].
  unfold F32.neg. rewrite !SFopp_involutive. reflexivity.
Qed.

(** The dot product with the opposite quaternion. *)
Lemma dot_negated (a b : Quat.t) :
  opposite_sums (SlerpSpec.dot a b) (SlerpSpec.dot a (SlerpSpec.negated b)).
Proof.
  unfold SlerpSpec.dot, SlerpSpec.negated. cbn [Quat.x Quat.y Quat.z Quat.w].
  unfold F32.add, F32.mul, F32.neg. rewrite !SFmul_opp_r.
  do 2 apply opposite_sums_add. apply SFadd_opp_opp.
Qed.

(** For [to] and for its opposite, the second operand and the corrected
    dot product are the same as soon as the dot product of the normalised
    inputs is a number other than zero. *)
Lemma second_negated (from to : Quat.t) :
  (SlerpSpec.raw_dot from to <? F32.zero)%f32
  || (F32.zero <? SlerpSpec.raw_dot from to)%f32 = true ->
  SlerpSpec.second from (SlerpSpec.negated to) = SlerpSpec.second from to /\
  SlerpSpec.corrected_dot from (SlerpSpec.negated to)
  = SlerpSpec.corrected_dot from to.
Proof.
  unfold SlerpSpec.second, SlerpSpec.corrected_dot, SlerpSpec.raw_dot.
  rewrite normalized_negated.
  destruct (SlerpSpec.degenerate to); [split; reflexivity |].
  generalize (SlerpSpec.normalized from) (SlerpSpec.normalized to).
  intros a b Hdot.
  pose proof (dot_negated a b) as Hopp.
  assert (Hnz : is_zero (SlerpSpec.dot a b) = false).
  { destruct (SlerpSpec.dot a b) as [s | s | | s m e]; try reflexivity.
    destruct s; discriminate Hdot. }
  rewrite (opposite_sums_nonzero _ _ Hopp Hnz).
  rewrite negated_involutive.
  revert Hdot. clear Hopp Hnz.
  generalize (SlerpSpec.dot a b). intros d Hdot.
  generalize (SlerpSpec.negated b). intro nb.
  destruct d as [s | [] | | [] m e]; try discriminate Hdot;
    try (destruct s; discriminate Hdot); split; reflexivity.
Qed.

(** Double cover: a quaternion and its opposite stand for the same rotation,
    and [Slerp] gives the same result for [to] and for its opposite as soon
    as the dot product of the normalised inputs is a number other than
    zero. *)
Lemma Slerp_double_cover `{Libm} (from to : Quat.t) (t_ : F32.t) :
  (SlerpSpec.raw_dot from to <? F32.zero)%f32
  || (F32.zero <? SlerpSpec.raw_dot from to)%f32 = true ->
  Quat.Slerp from (SlerpSpec.negated to) t_ = Quat.Slerp from to t_.
Proof.
  intro Hdot. rewrite !Slerp_refines_SlerpSpec.
  destruct (second_negated from to Hdot) as [Hb Hd].
  unfold SlerpSpec.Slerp, SlerpSpec.acos_argument.
  rewrite Hb, Hd. reflexivity.
Qed.

(** [Slerp] sees its inputs through their normalisations only. *)
Lemma Slerp_of_normalized `{Libm} (from to from' to' : Quat.t) (t_ : F32.t) :
  SlerpSpec.normalized from' = SlerpSpec.normalized from ->
  SlerpSpec.normalized to' = SlerpSpec.normalized to ->
  Quat.Slerp from' to' t_ = Quat.Slerp from to t_.
Proof.
  intros Ha Hb. rewrite !Slerp_refines_SlerpSpec.
  unfold SlerpSpec.Slerp, SlerpSpec.acos_argument, SlerpSpec.second,
    SlerpSpec.corrected_dot, SlerpSpec.raw_dot.
  rewrite Ha, Hb. reflexivity.
Qed.

(** On the x axis: both inputs of magnitude 2, the second one equal or
    opposite to the first.  The result is the unit quaternion of the
    axis, for every finite [t] and whatever the math library computes. *)
Lemma Slerp_on_the_x_axis `{Libm} (t_ : F32.t) :
  isfinite t_ = true ->
  Quat.Slerp quat_2i quat_2i t_ = quat_i /\
  Quat.Slerp quat_2i quat_minus_2i t_ = quat_i.
Proof.
  intro Hfin.
  destruct t_ as [s | s | | s m e]; try discriminate Hfin;
    destruct s; split; vm_compute; reflexivity.
Qed.

(** Extrapolation at a small angle: from the identity towards
    (w = 1, x = 1/32) with [t = 2].  The linear interpolation of the
    normalised inputs, (x = 0.062469..., w = 0.999024...), has squared
    magnitude 1.0019...; the result is its renormalisation,
    (x = 16752690 * 2^-28 = 0.062408..., w = 16744512 * 2^-24 = 0.998050...),
    whatever the math library computes. *)
Lemma Slerp_small_angle_extrapolation `{Libm} :
  Quat.Slerp Quat.Identity quat_small_tilt (F32.of_Z 2)
  = Quat.mk (S754_finite false 16752690 (-28)) F32.zero F32.zero
            (S754_finite false 16744512 (-24)) /\
  SlerpSpec.lerp (SlerpSpec.normalized Quat.Identity)
                 (SlerpSpec.normalized quat_small_tilt) (F32.of_Z 2)
  = Quat.mk (S754_finite false 16769030 (-28)) F32.zero F32.zero
            (S754_finite false 16760844 (-24)).
Proof.
  split; [| vm_compute; reflexivity].
  rewrite Slerp_refines_SlerpSpec. unfold SlerpSpec.Slerp. cbv zeta.
  replace (F32.one - SlerpSpec.acos_argument Quat.Identity quat_small_tilt
           <? SlerpSpec.small_angle)%f32 with true
    by (vm_compute; reflexivity).
  vm_compute. reflexivity.
Qed.

(** C3 (amended).  For all [from], [to] and [t], [Slerp] is the function
    the specification describes, written over the arithmetic of [float]
    alone: both inputs are normalised (each component divided by the
    magnitude, the identity for a degenerate input), and the result depends
    on the inputs through their normalisations only; the second is negated
    when the dot product is negative, after which the dot product is never
    negative, and the result is the same for [to] and for [-to] as soon as
    the dot product is a number other than zero; the dot product is clamped
    before [acosf] sees it; and when [1 - dot < 1e-3] the result is the
    renormalised linear interpolation, whatever the math library computes,
    the sine-ratio formula being used in the other case only.  The clamped
    dot product lies in [0,1], hence in [-1,1], as soon as the dot product
    is a number; it is a NaN exactly when the dot product is one (the
    amendment).  On the x axis, inputs of magnitude 2 that are equal or
    opposite give the unit quaternion of the axis, and an extrapolation
    at a small angle gives the renormalised interpolation. *)
Theorem Slerp_as_specified `{Libm} (from to : Quat.t) (t_ : F32.t) :
  let a := SlerpSpec.normalized from in
  let b := SlerpSpec.second from to in
  let d := SlerpSpec.acos_argument from to in
  Quat.Slerp from to t_ =
    (if (F32.one - d <? SlerpSpec.small_angle)%f32
     then SlerpSpec.nlerp a b t_
     else SlerpSpec.sine_ratio a b d t_) /\
  (forall from' to' : Quat.t,
     SlerpSpec.normalized from' = a ->
     SlerpSpec.normalized to' = SlerpSpec.normalized to ->
     Quat.Slerp from' to' t_ = Quat.Slerp from to t_) /\
  (SlerpSpec.corrected_dot from to <? F32.zero)%f32 = false /\
  ((SlerpSpec.raw_dot from to <? F32.zero)%f32
   || (F32.zero <? SlerpSpec.raw_dot from to)%f32 = true ->
   Quat.Slerp from (Quat.neg to) t_ = Quat.Slerp from to t_) /\
  d = (if (F32.one <? SlerpSpec.corrected_dot from to)%f32 then F32.one
       else SlerpSpec.corrected_dot from to) /\
  is_nan d = is_nan (SlerpSpec.raw_dot from to) /\
  (is_nan (SlerpSpec.raw_dot from to) = false ->
   (- F32.one <=? d)%f32 && (F32.zero <=? d)%f32 && (d <=? F32.one)%f32
   = true) /\
  (forall L : Libm,
     (F32.one - d <? SlerpSpec.small_angle)%f32 = true ->
     @Quat.Slerp L from to t_ = SlerpSpec.nlerp a b t_) /\
  (isfinite t_ = true ->
   Quat.Slerp quat_2i quat_2i t_ = quat_i /\
   Quat.Slerp quat_2i quat_minus_2i t_ = quat_i) /\
  Quat.Slerp Quat.Identity quat_small_tilt (F32.of_Z 2)
  = Quat.mk (S754_finite false 16752690 (-28)) F32.zero F32.zero
            (S754_finite false 16744512 (-24)).
Proof.
  cbv zeta.
  pose proof (corrected_dot_not_negative from to) as Hneg.
  destruct (clamp_unit_not_negative _ Hneg) as (Hcut & Hnan & Hrange).
  split; [rewrite Slerp_refines_SlerpSpec; reflexivity |].
  split; [intros from' to'; apply Slerp_of_normalized |].
  split; [exact Hneg |].
  split; [exact (Slerp_double_cover from to t_) |].
  split; [exact Hcut |].
  split; [unfold SlerpSpec.acos_argument; rewrite Hnan;
          apply corrected_dot_is_nan |].
  split; [intro Hd; apply Hrange; rewrite corrected_dot_is_nan; exact Hd |].
  split; [| split; [apply Slerp_on_the_x_axis
                   | apply Slerp_small_angle_extrapolation]].
  intros L Hsmall. rewrite (@Slerp_refines_SlerpSpec L).
  unfold SlerpSpec.Slerp. cbv zeta. rewrite Hsmall. reflexivity.
Qed.

Lemma Slerp_as_specified_witness :
  let d := SlerpSpec.acos_argument quat_2i quat_minus_2i in
  (- F32.one <=? d)%f32 && (F32.zero <=? d)%f32 && (d <=? F32.one)%f32 = true /\
  @Quat.Slerp sample_libm quat_i quat_minus_2i (F32.literal 1 2)
  = @Quat.Slerp sample_libm quat_2i quat_minus_2i (F32.literal 1 2) /\
  @Quat.Slerp sample_libm quat_2i (Quat.neg quat_minus_2i) (F32.literal 1 2)
  = @Quat.Slerp sample_libm quat_2i quat_minus_2i (F32.literal 1 2) /\
  @Quat.Slerp sample_libm quat_2i quat_minus_2i (F32.literal 1 2)
  = SlerpSpec.nlerp (SlerpSpec.normalized quat_2i)
      (SlerpSpec.second quat_2i quat_minus_2i) (F32.literal 1 2) /\
  @Quat.Slerp sample_libm quat_2i quat_minus_2i (F32.literal 1 2) = quat_i.
Proof.
  destruct (@Slerp_as_specified sample_libm quat_2i quat_minus_2i
              (F32.literal 1 2))
    as (_ & Hnorm & _ & Hcover & _ & _ & Hrange & Hsmall & Haxis & _).
  split; [apply Hrange; vm_compute; reflexivity |].
  split; [apply Hnorm; vm_compute; reflexivity |].
  split; [apply Hcover; vm_compute; reflexivity |].
  split; [apply Hsmall; vm_compute; reflexivity |].
  apply Haxis. reflexivity.
Defined.

(** With an infinite component in [from], the normalised [from] has a NaN
    component, the dot product is a NaN, [std::clamp] returns it as it is,
    the small-angle test fails and [acosf] is called on a NaN; every
    component of the result is a NaN, whatever [t] and the math library. *)
Lemma Slerp_infinite_component `{Libm} (t_ : F32.t) :
  let a := Quat.mk F32.nan F32.zero F32.zero F32.zero in
  Quat.Slerp quat_infinite_x Quat.Identity t_
  = SlerpSpec.sine_ratio a Quat.Identity F32.nan t_ /\
  Quat.Slerp quat_infinite_x Quat.Identity t_
  = Quat.mk F32.nan F32.nan F32.nan F32.nan.
Proof.
  cbv zeta.
  assert (E : Quat.Slerp quat_infinite_x Quat.Identity t_
              = SlerpSpec.sine_ratio
                  (Quat.mk F32.nan F32.zero F32.zero F32.zero)
                  Quat.Identity F32.nan t_).
  { unfold Quat.Slerp. cbv zeta.
    replace (Quat.GetNormalized quat_infinite_x)
      with (Quat.mk F32.nan F32.zero F32.zero F32.zero)
      by (vm_compute; reflexivity).
    replace (Quat.GetNormalized Quat.Identity) with Quat.Identity
      by (vm_compute; reflexivity).
    reflexivity. }
  split; [exact E |].
  rewrite E. unfold SlerpSpec.sine_ratio. cbv zeta.
  cbn [Quat.x Quat.y Quat.z Quat.w].
  generalize (cosf (acosf F32.nan * t_)%f32)
             (sinf (acosf F32.nan * t_)%f32 / sinf (acosf F32.nan))%f32.
  intros c s1.
  assert (E0 : (c - F32.nan * sinf (acosf F32.nan * t_) / sinf (acosf F32.nan))%f32
               = F32.nan) by (destruct c; reflexivity).
  rewrite E0. reflexivity.
Qed.

(** C3, as stated, fails on [from = (w = 1, x = +infinity, y = z = 0)] and
    [to] the identity: the normalised [from] is (w = 0, x = NaN, 0, 0), the
    number that reaches [acosf] after the clamp is a NaN, which is not in
    [-1,1], and the result is a quaternion of four NaNs. *)
Theorem Slerp_nan_dot_reaches_acosf :
  Quat.GetNormalized quat_infinite_x
  = Quat.mk F32.nan F32.zero F32.zero F32.zero /\
  SlerpSpec.acos_argument quat_infinite_x Quat.Identity = F32.nan /\
  (- F32.one <=? SlerpSpec.acos_argument quat_infinite_x Quat.Identity)%f32
  && (SlerpSpec.acos_argument quat_infinite_x Quat.Identity <=? F32.one)%f32
  = false /\
  @Quat.Slerp sample_libm quat_infinite_x Quat.Identity (F32.literal 1 2)
  = @SlerpSpec.sine_ratio sample_libm
      (Quat.mk F32.nan F32.zero F32.zero F32.zero) Quat.Identity F32.nan
      (F32.literal 1 2) /\
  @Quat.Slerp sample_libm quat_infinite_x Quat.Identity (F32.literal 1 2)
  = Quat.mk F32.nan F32.nan F32.nan F32.nan.
Proof.
  split; [vm_compute; reflexivity |].
  split; [vm_compute; reflexivity |].
  split; [vm_compute; reflexivity |].
  exact (@Slerp_infinite_component sample_libm (F32.literal 1 2)).
Qed.

(** ** Euler angles at the poles *)

(** [unit], a sum of squares, never carries the sign bit; nor does the
    threshold [0.499 * unit]. *)
Lemma euler_unit_pos_signed (q : Quat.t) :
  pos_signed (Quat.euler_unit q) = true.
Proof.
  unfold Quat.euler_unit. cbv zeta. unfold F64.add, F64.of_float, F32.mul.
  repeat apply SFadd_pos_signed;
    apply SFround_pos_signed, SFmul_self_pos_signed.
Qed.

Lemma euler_threshold_pos_signed (q : Quat.t) :
  pos_signed (F64.literal 499 1000 * Quat.euler_unit q)%f64 = true.
Proof.
  apply SFmul_pos_signed; [reflexivity | apply euler_unit_pos_signed].
Qed.

(** The two polar branches of [ToEulerRadians], on the locals [test] and
    [unit]. *)
Lemma ToEulerRadians_branches `{Libm} (q : Quat.t) :
  Quat.ToEulerRadians q =
  if (Quat.euler_test q >? F64.literal 499 1000 * Quat.euler_unit q)%f64 then
    Vec3.mk (F32.of_double (M_PI / F64.of_Z 2)%f64)
            (F32.of_double (F64.of_Z 2 * atan2_ff (Quat.x q) (Quat.w q))%f64)
            (F32.of_Z 0)
  else if (Quat.euler_test q <? - F64.literal 499 1000 * Quat.euler_unit q)%f64 then
    Vec3.mk (F32.of_double (- M_PI / F64.of_Z 2)%f64)
            (F32.of_double (F64.of_Z (-2) * atan2_ff (Quat.x q) (Quat.w q))%f64)
            (F32.of_Z 0)
  else Quat.ToEulerRadians q.
Proof.
  unfold Quat.ToEulerRadians, Quat.euler_test, Quat.euler_unit. cbv zeta.
  destruct (_ >? _)%f64; [reflexivity |].
  destruct (_ <? _)%f64; reflexivity.
Qed.

(** C4.  When [|x*y + z*w| > 0.499 * (x^2+y^2+z^2+w^2)] (on the values the
    function computes), [ToEulerRadians] returns roll = 0, pitch = +pi/2
    with yaw = 2*atan2(x,w) when the test value is positive, and
    pitch = -pi/2 with yaw = -2*atan2(x,w) when it is negative.  Pitch and
    roll are never NaN, and yaw is a NaN only if [atan2] itself returns one. *)
Theorem ToEulerRadians_gimbal_lock `{Libm} (q : Quat.t) :
  (SFabs (Quat.euler_test q) >? F64.literal 499 1000 * Quat.euler_unit q)%f64
    = true ->
  let e := Quat.ToEulerRadians q in
  let half_pi := F32.of_double (M_PI / F64.of_Z 2)%f64 in
  let yaw := F32.of_double (F64.of_Z 2 * atan2_ff (Quat.x q) (Quat.w q))%f64 in
  Vec3.z e = F32.zero /\
  ((F64.of_Z 0 <? Quat.euler_test q)%f64 = true /\
   Vec3.x e = half_pi /\ Vec3.y e = yaw
   \/
   (Quat.euler_test q <? F64.of_Z 0)%f64 = true /\
   Vec3.x e = (- half_pi)%f32 /\ Vec3.y e = (- yaw)%f32) /\
  is_nan (Vec3.x e) = false /\ is_nan (Vec3.z e) = false /\
  is_nan (Vec3.y e) = is_nan (atan2_ff (Quat.x q) (Quat.w q)).
Proof.
  intro Habs. cbv zeta. rewrite ToEulerRadians_branches.
  pose proof (euler_threshold_pos_signed q) as Hpos.
  assert (Eneg : (- F64.literal 499 1000 * Quat.euler_unit q)%f64
                 = SFopp (F64.literal 499 1000 * Quat.euler_unit q)%f64)
    by apply SFmul_opp_l.
  rewrite Eneg. clear Eneg.
  assert (Hyaw : is_nan (F32.of_double
                   (F64.of_Z 2 * atan2_ff (Quat.x q) (Quat.w q))%f64)
                 = is_nan (atan2_ff (Quat.x q) (Quat.w q))).
  { unfold F32.of_double, F64.mul. rewrite SFround_is_nan.
    change (F64.of_Z 2) with (S754_finite false 4503599627370496 (-51)).
    apply SFmul_finite_is_nan. }
  generalize dependent (atan2_ff (Quat.x q) (Quat.w q)). intros a Hyaw.
  assert (Ey : F32.of_double (F64.of_Z (-2) * a)%f64
               = SFopp (F32.of_double (F64.of_Z 2 * a)%f64)).
  { change (F64.of_Z (-2)) with (SFopp (F64.of_Z 2)).
    unfold F32.of_double, F64.mul. rewrite SFmul_opp_l. apply SFround_opp. }
  rewrite Ey. clear Ey.
  generalize dependent (F32.of_double (F64.of_Z 2 * a)%f64). intros yaw Hyaw.
  generalize dependent (F64.literal 499 1000 * Quat.euler_unit q)%f64.
  generalize (Quat.euler_test q). intros t cu Habs Hpos.
  unfold F64.gt, F64.lt in *.
  destruct (SFltb cu t) eqn:E1.
  - cbn [Vec3.x Vec3.y Vec3.z].
    split; [reflexivity |]. split.
    + left. split; [| split; reflexivity].
      exact (SFltb_pos_signed_positive cu t Hpos E1).
    + split; [reflexivity |]. split; [reflexivity | exact Hyaw].
  - destruct (SFabs_above_negative cu t Hpos Habs E1) as [Hlt Hneg].
    rewrite Hlt. cbn [Vec3.x Vec3.y Vec3.z].
    split; [reflexivity |]. split.
    + right. split; [exact Hneg | split; reflexivity].
    + split; [reflexivity |]. split; [reflexivity |].
      rewrite <- Hyaw. destruct yaw; reflexivity.
Qed.

Lemma ToEulerRadians_gimbal_lock_witness :
  Vec3.z (@Quat.ToEulerRadians sample_libm north_pole_quat) = F32.zero /\
  Vec3.x (@Quat.ToEulerRadians sample_libm north_pole_quat)
  = F32.of_double (M_PI / F64.of_Z 2)%f64.
Proof.
  destruct (@ToEulerRadians_gimbal_lock sample_libm north_pole_quat)
    as (Hz & [(_ & Hx & _) | (Hneg & _)] & _).
  - vm_compute. reflexivity.
  - split; [exact Hz | exact Hx].
  - vm_compute in Hneg. discriminate Hneg.
Defined.

(** * Further properties of the modelled code *)

(** ** More facts of IEEE arithmetic *)

Section ArithFacts.
Variables prec emax : Z.

(** [x - x] is +0 for a finite [x] and NaN otherwise. *)
Lemma SFsub_diag (a : spec_float) :
  SFsub prec emax a a = if isfinite a then S754_zero false else S754_nan.
Proof.
  destruct a as [[] | [] | | s m e]; try reflexivity.
  simpl. rewrite Z.sub_diag. reflexivity.
Qed.

Lemma SFeqb_refl (a : spec_float) : SFeqb a a = negb (is_nan a).
Proof.
  destruct a as [s | [] | | [] m e]; try reflexivity;
    unfold SFeqb; simpl; rewrite Z.compare_refl, Pos.compare_cont_refl;
    reflexivity.
Qed.

(** Zero times a finite number is a zero. *)
Lemma SFmul_zero_l (s : bool) (a : spec_float) :
  isfinite a = true -> is_zero (SFmul prec emax (S754_zero s) a) = true.
Proof. destruct a; try discriminate; reflexivity. Qed.

Lemma SFmul_zero_r (s : bool) (a : spec_float) :
  isfinite a = true -> is_zero (SFmul prec emax a (S754_zero s)) = true.
Proof. destruct a; try discriminate; reflexivity. Qed.

(** Adding a zero to +0 gives +0. *)
Lemma SFadd_pzero_zero (a : spec_float) :
  is_zero a = true -> SFadd prec emax (S754_zero false) a = S754_zero false.
Proof. destruct a as [[] | | |]; try discriminate; reflexivity. Qed.

(** A product with a zero factor is a zero or a NaN. *)
Lemma SFmul_by_zero (a b : spec_float) :
  is_zero b = true ->
  is_zero (SFmul prec emax a b) || is_nan (SFmul prec emax a b) = true.
Proof. destruct b; try discriminate; destruct a; reflexivity. Qed.

(** A NaN operand makes a NaN result. *)
Lemma SFmul_nan_l (a b : spec_float) :
  is_nan a = true -> SFmul prec emax a b = S754_nan.
Proof. destruct a; try discriminate; reflexivity. Qed.

Lemma SFmul_nan_r (a b : spec_float) :
  is_nan b = true -> SFmul prec emax a b = S754_nan.
Proof. destruct b; try discriminate; destruct a; reflexivity. Qed.

Lemma SFadd_nan_l (a b : spec_float) :
  is_nan a = true -> SFadd prec emax a b = S754_nan.
Proof. destruct a; try discriminate; reflexivity. Qed.

Lemma SFadd_nan_r (a b : spec_float) :
  is_nan b = true -> SFadd prec emax a b = S754_nan.
Proof. destruct b; try discriminate; destruct a; reflexivity. Qed.

Lemma SFsub_nan_l (a b : spec_float) :
  is_nan a = true -> SFsub prec emax a b = S754_nan.
Proof. destruct a; try discriminate; reflexivity. Qed.

Lemma SFsub_nan_r (a b : spec_float) :
  is_nan b = true -> SFsub prec emax a b = S754_nan.
Proof. destruct b; try discriminate; destruct a; reflexivity. Qed.

Lemma SFdiv_nan_r (a b : spec_float) :
  is_nan b = true -> SFdiv prec emax a b = S754_nan.
Proof. destruct b; try discriminate; destruct a; reflexivity. Qed.

Lemma SFsqrt_nan (a : spec_float) :
  is_nan a = true -> SFsqrt prec emax a = S754_nan.
Proof. destruct a; try discriminate; reflexivity. Qed.

(** The square root keeps a clear sign bit. *)
Lemma SFsqrt_pos_signed (a : spec_float) :
  pos_signed a = true -> pos_signed (SFsqrt prec emax a) = true.
Proof.
  destruct a as [s | s | | s m e]; simpl; trivial; intro Hs;
    apply negb_true_iff in Hs; subst; trivial.
  destruct (SFsqrt_core_binary prec emax (Zpos m) e) as [[mz ez] lz].
  pose proof (binary_round_aux_shape prec emax false mz ez lz) as H.
  destruct (binary_round_aux prec emax false mz ez lz); subst; trivial.
Qed.
End ArithFacts.

Lemma pos_signed_not_negative (a : spec_float) :
  pos_signed a = true -> SFltb a (S754_zero false) = false.
Proof.
  destruct a as [s | s | | s m e]; simpl; trivial; intro Hs;
    apply negb_true_iff in Hs; subst; reflexivity.
Qed.

Lemma SFltb_nan_r (a b : spec_float) : is_nan b = true -> SFltb a b = false.
Proof. destruct b; try discriminate; destruct a; reflexivity. Qed.

Lemma SFltb_nan_l (a b : spec_float) : is_nan a = true -> SFltb a b = false.
Proof. destruct a; try discriminate; reflexivity. Qed.

Lemma SFleb_nan_l (a b : spec_float) : is_nan a = true -> SFleb a b = false.
Proof. destruct a; try discriminate; reflexivity. Qed.

Lemma SFleb_nan_r (a b : spec_float) : is_nan b = true -> SFleb a b = false.
Proof. destruct b; try discriminate; destruct a; reflexivity. Qed.

(** ** Mat4: transposition, construction from cells, arithmetic *)

(** [GetTranspose] exchanges rows and columns - its cells read row by row
    are the cells of the argument read column by column - and applying it
    twice gives back the matrix, bit for bit. *)
Theorem GetTranspose_involution (M : Mat4.t) :
  Mat4.GetTranspose (Mat4.GetTranspose M) = M /\
  Mat4_entries (Mat4.GetTranspose M)
  = flat_map (fun j => map (fun i => Mat4.get M i j) Mat4.range4) Mat4.range4.
Proof. destruct M as [[] [] [] []]. split; reflexivity. Qed.

(** X1: Transposition reverses a product exactly:
    [transpose(A * B) = transpose(B) * transpose(A)], since each cell sums
    the same four products in the same order. *)
Theorem GetTranspose_Multiply (A B : Mat4.t) :
  Mat4.GetTranspose (Mat4.Multiply A B)
  = Mat4.Multiply (Mat4.GetTranspose B) (Mat4.GetTranspose A).
Proof.
  destruct A as [[] [] [] []], B as [[] [] [] []].
  cbv [Mat4.GetTranspose Mat4.Multiply Mat4.range4 fold_left Mat4.set
       Mat4.get Mat4.row Mat4.set_row Vec4.get Vec4.set Mat4.default
       Vec4.default Mat4.row0 Mat4.row1 Mat4.row2 Mat4.row3
       Vec4.x Vec4.y Vec4.z Vec4.w].
  unfold F32.mul.
  repeat match goal with
         | |- context [SFmul F32.prec F32.emax ?a ?b] =>
             lazymatch goal with
             | |- context [SFmul F32.prec F32.emax b a] =>
                 is_var a; is_var b;
                 rewrite (SFmul_comm F32.prec F32.emax b a)
             end
         end.
  reflexivity.
Qed.

(** X2: The cell constructor fills the matrix row by row: sixteen cells are
    stored as given, and the constructor is inverse to reading the cells
    row by row. *)
Theorem of_cells_entries_round_trip (M : Mat4.t) (cells : list F32.t) :
  Mat4.of_cells (Mat4_entries M) = M /\
  (length cells = 16%nat -> Mat4_entries (Mat4.of_cells cells) = cells).
Proof.
  split.
  - destruct M as [[] [] [] []]. reflexivity.
  - intro Hlen.
    do 16 (destruct cells as [| ? cells]; [discriminate Hlen |]).
    destruct cells; [reflexivity | discriminate Hlen].
Qed.

Lemma of_cells_entries_round_trip_witness :
  Mat4_entries (Mat4.of_cells (Mat4_entries Mat4.Identity))
  = Mat4_entries Mat4.Identity.
Proof.
  apply (of_cells_entries_round_trip Mat4.Identity (Mat4_entries Mat4.Identity)).
  reflexivity.
Defined.

(** X3: Cells beyond the sixteenth are ignored and missing cells are zero. *)
Theorem of_cells_truncates_and_pads (cells : list F32.t) :
  Mat4_entries (Mat4.of_cells cells)
  = firstn 16 (cells ++ repeat F32.zero 16).
Proof.
  do 16 (destruct cells as [| ? cells]; [reflexivity |]).
  cbn [app firstn]. unfold Mat4.of_cells.
  cbn [seq combine]. destruct cells; reflexivity.
Qed.

(** X4: Dividing a matrix by a zero raises nothing: it leaves no finite cell. *)
Theorem Mat4_divide_by_zero_non_finite (M : Mat4.t) (d : F32.t) :
  is_zero d = true ->
  forallb (fun a => negb (isfinite a)) (Mat4_entries (Mat4.divide M d)) = true.
Proof.
  intro Hd. destruct M as [[] [] [] []].
  cbv [Mat4_entries Mat4.range4 flat_map map app Mat4.divide fold_left
       Mat4.set_row Mat4.row Mat4.get Vec4.get Vec4.divide Mat4.default
       Mat4.row0 Mat4.row1 Mat4.row2 Mat4.row3 Vec4.x Vec4.y Vec4.z Vec4.w
       forallb].
  assert (H : forall a, isfinite (a / d)%f32 = false).
  { intro a. apply SFdiv_degenerate_not_finite. rewrite Hd. reflexivity. }
  rewrite !H. reflexivity.
Qed.

Lemma Mat4_divide_by_zero_non_finite_witness :
  forallb (fun a => negb (isfinite a))
          (Mat4_entries (Mat4.divide Mat4.Identity F32.zero)) = true.
Proof. apply Mat4_divide_by_zero_non_finite. reflexivity. Defined.

(** The cells of [a op b], for the element-wise operators. *)
Lemma Mat4_add_entries (A B : Mat4.t) :
  Mat4_entries (Mat4.add A B)
  = map (fun p => (fst p + snd p)%f32) (combine (Mat4_entries A) (Mat4_entries B)).
Proof. destruct A as [[] [] [] []], B as [[] [] [] []]. reflexivity. Qed.

Lemma Mat4_sub_entries (A B : Mat4.t) :
  Mat4_entries (Mat4.sub A B)
  = map (fun p => (fst p - snd p)%f32) (combine (Mat4_entries A) (Mat4_entries B)).
Proof. destruct A as [[] [] [] []], B as [[] [] [] []]. reflexivity. Qed.

(** X5: [M - M] is the zero matrix exactly when every cell of [M] is finite;
    any infinite or NaN cell turns into a NaN. *)
Theorem Mat4_sub_self (M : Mat4.t) :
  Mat4_entries (Mat4.sub M M)
  = map (fun a => if isfinite a then F32.zero else F32.nan) (Mat4_entries M).
Proof.
  rewrite Mat4_sub_entries.
  induction (Mat4_entries M) as [| a l IH]; [reflexivity |].
  cbn [combine map fst snd]. rewrite IH. f_equal.
  apply SFsub_diag.
Qed.

Lemma is_nan_eq (a : spec_float) : is_nan a = true -> a = S754_nan.
Proof. destruct a; try discriminate; reflexivity. Qed.

Lemma NearlyEqual_cells (a b : Mat4.t) (eps : F32.t) :
  (forall r c : nat,
     (F32.fabs (Mat4.get a r c - Mat4.get b r c) >? eps)%f32 = false) ->
  Mat4.NearlyEqual a b eps = true.
Proof.
  intro H. unfold Mat4.NearlyEqual.
  apply forallb_forall. intros r _. apply forallb_forall. intros c _.
  rewrite H. reflexivity.
Qed.

(** X6: [NearlyEqual(a, a, eps)] holds for every matrix - cells that are NaN
    or infinite included - as soon as [eps] is not negative. *)
Theorem NearlyEqual_reflexive (a : Mat4.t) (eps : F32.t) :
  (eps <? F32.zero)%f32 = false -> Mat4.NearlyEqual a a eps = true.
Proof.
  intro Heps. apply NearlyEqual_cells. intros r c.
  unfold F32.gt, F32.fabs, F32.sub. rewrite SFsub_diag.
  destruct (isfinite (Mat4.get a r c)); [exact Heps |].
  apply SFltb_nan_r. reflexivity.
Qed.

Lemma NearlyEqual_reflexive_witness :
  Mat4.NearlyEqual (Mat4.diag F32.nan) (Mat4.diag F32.nan) epsilon = true.
Proof. apply NearlyEqual_reflexive. reflexivity. Defined.

(** X7: [operator==] holds between a matrix and itself exactly when no cell is
    a NaN. *)
Theorem Mat4_eqb_reflexive_iff_no_nan (M : Mat4.t) :
  Mat4.eqb M M = forallb (fun a => negb (is_nan a)) (Mat4_entries M).
Proof.
  destruct M as [[] [] [] []].
  cbv [Mat4_entries Mat4.range4 flat_map map app forallb Mat4.get Mat4.row
       Vec4.get Mat4.eqb Vec4.eqb Mat4.row0 Mat4.row1 Mat4.row2 Mat4.row3
       Vec4.x Vec4.y Vec4.z Vec4.w F32.eq].
  rewrite !SFeqb_refl, <- !andb_assoc, andb_true_r. reflexivity.
Qed.

(** X8: A NaN in every cell of [a] makes [NearlyEqual(a, b, eps)] and
    [NearlyEqual(b, a, eps)] true for every [b] and every tolerance,
    although [a == a] is false. *)
Theorem NearlyEqual_accepts_nan (a b : Mat4.t) (eps : F32.t) :
  forallb is_nan (Mat4_entries a) = true ->
  Mat4.NearlyEqual a b eps = true /\ Mat4.NearlyEqual b a eps = true /\
  Mat4.eqb a a = false.
Proof.
  intro H. destruct a as [[] [] [] []].
  cbv [Mat4_entries Mat4.range4 flat_map map app forallb Mat4.get Mat4.row
       Vec4.get Mat4.row0 Mat4.row1 Mat4.row2 Mat4.row3
       Vec4.x Vec4.y Vec4.z Vec4.w] in H.
  repeat (apply andb_prop in H; destruct H as [?H H]).
  repeat match goal with
         | Hn : is_nan ?v = true |- _ => apply is_nan_eq in Hn; subst v
         end.
  assert (Hcell : forall r c,
             Mat4.get (Mat4.mk (Vec4.mk S754_nan S754_nan S754_nan S754_nan)
                               (Vec4.mk S754_nan S754_nan S754_nan S754_nan)
                               (Vec4.mk S754_nan S754_nan S754_nan S754_nan)
                               (Vec4.mk S754_nan S754_nan S754_nan S754_nan))
                      r c = S754_nan).
  { intros r c. destruct r as [| [| [| r]]]; destruct c as [| [| [| c]]];
      reflexivity. }
  split; [| split].
  - apply NearlyEqual_cells. intros r c. rewrite Hcell.
    unfold F32.gt, F32.sub. rewrite SFsub_nan_l by reflexivity.
    apply SFltb_nan_r. reflexivity.
  - apply NearlyEqual_cells. intros r c. rewrite Hcell.
    unfold F32.gt, F32.sub. rewrite SFsub_nan_r by reflexivity.
    apply SFltb_nan_r. reflexivity.
  - reflexivity.
Qed.

Lemma NearlyEqual_accepts_nan_witness :
  Mat4.NearlyEqual (Mat4.of_cells (repeat F32.nan 16)) Mat4.Identity epsilon
  = true.
Proof.
  apply (NearlyEqual_accepts_nan (Mat4.of_cells (repeat F32.nan 16))
                                 Mat4.Identity epsilon).
  reflexivity.
Defined.

(** The accumulation of [Multiply] over one row or column of zeros. *)
Lemma accumulate_zero_l (a b c d : spec_float) :
  isfinite a = true -> isfinite b = true ->
  isfinite c = true -> isfinite d = true ->
  (F32.zero + F32.zero * a + F32.zero * b + F32.zero * c + F32.zero * d)%f32
  = F32.zero.
Proof.
  destruct a as [[] | | | [] ? ?]; try discriminate;
    destruct b as [[] | | | [] ? ?]; try discriminate;
    destruct c as [[] | | | [] ? ?]; try discriminate;
    destruct d as [[] | | | [] ? ?]; try discriminate; reflexivity.
Qed.

Lemma accumulate_zero_r (a b c d : spec_float) :
  isfinite a = true -> isfinite b = true ->
  isfinite c = true -> isfinite d = true ->
  (F32.zero + a * F32.zero + b * F32.zero + c * F32.zero + d * F32.zero)%f32
  = F32.zero.
Proof.
  destruct a as [[] | | | [] ? ?]; try discriminate;
    destruct b as [[] | | | [] ? ?]; try discriminate;
    destruct c as [[] | | | [] ? ?]; try discriminate;
    destruct d as [[] | | | [] ? ?]; try discriminate; reflexivity.
Qed.

(** X9: [Zero * M] and [M * Zero] are the zero matrix, bit for bit, when every
    cell of [M] is finite. *)
Theorem Multiply_Zero_absorbs (M : Mat4.t) :
  forallb isfinite (Mat4_entries M) = true ->
  Mat4.Multiply Mat4.Zero M = Mat4.Zero /\
  Mat4.Multiply M Mat4.Zero = Mat4.Zero.
Proof.
  intro H. destruct M as [[] [] [] []].
  cbv [Mat4_entries Mat4.range4 flat_map map app forallb Mat4.get Mat4.row
       Vec4.get Mat4.row0 Mat4.row1 Mat4.row2 Mat4.row3
       Vec4.x Vec4.y Vec4.z Vec4.w] in H.
  repeat (apply andb_prop in H; destruct H as [?H H]).
  split;
    cbv [Mat4.Multiply Mat4.Zero Mat4.range4 fold_left Mat4.set Mat4.get
         Mat4.row Mat4.set_row Vec4.get Vec4.set Mat4.default Vec4.default
         Mat4.row0 Mat4.row1 Mat4.row2 Mat4.row3 Vec4.x Vec4.y Vec4.z Vec4.w].
  - f_equal; f_equal; apply accumulate_zero_l; assumption.
  - f_equal; f_equal; apply accumulate_zero_r; assumption.
Qed.

Lemma Multiply_Zero_absorbs_witness :
  Mat4.Multiply Mat4.Zero Mat4.Identity = Mat4.Zero.
Proof.
  destruct (Multiply_Zero_absorbs Mat4.Identity) as [H _];
    [vm_compute; reflexivity | exact H].
Defined.

(** One infinite cell is enough to break the absorption: the product
    0 * inf is a NaN. *)
Lemma Multiply_Zero_infinite_cell :
  Mat4.get (Mat4.Multiply Mat4.Zero (Mat4.diag (S754_infinity false))) 0 0
  = F32.nan.
Proof. vm_compute. reflexivity. Qed.

(** ** Legacy Matrix *)

(** Past the NaN test, every cell of [Invert] is an expression times
    [1.0f / det]. *)
Lemma Invert_cells_scaled (M : Matrix.t) :
  is_nan (Matrix.Invert_det M) = false ->
  Forall (fun a => exists c, a = (c * (F32.one / Matrix.Invert_det M))%f32)
         (Matrix_cells (Matrix.Invert M)).
Proof.
  unfold Matrix.Invert, Matrix.Invert_det. cbv zeta. intro Hn.
  rewrite Hn.
  cbv [Matrix_cells Matrix.m00 Matrix.m01 Matrix.m02 Matrix.m03
    Matrix.m10 Matrix.m11 Matrix.m12 Matrix.m13 Matrix.m20 Matrix.m21
    Matrix.m22 Matrix.m23 Matrix.m30 Matrix.m31 Matrix.m32 Matrix.m33].
  repeat (apply Forall_cons; [eexists; reflexivity |]). apply Forall_nil.
Qed.

(** X10: [Matrix::Invert] falls back to the identity only when the determinant
    it computes is a NaN. *)
Theorem Invert_nan_det_identity (M : Matrix.t) :
  is_nan (Matrix.Invert_det M) = true -> Matrix.Invert M = Matrix.default.
Proof.
  unfold Matrix.Invert, Matrix.Invert_det. cbv zeta. intro Hn.
  rewrite Hn. reflexivity.
Qed.

Lemma Invert_nan_det_identity_witness :
  Matrix.Invert (Matrix.mk F32.nan F32.zero F32.zero F32.zero
                           F32.zero F32.one F32.zero F32.zero
                           F32.zero F32.zero F32.one F32.zero
                           F32.zero F32.zero F32.zero F32.one)
  = Matrix.default.
Proof. apply Invert_nan_det_identity. vm_compute. reflexivity. Defined.

(** X11: A singular matrix - computed determinant zero - is not caught by that
    test: the result is not the identity, none of its cells is finite. *)
Theorem Invert_zero_det_non_finite (M : Matrix.t) :
  is_zero (Matrix.Invert_det M) = true ->
  forallb (fun a => negb (isfinite a)) (Matrix_cells (Matrix.Invert M)) = true.
Proof.
  intro Hz. apply forallb_forall. intros a Ha.
  assert (Hn : is_nan (Matrix.Invert_det M) = false)
    by (destruct (Matrix.Invert_det M); try discriminate; reflexivity).
  pose proof (Invert_cells_scaled M Hn) as HF.
  rewrite Forall_forall in HF. destruct (HF a Ha) as [c ->].
  destruct (Matrix.Invert_det M) as [s | | |]; try discriminate.
  unfold F32.one, F32.div, F32.mul.
  change (SFdiv F32.prec F32.emax (F32.of_Z 1) (S754_zero s))
    with (S754_infinity s).
  rewrite SFmul_infinity_not_finite. reflexivity.
Qed.

Lemma Invert_zero_det_non_finite_witness :
  forallb (fun a => negb (isfinite a)) (Matrix_cells (Matrix.Invert legacy_flat))
  = true.
Proof. apply Invert_zero_det_non_finite. vm_compute. reflexivity. Defined.

(** X12: A matrix built from translation, rotation and scale gives its
    translation back unchanged, through [GetTranslation] and through
    [Decompose], whatever the rotation and the scale. *)
Theorem of_TRS_translation_round_trip (T : Vec3.t) (R : Quat.t) (S : Vec3.t) :
  Matrix.GetTranslation (Matrix.of_TRS T R S) = T /\
  snd (Matrix.Decompose (Matrix.of_TRS T R S)) = T.
Proof. destruct T. split; reflexivity. Qed.

(** The sign that [GetScale] gives to a component. *)
Lemma sign_of_product_with_zero (a b : spec_float) :
  is_zero b = true -> sign (a * b)%f32 = 0%Z.
Proof.
  intro Hb. pose proof (SFmul_by_zero F32.prec F32.emax a b Hb) as H.
  unfold sign, F32.lt, F32.mul.
  destruct (SFmul F32.prec F32.emax a b) as [[] | | |]; try discriminate;
    reflexivity.
Qed.

Lemma GetScale_component_pos_signed (a b c : spec_float) :
  pos_signed (F32.of_Z 1 * F32.sqrt (a * a + b * b + c * c))%f32 = true.
Proof.
  apply SFmul_pos_signed; [reflexivity |].
  apply SFsqrt_pos_signed.
  repeat apply SFadd_pos_signed; apply SFmul_self_pos_signed.
Qed.

(** X13: [GetScale] multiplies each length by the sign of the product of the
    four cells of its row.  When the fourth cell of each row is a zero - as
    in every matrix built from translation, rotation and scale - that
    product is a zero or a NaN and no component of the result is negative:
    a negative scale is never recovered. *)
Theorem GetScale_never_negative_when_affine (M : Matrix.t) :
  is_zero (Matrix.m03 M) && is_zero (Matrix.m13 M) && is_zero (Matrix.m23 M)
    = true ->
  (Vec3.x (Matrix.GetScale M) <? F32.zero)%f32 = false /\
  (Vec3.y (Matrix.GetScale M) <? F32.zero)%f32 = false /\
  (Vec3.z (Matrix.GetScale M) <? F32.zero)%f32 = false.
Proof.
  intro H. apply andb_prop in H. destruct H as [H H2].
  apply andb_prop in H. destruct H as [H0 H1].
  unfold Matrix.GetScale. cbv zeta.
  rewrite (sign_of_product_with_zero _ _ H0),
          (sign_of_product_with_zero _ _ H1),
          (sign_of_product_with_zero _ _ H2).
  cbn [Z.ltb Z.compare Vec3.x Vec3.y Vec3.z].
  repeat split; apply pos_signed_not_negative, GetScale_component_pos_signed.
Qed.

Lemma GetScale_never_negative_when_affine_witness :
  (Vec3.x (Matrix.GetScale
             (Matrix.of_TRS (vec3_of_Z 1 2 3) Quat.Identity (vec3_of_Z (-2) 3 4)))
   <? F32.zero)%f32 = false.
Proof.
  apply (GetScale_never_negative_when_affine
           (Matrix.of_TRS (vec3_of_Z 1 2 3) Quat.Identity (vec3_of_Z (-2) 3 4))).
  reflexivity.
Defined.

(** X14: The perspective division of the legacy [Matrix * Vec3] has no guard:
    when the homogeneous [w] is a zero or a NaN, no component of the
    result is finite. *)
Theorem Matrix_mul_vec3_zero_w_non_finite (M : Matrix.t) (v : Vec3.t) :
  is_zero (Vec4.w (Matrix.homogeneous M v))
  || is_nan (Vec4.w (Matrix.homogeneous M v)) = true ->
  isfinite (Vec3.x (Matrix.mul_vec3 M v))
  || isfinite (Vec3.y (Matrix.mul_vec3 M v))
  || isfinite (Vec3.z (Matrix.mul_vec3 M v)) = false.
Proof.
  unfold Matrix.mul_vec3, Matrix.homogeneous. cbv zeta. cbn [Vec4.w].
  intro Hw.
  set (w := (Vec3.x v * Matrix.m03 M + Vec3.y v * Matrix.m13 M
             + Vec3.z v * Matrix.m23 M + Matrix.m33 M)%f32) in *.
  assert (Hne : (w !=? F32.one)%f32 = true).
  { clearbody w. destruct w as [[] | | |]; try discriminate; reflexivity. }
  rewrite Hne. cbn [Vec3.x Vec3.y Vec3.z]. unfold F32.div.
  rewrite !(SFdiv_degenerate_not_finite _ _ _ _ Hw). reflexivity.
Qed.

Lemma Matrix_mul_vec3_zero_w_non_finite_witness :
  isfinite (Vec3.x (Matrix.mul_vec3 legacy_w0 (vec3_of_Z 0 1 1))) = false.
Proof.
  destruct (orb_false_elim _ _
    (Matrix_mul_vec3_zero_w_non_finite legacy_w0 (vec3_of_Z 0 1 1) eq_refl))
    as [H _].
  destruct (orb_false_elim _ _ H) as [Hx _]. exact Hx.
Defined.

(** ** Vec3 helpers and scalar utilities *)

Section SubFacts.
Variables prec emax : Z.

(** Exchanging the operands of a subtraction negates the result, except
    that an exact zero difference is +0 both ways. *)
Lemma SFsub_swap (a b : spec_float) :
  SFabs (SFsub prec emax b a) = SFabs (SFsub prec emax a b).
Proof.
  destruct a as [sa | sa | | sa ma ea], b as [sb | sb | | sb mb eb];
    try reflexivity; try (destruct sa, sb; reflexivity).
  simpl. rewrite (Z.min_comm eb ea).
  set (X := cond_Zopp sa (Zpos (fst (shl_align ma ea (Z.min ea eb))))).
  set (Y := cond_Zopp sb (Zpos (fst (shl_align mb eb (Z.min ea eb))))).
  replace (Y - X)%Z with (- (X - Y))%Z by lia.
  destruct (binary_normalize_opp prec emax (X - Y) (Z.min ea eb)) as [-> | ->].
  - destruct (binary_normalize prec emax (X - Y) (Z.min ea eb) false);
      reflexivity.
  - reflexivity.
Qed.

Lemma SFmul_abs (a b : spec_float) :
  SFabs a = SFabs b -> SFmul prec emax a a = SFmul prec emax b b.
Proof.
  destruct a as [sa | sa | | sa ma ea], b as [sb | sb | | sb mb eb];
    simpl; try discriminate; intro H; try reflexivity;
    try (destruct sa, sb; reflexivity).
  injection H as -> ->. destruct sa, sb; reflexivity.
Qed.
End SubFacts.

Lemma SFltb_SFleb (a b : spec_float) : SFltb a b = true -> SFleb a b = true.
Proof.
  unfold SFltb, SFleb. destruct (SFcompare a b) as [[] |]; try discriminate;
    reflexivity.
Qed.

Lemma SFltb_not_nan (a b : spec_float) :
  SFltb a b = true -> is_nan a = false /\ is_nan b = false.
Proof.
  destruct a, b; try discriminate; split; reflexivity.
Qed.

Lemma SFleb_refl (a : spec_float) : is_nan a = false -> SFleb a a = true.
Proof.
  intro Ha. apply SFltb_false_SFleb; trivial.
  unfold SFltb. pose proof (SFcompare_swap a a) as Hs.
  destruct (SFcompare a a) as [[] |]; simpl in Hs; try discriminate;
    reflexivity.
Qed.

(** X15: The dot product does not depend on the order of its operands. *)
Theorem Dot_commutative (a b : Vec3.t) (p q : Quat.t) :
  Utils.Dot a b = Utils.Dot b a /\ Quat.Dot p q = Quat.Dot q p.
Proof.
  unfold Utils.Dot, Quat.Dot, F32.mul.
  rewrite (SFmul_comm _ _ (Vec3.x a)), (SFmul_comm _ _ (Vec3.y a)),
          (SFmul_comm _ _ (Vec3.z a)), (SFmul_comm _ _ (Quat.w p)),
          (SFmul_comm _ _ (Quat.x p)), (SFmul_comm _ _ (Quat.y p)),
          (SFmul_comm _ _ (Quat.z p)).
  split; reflexivity.
Qed.

(** X16: The cross product of a vector with itself has no non-zero component:
    each one is +0, or a NaN when the product it is made of overflowed or
    was a NaN. *)
Theorem Cross_self (a : Vec3.t) :
  Utils.Cross a a
  = Vec3.mk (if isfinite (Vec3.y a * Vec3.z a)%f32 then F32.zero else F32.nan)
            (if isfinite (Vec3.z a * Vec3.x a)%f32 then F32.zero else F32.nan)
            (if isfinite (Vec3.x a * Vec3.y a)%f32 then F32.zero else F32.nan).
Proof.
  unfold Utils.Cross, F32.mul, F32.sub.
  rewrite (SFmul_comm _ _ (Vec3.z a) (Vec3.y a)),
          (SFmul_comm _ _ (Vec3.x a) (Vec3.z a)),
          (SFmul_comm _ _ (Vec3.y a) (Vec3.x a)).
  rewrite !SFsub_diag. reflexivity.
Qed.

(** X17: [Distance] is symmetric, bit for bit, and the distance of a point with
    finite coordinates to itself is +0. *)
Theorem Distance_symmetric (a b : Vec3.t) :
  Utils.Distance a b = Utils.Distance b a /\
  (isfinite (Vec3.x a) && isfinite (Vec3.y a) && isfinite (Vec3.z a) = true ->
   Utils.Distance a a = F32.zero).
Proof.
  split.
  - unfold Utils.Distance. cbv zeta. unfold F32.mul, F32.sub.
    rewrite (SFmul_abs _ _ _ _ (SFsub_swap _ _ (Vec3.x a) (Vec3.x b))),
            (SFmul_abs _ _ _ _ (SFsub_swap _ _ (Vec3.y a) (Vec3.y b))),
            (SFmul_abs _ _ _ _ (SFsub_swap _ _ (Vec3.z a) (Vec3.z b))).
    reflexivity.
  - intro H. apply andb_prop in H. destruct H as [H Hz].
    apply andb_prop in H. destruct H as [Hx Hy].
    unfold Utils.Distance. cbv zeta. unfold F32.sub.
    rewrite !SFsub_diag, Hx, Hy, Hz. reflexivity.
Qed.

Lemma Distance_symmetric_witness :
  Utils.Distance (vec3_of_Z 1 2 3) (vec3_of_Z 1 2 3) = F32.zero.
Proof.
  destruct (Distance_symmetric (vec3_of_Z 1 2 3) (vec3_of_Z 1 2 3)) as [_ H].
  apply H. reflexivity.
Defined.

(** X18: [IsEqual] is symmetric in its two numbers, false as soon as one of its
    three arguments is a NaN, and true on [(a, a)] for a finite [a] and a
    tolerance that is not negative. *)
Theorem IsEqual_properties (a b eps : F32.t) :
  Utils.IsEqual a b eps = Utils.IsEqual b a eps /\
  (is_nan a || is_nan b || is_nan eps = true -> Utils.IsEqual a b eps = false) /\
  (isfinite a = true -> (F32.zero <=? eps)%f32 = true ->
   Utils.IsEqual a a eps = true).
Proof.
  unfold Utils.IsEqual, F32.le, F32.fabs, F32.sub.
  split; [| split].
  - rewrite (SFsub_swap _ _ a b). reflexivity.
  - intro H. apply orb_prop in H. destruct H as [H | H].
    + apply orb_prop in H. destruct H as [H | H].
      * rewrite SFsub_nan_l by exact H. reflexivity.
      * rewrite SFsub_nan_r by exact H. reflexivity.
    + apply SFleb_nan_r. exact H.
  - intros Ha He. rewrite SFsub_diag, Ha. exact He.
Qed.

Lemma IsEqual_properties_witness :
  Utils.IsEqual F32.nan F32.one epsilon = false /\
  Utils.IsEqual F32.one F32.one epsilon = true.
Proof.
  destruct (IsEqual_properties F32.nan F32.one epsilon) as (_ & Hn & _).
  destruct (IsEqual_properties F32.one F32.one epsilon) as (_ & _ & Hr).
  split; [apply Hn | apply Hr]; reflexivity.
Defined.

(** X19: [Clamp] orders its bounds first and then returns a number between
    them for every [value]: even a NaN [value] gives a number in range,
    never a NaN. *)
Theorem Clamp_in_range (value min max : F32.t) :
  is_nan min = false -> is_nan max = false ->
  let lo := if (min >? max)%f32 then max else min in
  let hi := if (min >? max)%f32 then min else max in
  (lo <=? Utils.Clamp value min max)%f32
  && (Utils.Clamp value min max <=? hi)%f32 = true /\
  is_nan (Utils.Clamp value min max) = false.
Proof.
  intros Hmin Hmax. cbv zeta. unfold Utils.Clamp.
  assert (Hlohi :
    is_nan (if (min >? max)%f32 then max else min) = false /\
    is_nan (if (min >? max)%f32 then min else max) = false /\
    SFleb (if (min >? max)%f32 then max else min)
          (if (min >? max)%f32 then min else max) = true).
  { unfold F32.gt. destruct (SFltb max min) eqn:E.
    - repeat split; trivial. apply SFltb_SFleb, E.
    - repeat split; trivial. apply SFltb_false_SFleb; trivial. }
  assert (Hgen : forall lo hi : F32.t,
             is_nan lo = false -> is_nan hi = false -> SFleb lo hi = true ->
             SFleb lo (Utils.Min (Utils.Max value lo) hi)
             && SFleb (Utils.Min (Utils.Max value lo) hi) hi = true).
  { clear. intros lo hi Hlo Hhi Hle.
    unfold Utils.Min, Utils.Max, F32.gt, F32.lt.
    destruct (SFltb lo value) eqn:E1.
    - destruct (SFltb value hi) eqn:E2.
      + rewrite (SFltb_SFleb _ _ E1), (SFltb_SFleb _ _ E2). reflexivity.
      + rewrite Hle, (SFleb_refl hi Hhi). reflexivity.
    - destruct (SFltb lo hi) eqn:E2.
      + rewrite (SFleb_refl lo Hlo), Hle. reflexivity.
      + rewrite Hle, (SFleb_refl hi Hhi). reflexivity. }
  destruct Hlohi as (Hlo & Hhi & Hle).
  destruct (min >? max)%f32; unfold F32.le;
    pose proof (Hgen _ _ Hlo Hhi Hle) as Hr;
    (split; [exact Hr |]);
    apply andb_prop in Hr; destruct Hr as [_ Hr];
    match goal with
    | |- is_nan ?r = false =>
        destruct (is_nan r) eqn:En; [| reflexivity];
        rewrite (SFleb_nan_l _ _ En) in Hr; discriminate Hr
    end.
Qed.

Lemma Clamp_in_range_witness :
  is_nan (Utils.Clamp F32.nan (F32.of_Z 10) (F32.of_Z 0)) = false.
Proof.
  destruct (Clamp_in_range F32.nan (F32.of_Z 10) (F32.of_Z 0)) as [_ H];
    [reflexivity | reflexivity | exact H].
Defined.

(** ** Quaternions *)

(** X20: [AngleRadians] hands [acosf] a number of [-1, 1] for every
    quaternion: its max/min clamp maps a NaN [w] to 1 (unlike the
    [std::clamp] of [Slerp], which lets a NaN through). *)
Theorem AngleRadians_argument_in_range `{Libm} (q : Quat.t) :
  Quat.AngleRadians q = (F32.of_Z 2 * acosf (Quat.AngleRadians_cw q))%f32 /\
  (- F32.one <=? Quat.AngleRadians_cw q)%f32
  && (Quat.AngleRadians_cw q <=? F32.one)%f32 = true /\
  (if is_nan (Quat.w q) then Quat.AngleRadians_cw q = F32.one
   else is_nan (Quat.AngleRadians_cw q) = false).
Proof.
  split; [reflexivity |].
  assert (H11 : SFltb (- F32.one)%f32 F32.one = true)
    by (vm_compute; reflexivity).
  assert (Hl : SFleb (- F32.one)%f32 (- F32.one)%f32 = true)
    by (vm_compute; reflexivity).
  assert (Hr : SFleb F32.one F32.one = true) by (vm_compute; reflexivity).
  unfold Quat.AngleRadians_cw, F32.lt, F32.le.
  generalize (Quat.w q). intro w.
  destruct (SFltb w F32.one) eqn:E1.
  - destruct (SFltb_not_nan _ _ E1) as [Hw _]. rewrite Hw.
    destruct (SFltb (- F32.one)%f32 w) eqn:E2.
    + rewrite (SFltb_SFleb _ _ E1), (SFltb_SFleb _ _ E2), Hw.
      split; reflexivity.
    + rewrite Hl, (SFltb_SFleb _ _ H11). split; reflexivity.
  - rewrite H11, Hr, (SFltb_SFleb _ _ H11).
    split; [reflexivity |]. destruct (is_nan w); reflexivity.
Qed.

(** X21: The zero-magnitude guard of [GetNormalized] does not catch a NaN: as
    soon as one component is a NaN, all four components of the result
    are. *)
Theorem GetNormalized_nan_propagates (q : Quat.t) :
  is_nan (Quat.w q) || is_nan (Quat.x q) || is_nan (Quat.y q)
  || is_nan (Quat.z q) = true ->
  Quat.GetNormalized q = Quat.mk F32.nan F32.nan F32.nan F32.nan.
Proof.
  intro H.
  assert (Hm : Quat.mag2 q = F32.nan).
  { unfold Quat.mag2, F32.add, F32.mul.
    apply orb_prop in H. destruct H as [H | H];
      [apply orb_prop in H; destruct H as [H | H];
       [apply orb_prop in H; destruct H as [H | H] |] |].
    - rewrite (SFmul_nan_l _ _ _ _ H). reflexivity.
    - rewrite (SFmul_nan_l _ _ (Quat.x q) _ H),
              (SFadd_nan_r _ _ _ S754_nan eq_refl).
      reflexivity.
    - rewrite (SFmul_nan_l _ _ (Quat.y q) _ H),
              (SFadd_nan_r _ _ _ S754_nan eq_refl).
      reflexivity.
    - rewrite (SFmul_nan_l _ _ (Quat.z q) _ H),
              (SFadd_nan_r _ _ _ S754_nan eq_refl).
      reflexivity. }
  unfold Quat.GetNormalized. fold (Quat.mag2 q). rewrite Hm.
  cbv zeta. change (F32.nan <=? F32.zero)%f32 with false. cbv iota.
  change (F32.sqrt F32.nan) with F32.nan.
  change (F32.nan <=? F32.zero)%f32 with false. cbv iota.
  unfold Quat.make, F32.div. rewrite !SFdiv_nan_r by reflexivity.
  reflexivity.
Qed.

Lemma GetNormalized_nan_propagates_witness :
  Quat.GetNormalized (Quat.mk F32.nan F32.zero F32.zero F32.one)
  = Quat.mk F32.nan F32.nan F32.nan F32.nan.
Proof. apply GetNormalized_nan_propagates. reflexivity. Defined.

(** X22: When the squared magnitude of a finite quaternion overflows to
    +infinity, [GetNormalized] divides by infinity and returns a
    quaternion of zeros - neither a unit quaternion nor the identity. *)
Theorem GetNormalized_overflow_zero (q : Quat.t) :
  Quat.mag2 q = S754_infinity false ->
  isfinite (Quat.w q) && isfinite (Quat.x q) && isfinite (Quat.y q)
  && isfinite (Quat.z q) = true ->
  let n := Quat.GetNormalized q in
  is_zero (Quat.w n) && is_zero (Quat.x n) && is_zero (Quat.y n)
  && is_zero (Quat.z n) = true.
Proof.
  intros Hm Hf. cbv zeta.
  unfold Quat.GetNormalized. fold (Quat.mag2 q). rewrite Hm. cbv zeta.
  change (S754_infinity false <=? F32.zero)%f32 with false. cbv iota.
  change (F32.sqrt (S754_infinity false)) with (S754_infinity false).
  change (S754_infinity false <=? F32.zero)%f32 with false. cbv iota.
  unfold Quat.make. cbn [Quat.w Quat.x Quat.y Quat.z].
  apply andb_prop in Hf. destruct Hf as [Hf Hz].
  apply andb_prop in Hf. destruct Hf as [Hf Hy].
  apply andb_prop in Hf. destruct Hf as [Hw Hx].
  assert (Hd : forall a, isfinite a = true ->
                         is_zero (a / S754_infinity false)%f32 = true)
    by (intros a Ha; destruct a; try discriminate; reflexivity).
  rewrite (Hd _ Hw), (Hd _ Hx), (Hd _ Hy), (Hd _ Hz). reflexivity.
Qed.

Lemma GetNormalized_overflow_zero_witness :
  Quat.GetNormalized (Quat.mk F32.zero F32.zero F32.zero
                              (S754_finite false 8388608 77))
  = Quat.mk F32.zero F32.zero F32.zero F32.zero.
Proof.
  pose proof (GetNormalized_overflow_zero
                (Quat.mk F32.zero F32.zero F32.zero
                         (S754_finite false 8388608 77))) as H.
  assert (H' := H ltac:(vm_compute; reflexivity) ltac:(reflexivity)).
  vm_compute. reflexivity.
Defined.

(** [ToMatrix] writes the upper-left 3x3 block only: for every quaternion,
    NaN or zero included, the last row is (0,0,0,1) and the last column of
    the first three rows is zero. *)
Theorem ToMatrix_is_affine (q : Quat.t) :
  Mat4.row (Quat.ToMatrix q) 3 = Vec4.mk F32.zero F32.zero F32.zero F32.one /\
  Mat4.get (Quat.ToMatrix q) 0 3 = F32.zero /\
  Mat4.get (Quat.ToMatrix q) 1 3 = F32.zero /\
  Mat4.get (Quat.ToMatrix q) 2 3 = F32.zero.
Proof.
  cbv [Quat.ToMatrix Mat4.set Mat4.get Mat4.row Mat4.set_row Vec4.get
       Vec4.set Mat4.Identity Mat4.diag Mat4.row0 Mat4.row1 Mat4.row2
       Mat4.row3 Vec4.x Vec4.y Vec4.z Vec4.w].
  repeat split.
Qed.

(** ** Projections *)

(** X23: An orthographic volume of zero width, height or depth raises nothing:
    the scale cell of that axis is +infinity and its offset cell is not
    finite. *)
Theorem OrthographicProjection_degenerate (l t_ n : F32.t) :
  isfinite l && isfinite t_ && isfinite n = true ->
  let O := Mat4.OrthographicProjection l l t_ t_ n n in
  Mat4.get O 0 0 = S754_infinity false /\
  Mat4.get O 1 1 = S754_infinity false /\
  Mat4.get O 2 2 = S754_infinity false /\
  isfinite (Mat4.get O 0 3) || isfinite (Mat4.get O 1 3)
  || isfinite (Mat4.get O 2 3) = false /\
  Mat4.row O 3 = Vec4.mk F32.zero F32.zero F32.zero F32.one.
Proof.
  intro H. apply andb_prop in H. destruct H as [H Hn].
  apply andb_prop in H. destruct H as [Hl Ht].
  cbv zeta.
  cbv [Mat4.OrthographicProjection Mat4.of_rows nth Mat4.get Mat4.row
       Vec4.get Mat4.row0 Mat4.row1 Mat4.row2 Mat4.row3
       Vec4.x Vec4.y Vec4.z Vec4.w].
  unfold F32.sub, F32.div. rewrite !SFsub_diag, Hl, Ht, Hn.
  assert (Hd : forall a, isfinite (SFdiv F32.prec F32.emax a (S754_zero false))
                         = false)
    by (intro a; apply SFdiv_degenerate_not_finite; reflexivity).
  rewrite !Hd. repeat split.
Qed.

Lemma OrthographicProjection_degenerate_witness :
  Mat4.get (Mat4.OrthographicProjection F32.one F32.one F32.one F32.one
                                        F32.zero F32.zero) 0 0
  = S754_infinity false.
Proof.
  destruct (OrthographicProjection_degenerate F32.one F32.one F32.zero)
    as [H _]; [reflexivity | exact H].
Defined.

(** ** Multiplication by one *)

(** Multiplying a representable [float] by 1.0f gives it back. *)
Lemma F32_mul_one_r (a : F32.t) :
  F32.valid a = true -> (a * F32.one)%f32 = a.
Proof.
  destruct a as [s | s | | s m e]; intro Hv;
    try (destruct s; reflexivity); try reflexivity.
  unfold F32.valid, valid_binary, bounded, canonical_mantissa in Hv.
  apply andb_prop in Hv. destruct Hv as [Hc He].
  apply Z.eqb_eq in Hc. apply Z.leb_le in He.
  unfold F32.mul, F32.one, F32.of_Z.
  change (binary_normalize F32.prec F32.emax 1 0 false)
    with (S754_finite false 8388608 (-23)).
  unfold SFmul. rewrite xorb_false_r.
  rewrite (Pos.mul_comm m 8388608).
  change (8388608 * m)%positive
    with (m~0~0~0~0~0~0~0~0~0~0~0~0~0~0~0~0~0~0~0~0~0~0~0)%positive.
  unfold binary_round_aux, shr_fexp.
  assert (Hd : (Zdigits2 (Zpos m~0~0~0~0~0~0~0~0~0~0~0~0~0~0~0~0~0~0~0~0~0~0~0)
                + (e + -23) = Zpos (digits2_pos m) + e)%Z).
  { cbn [Zdigits2 digits2_pos]. rewrite !Pos2Z.inj_succ. lia. }
  rewrite Hd, Hc.
  replace (e - (e + -23))%Z with 23%Z by lia.
  cbn [shr shr_record_of_loc iter_pos shr_1 orb].
  cbn [shr_m loc_of_shr_record round_nearest_even].
  replace (e + -23 + 23)%Z with e by lia.
  cbn [Zdigits2]. rewrite Hc, Z.sub_diag.
  cbn [shr shr_record_of_loc shr_m].
  apply Z.leb_le in He. rewrite He. reflexivity.
Qed.

Lemma F32_mul_one_l (a : F32.t) :
  F32.valid a = true -> (F32.one * a)%f32 = a.
Proof.
  intro Hv. unfold F32.mul. rewrite SFmul_comm. apply F32_mul_one_r, Hv.
Qed.

(** A representable finite number is a zero or a finite value. *)
Lemma regular_inv (a : spec_float) :
  F32.valid a && isfinite a = true ->
  F32.valid a = true /\
  ((exists s, a = S754_zero s) \/ (exists s m e, a = S754_finite s m e)).
Proof.
  intro H. apply andb_prop in H. destruct H as [Hv Hf]. split; trivial.
  destruct a as [s | s | | s m e]; try discriminate;
    [left; eauto | right; eauto].
Qed.

Ltac regular_destruct H :=
  let Hv := fresh "Hv" in
  let Hc := fresh "Hc" in
  apply regular_inv in H; destruct H as [Hv Hc];
  destruct Hc as [[? ->] | (? & ? & ? & ->)].

Ltac close_eq :=
  repeat match goal with s : bool |- _ => destruct s end;
  cbn [SFadd SFmul SFsub xorb negb F32.zero];
  first [ reflexivity
        | unfold F32.eq; rewrite SFeqb_refl; reflexivity ].

Lemma regular_valid (a : spec_float) :
  F32.valid a && isfinite a = true -> F32.valid a = true.
Proof. intro H. apply andb_prop in H. tauto. Qed.

Lemma identity_row_0 (a b c d : F32.t) :
  F32.valid a && isfinite a = true ->
  F32.valid b && isfinite b = true ->
  F32.valid c && isfinite c = true ->
  F32.valid d && isfinite d = true ->
  ((F32.zero + F32.one * a + F32.zero * b + F32.zero * c + F32.zero * d)
   ==? a)%f32 = true.
Proof.
  intros Ha Hb Hc Hd.
  rewrite (F32_mul_one_l a) by (apply regular_valid; assumption).
  regular_destruct Ha; regular_destruct Hb; regular_destruct Hc;
    regular_destruct Hd; unfold F32.add, F32.mul; close_eq.
Qed.

Lemma identity_row_1 (a b c d : F32.t) :
  F32.valid a && isfinite a = true ->
  F32.valid b && isfinite b = true ->
  F32.valid c && isfinite c = true ->
  F32.valid d && isfinite d = true ->
  ((F32.zero + F32.zero * a + F32.one * b + F32.zero * c + F32.zero * d)
   ==? b)%f32 = true.
Proof.
  intros Ha Hb Hc Hd.
  rewrite (F32_mul_one_l b) by (apply regular_valid; assumption).
  regular_destruct Ha; regular_destruct Hb; regular_destruct Hc;
    regular_destruct Hd; unfold F32.add, F32.mul; close_eq.
Qed.

Lemma identity_row_2 (a b c d : F32.t) :
  F32.valid a && isfinite a = true ->
  F32.valid b && isfinite b = true ->
  F32.valid c && isfinite c = true ->
  F32.valid d && isfinite d = true ->
  ((F32.zero + F32.zero * a + F32.zero * b + F32.one * c + F32.zero * d)
   ==? c)%f32 = true.
Proof.
  intros Ha Hb Hc Hd.
  rewrite (F32_mul_one_l c) by (apply regular_valid; assumption).
  regular_destruct Ha; regular_destruct Hb; regular_destruct Hc;
    regular_destruct Hd; unfold F32.add, F32.mul; close_eq.
Qed.

Lemma identity_row_3 (a b c d : F32.t) :
  F32.valid a && isfinite a = true ->
  F32.valid b && isfinite b = true ->
  F32.valid c && isfinite c = true ->
  F32.valid d && isfinite d = true ->
  ((F32.zero + F32.zero * a + F32.zero * b + F32.zero * c + F32.one * d)
   ==? d)%f32 = true.
Proof.
  intros Ha Hb Hc Hd.
  rewrite (F32_mul_one_l d) by (apply regular_valid; assumption).
  regular_destruct Ha; regular_destruct Hb; regular_destruct Hc;
    regular_destruct Hd; unfold F32.add, F32.mul; close_eq.
Qed.

Lemma identity_col_0 (a b c d : F32.t) :
  F32.valid a && isfinite a = true ->
  F32.valid b && isfinite b = true ->
  F32.valid c && isfinite c = true ->
  F32.valid d && isfinite d = true ->
  ((F32.zero + a * F32.one + b * F32.zero + c * F32.zero + d * F32.zero)
   ==? a)%f32 = true.
Proof.
  intros Ha Hb Hc Hd.
  rewrite (F32_mul_one_r a) by (apply regular_valid; assumption).
  regular_destruct Ha; regular_destruct Hb; regular_destruct Hc;
    regular_destruct Hd; unfold F32.add, F32.mul; close_eq.
Qed.

Lemma identity_col_1 (a b c d : F32.t) :
  F32.valid a && isfinite a = true ->
  F32.valid b && isfinite b = true ->
  F32.valid c && isfinite c = true ->
  F32.valid d && isfinite d = true ->
  ((F32.zero + a * F32.zero + b * F32.one + c * F32.zero + d * F32.zero)
   ==? b)%f32 = true.
Proof.
  intros Ha Hb Hc Hd.
  rewrite (F32_mul_one_r b) by (apply regular_valid; assumption).
  regular_destruct Ha; regular_destruct Hb; regular_destruct Hc;
    regular_destruct Hd; unfold F32.add, F32.mul; close_eq.
Qed.

Lemma identity_col_2 (a b c d : F32.t) :
  F32.valid a && isfinite a = true ->
  F32.valid b && isfinite b = true ->
  F32.valid c && isfinite c = true ->
  F32.valid d && isfinite d = true ->
  ((F32.zero + a * F32.zero + b * F32.zero + c * F32.one + d * F32.zero)
   ==? c)%f32 = true.
Proof.
  intros Ha Hb Hc Hd.
  rewrite (F32_mul_one_r c) by (apply regular_valid; assumption).
  regular_destruct Ha; regular_destruct Hb; regular_destruct Hc;
    regular_destruct Hd; unfold F32.add, F32.mul; close_eq.
Qed.

Lemma identity_col_3 (a b c d : F32.t) :
  F32.valid a && isfinite a = true ->
  F32.valid b && isfinite b = true ->
  F32.valid c && isfinite c = true ->
  F32.valid d && isfinite d = true ->
  ((F32.zero + a * F32.zero + b * F32.zero + c * F32.zero + d * F32.one)
   ==? d)%f32 = true.
Proof.
  intros Ha Hb Hc Hd.
  rewrite (F32_mul_one_r d) by (apply regular_valid; assumption).
  regular_destruct Ha; regular_destruct Hb; regular_destruct Hc;
    regular_destruct Hd; unfold F32.add, F32.mul; close_eq.
Qed.


(** X24: [Identity * M == M] and [M * Identity == M] (with [operator==]) for
    every matrix whose cells are finite numbers.  The equality is that of
    [operator==], not bit for bit: a cell -0 comes back as +0. *)
Theorem Multiply_Identity (M : Mat4.t) :
  forallb (fun a => F32.valid a && isfinite a) (Mat4_entries M) = true ->
  Mat4.eqb (Mat4.Multiply Mat4.Identity M) M = true /\
  Mat4.eqb (Mat4.Multiply M Mat4.Identity) M = true.
Proof.
  intro H. destruct M as [[] [] [] []].
  cbv [Mat4_entries Mat4.range4 flat_map map app forallb Mat4.get Mat4.row
       Vec4.get Mat4.row0 Mat4.row1 Mat4.row2 Mat4.row3
       Vec4.x Vec4.y Vec4.z Vec4.w] in H.
  repeat (apply andb_prop in H; destruct H as [?H H]).
  split.
  - cbv [Mat4.Multiply Mat4.Identity Mat4.diag Mat4.range4 fold_left Mat4.set
         Mat4.get Mat4.row Mat4.set_row Vec4.get Vec4.set Mat4.default
         Vec4.default Mat4.eqb Vec4.eqb
         Mat4.row0 Mat4.row1 Mat4.row2 Mat4.row3 Vec4.x Vec4.y Vec4.z Vec4.w];
    repeat (apply andb_true_intro; split);
    [> apply identity_row_0 | apply identity_row_0 | apply identity_row_0
         | apply identity_row_0 | apply identity_row_1 | apply
         identity_row_1 | apply identity_row_1 | apply identity_row_1 |
         apply identity_row_2 | apply identity_row_2 | apply identity_row_2
         | apply identity_row_2 | apply identity_row_3 | apply
         identity_row_3 | apply identity_row_3 | apply identity_row_3 ];
    assumption.
  - cbv [Mat4.Multiply Mat4.Identity Mat4.diag Mat4.range4 fold_left Mat4.set
         Mat4.get Mat4.row Mat4.set_row Vec4.get Vec4.set Mat4.default
         Vec4.default Mat4.eqb Vec4.eqb
         Mat4.row0 Mat4.row1 Mat4.row2 Mat4.row3 Vec4.x Vec4.y Vec4.z Vec4.w];
    repeat (apply andb_true_intro; split);
    [> apply identity_col_0 | apply identity_col_1 | apply identity_col_2
         | apply identity_col_3 | apply identity_col_0 | apply
         identity_col_1 | apply identity_col_2 | apply identity_col_3 |
         apply identity_col_0 | apply identity_col_1 | apply identity_col_2
         | apply identity_col_3 | apply identity_col_0 | apply
         identity_col_1 | apply identity_col_2 | apply identity_col_3 ];
    assumption.
Qed.

Lemma Multiply_Identity_witness :
  Mat4.eqb (Mat4.Multiply Mat4.Identity (Mat4.Translate (vec3_of_Z 1 2 3)))
           (Mat4.Translate (vec3_of_Z 1 2 3)) = true.
Proof.
  destruct (Multiply_Identity (Mat4.Translate (vec3_of_Z 1 2 3))) as [H _];
    [vm_compute; reflexivity | exact H].
Defined.

(** The equality is not bit for bit: the cell -0 of this matrix comes back
    as +0, and an infinite cell makes NaNs (0 * inf) in its column. *)
Lemma Multiply_Identity_not_bitwise :
  Mat4.get (Mat4.Multiply Mat4.Identity (Mat4.diag (S754_zero true))) 0 0
  = S754_zero false /\
  Mat4.get (Mat4.Multiply Mat4.Identity (Mat4.diag (S754_infinity false))) 1 0
  = F32.nan.
Proof. vm_compute. split; reflexivity. Qed.

Lemma binary_normalize_not_nan (prec emax m e : Z) :
  is_nan (binary_normalize prec emax m e false) = false.
Proof.
  destruct m as [| p | p]; simpl; trivial.
  - pose proof (binary_round_shape prec emax false p e) as H.
    destruct (binary_round prec emax false p e); trivial. destruct H.
  - pose proof (binary_round_shape prec emax true p e) as H.
    destruct (binary_round prec emax true p e); trivial. destruct H.
Qed.

Ltac close_eq_sum :=
  repeat match goal with s : bool |- _ => destruct s end;
  cbn [SFadd SFmul SFsub xorb negb F32.zero];
  first [ reflexivity
        | unfold F32.eq; rewrite SFeqb_refl;
          first [ reflexivity
                | rewrite binary_normalize_not_nan; reflexivity ] ].

(** X25: The identity quaternion is a left and right unit of the Hamilton
    product for every quaternion with finite components, up to the sign
    of zero components ([operator==]). *)
Theorem Quat_mul_Identity (q : Quat.t) :
  F32.valid (Quat.x q) && isfinite (Quat.x q) = true ->
  F32.valid (Quat.y q) && isfinite (Quat.y q) = true ->
  F32.valid (Quat.z q) && isfinite (Quat.z q) = true ->
  F32.valid (Quat.w q) && isfinite (Quat.w q) = true ->
  Quat.eqb (Quat.mul q Quat.Identity) q = true /\
  Quat.eqb (Quat.mul Quat.Identity q) q = true.
Proof.
  destruct q as [x y z w]. cbn [Quat.x Quat.y Quat.z Quat.w].
  intros Hx Hy Hz Hw.
  pose proof (regular_valid _ Hx) as Vx. pose proof (regular_valid _ Hy) as Vy.
  pose proof (regular_valid _ Hz) as Vz. pose proof (regular_valid _ Hw) as Vw.
  unfold Quat.eqb, Quat.mul, Quat.Identity, Quat.default.
  cbn [Quat.x Quat.y Quat.z Quat.w].
  rewrite !(F32_mul_one_r x Vx), !(F32_mul_one_r y Vy), !(F32_mul_one_r z Vz),
          !(F32_mul_one_r w Vw), !(F32_mul_one_l x Vx), !(F32_mul_one_l y Vy),
          !(F32_mul_one_l z Vz), !(F32_mul_one_l w Vw).
  regular_destruct Hx; regular_destruct Hy; regular_destruct Hz;
    regular_destruct Hw;
    (split; repeat (apply andb_true_intro; split);
     unfold F32.add, F32.sub, F32.mul; close_eq_sum).
Qed.

Lemma Quat_mul_Identity_witness :
  Quat.eqb (Quat.mul (Quat.mk F32.one (F32.of_Z 2) (F32.of_Z 3) (F32.of_Z 4))
                     Quat.Identity)
           (Quat.mk F32.one (F32.of_Z 2) (F32.of_Z 3) (F32.of_Z 4)) = true.
Proof.
  destruct (Quat_mul_Identity
              (Quat.mk F32.one (F32.of_Z 2) (F32.of_Z 3) (F32.of_Z 4)))
    as [H _]; [reflexivity | reflexivity | reflexivity | reflexivity | exact H].
Defined.

(** [operator*=] stores in [*this] the product that [operator*] returns. *)
Lemma Quat_mul_assign_is_mul (q rhs : Quat.t) :
  Quat.mul_assign q rhs = Quat.mul q rhs.
Proof. reflexivity. Qed.

(** One component of [Translate(t) * v]. *)
Lemma translate_component_0 (a b c t : F32.t) :
  F32.valid a && isfinite a = true -> F32.valid b && isfinite b = true ->
  F32.valid c && isfinite c = true -> F32.valid t && isfinite t = true ->
  ((F32.zero + F32.one * a + F32.zero * b + F32.zero * c + t * F32.one)
   ==? (a + t))%f32 = true.
Proof.
  intros Ha Hb Hc Ht.
  rewrite (F32_mul_one_l a), (F32_mul_one_r t)
    by (apply regular_valid; assumption).
  regular_destruct Ha; regular_destruct Hb; regular_destruct Hc;
    regular_destruct Ht; unfold F32.add, F32.mul; close_eq_sum.
Qed.

Lemma translate_component_1 (a b c t : F32.t) :
  F32.valid a && isfinite a = true -> F32.valid b && isfinite b = true ->
  F32.valid c && isfinite c = true -> F32.valid t && isfinite t = true ->
  ((F32.zero + F32.zero * a + F32.one * b + F32.zero * c + t * F32.one)
   ==? (b + t))%f32 = true.
Proof.
  intros Ha Hb Hc Ht.
  rewrite (F32_mul_one_l b), (F32_mul_one_r t)
    by (apply regular_valid; assumption).
  regular_destruct Ha; regular_destruct Hb; regular_destruct Hc;
    regular_destruct Ht; unfold F32.add, F32.mul; close_eq_sum.
Qed.

Lemma translate_component_2 (a b c t : F32.t) :
  F32.valid a && isfinite a = true -> F32.valid b && isfinite b = true ->
  F32.valid c && isfinite c = true -> F32.valid t && isfinite t = true ->
  ((F32.zero + F32.zero * a + F32.zero * b + F32.one * c + t * F32.one)
   ==? (c + t))%f32 = true.
Proof.
  intros Ha Hb Hc Ht.
  rewrite (F32_mul_one_l c), (F32_mul_one_r t)
    by (apply regular_valid; assumption).
  regular_destruct Ha; regular_destruct Hb; regular_destruct Hc;
    regular_destruct Ht; unfold F32.add, F32.mul; close_eq_sum.
Qed.

Lemma translate_component_3 (a b c : F32.t) :
  F32.valid a && isfinite a = true -> F32.valid b && isfinite b = true ->
  F32.valid c && isfinite c = true ->
  (F32.zero + F32.zero * a + F32.zero * b + F32.zero * c
   + F32.one * F32.one)%f32 = F32.one.
Proof.
  intros Ha Hb Hc.
  regular_destruct Ha; regular_destruct Hb; regular_destruct Hc;
    repeat match goal with s : bool |- _ => destruct s end; reflexivity.
Qed.

(** X26: [Translate(t) * v], for a [Vec3] [v], is the point [v + t] with
    [w = 1]: the vector is treated as a position.  (Finite coordinates;
    components compared with [==].) *)
Theorem Translate_mul_vec3 (t v : Vec3.t) :
  forallb (fun a => F32.valid a && isfinite a)
          [Vec3.x t; Vec3.y t; Vec3.z t; Vec3.x v; Vec3.y v; Vec3.z v] = true ->
  let r := Mat4.mul_vec3 (Mat4.Translate t) v in
  (Vec4.x r ==? Vec3.x v + Vec3.x t)%f32 = true /\
  (Vec4.y r ==? Vec3.y v + Vec3.y t)%f32 = true /\
  (Vec4.z r ==? Vec3.z v + Vec3.z t)%f32 = true /\
  Vec4.w r = F32.one.
Proof.
  destruct t as [tx ty tz], v as [vx vy vz]. cbn [forallb Vec3.x Vec3.y Vec3.z].
  intro H. repeat (apply andb_prop in H; destruct H as [?H H]).
  cbv zeta.
  cbv [Mat4.mul_vec3 Mat4.MultiplyVec4 Mat4.Translate Mat4.of_rows nth
       Mat4.range4 fold_left Mat4.get Mat4.row Vec4.get Vec4.set
       Vec4.of_vec3 Vec4.default Mat4.row0 Mat4.row1 Mat4.row2 Mat4.row3
       Vec4.x Vec4.y Vec4.z Vec4.w Vec3.x Vec3.y Vec3.z].
  split; [apply translate_component_0; assumption |].
  split; [apply translate_component_1; assumption |].
  split; [apply translate_component_2; assumption |].
  apply translate_component_3; assumption.
Qed.

Lemma Translate_mul_vec3_witness :
  Vec4.w (Mat4.mul_vec3 (Mat4.Translate (vec3_of_Z 5 (-2) 3)) (vec3_of_Z 1 2 3))
  = F32.one.
Proof.
  destruct (Translate_mul_vec3 (vec3_of_Z 5 (-2) 3) (vec3_of_Z 1 2 3))
    as (_ & _ & _ & H); [vm_compute; reflexivity | exact H].
Defined.

(** X27: [Lerp] returns [from] (up to [==]) whenever [t] is not above 0 - a
    NaN [t] included - and [to] whenever [t] is above 0 and not below 1. *)
Theorem Lerp_endpoints (from to t_ : F32.t) :
  F32.valid from && isfinite from = true ->
  F32.valid to && isfinite to = true ->
  ((t_ >? F32.zero)%f32 = false ->
   (Utils.Lerp from to t_ ==? from)%f32 = true) /\
  ((t_ >? F32.zero)%f32 = true -> (t_ <? F32.one)%f32 = false ->
   (Utils.Lerp from to t_ ==? to)%f32 = true).
Proof.
  intros Hf Ht.
  pose proof (regular_valid _ Hf) as Vf. pose proof (regular_valid _ Ht) as Vt.
  unfold Utils.Lerp, Utils.Clamp01, Utils.Clamp.
  change (F32.of_Z 0 >? F32.of_Z 1)%f32 with false. cbv iota zeta.
  unfold Utils.Max, Utils.Min. change (F32.of_Z 0) with F32.zero.
  change (F32.of_Z 1) with F32.one.
  split.
  - intro H0. rewrite H0.
    change (F32.zero <? F32.one)%f32 with true. cbv iota.
    change (F32.one - F32.zero)%f32 with F32.one.
    rewrite (F32_mul_one_r from Vf).
    regular_destruct Hf; regular_destruct Ht; unfold F32.add, F32.mul;
      close_eq_sum.
  - intros H0 H1. rewrite H0, H1.
    change (F32.one - F32.one)%f32 with F32.zero.
    rewrite (F32_mul_one_r to Vt).
    regular_destruct Hf; regular_destruct Ht; unfold F32.add, F32.mul;
      close_eq_sum.
Qed.

Lemma Lerp_endpoints_witness :
  (Utils.Lerp (F32.of_Z 3) (F32.of_Z 10) F32.nan ==? F32.of_Z 3)%f32 = true /\
  (Utils.Lerp (F32.of_Z 3) (F32.of_Z 10) (F32.of_Z 2) ==? F32.of_Z 10)%f32
  = true.
Proof.
  destruct (Lerp_endpoints (F32.of_Z 3) (F32.of_Z 10) F32.nan)
    as [Hlo _]; [reflexivity | reflexivity |].
  destruct (Lerp_endpoints (F32.of_Z 3) (F32.of_Z 10) (F32.of_Z 2))
    as [_ Hhi]; [reflexivity | reflexivity |].
  split; [apply Hlo | apply Hhi]; reflexivity.
Defined.

(** ** Half-precision decoding and powers of two *)

Lemma SFsame_eq (a b : spec_float) : SFsame a b = true -> a = b.
Proof.
  destruct a as [s | s | | s m e], b as [s' | s' | | s' m' e'];
    simpl; try discriminate; intro H; try reflexivity.
  - apply Bool.eqb_prop in H. congruence.
  - apply Bool.eqb_prop in H. congruence.
  - apply andb_prop in H. destruct H as [H He].
    apply andb_prop in H. destruct H as [Hs Hm].
    apply Bool.eqb_prop in Hs. apply Pos.eqb_eq in Hm. apply Z.eqb_eq in He.
    congruence.
Qed.

Lemma forall_bits_sound (k : nat) (p : Z -> bool) :
  forall acc h : Z,
    forall_bits k p acc = true ->
    (2 ^ Z.of_nat k * acc <= h < 2 ^ Z.of_nat k * (acc + 1))%Z ->
    p h = true.
Proof.
  induction k as [| k IH]; intros acc h Hall Hh.
  - simpl in Hall. change (Z.of_nat 0) with 0%Z in Hh.
    rewrite Z.pow_0_r in Hh. replace h with acc by lia. exact Hall.
  - simpl in Hall. apply andb_prop in Hall. destruct Hall as [H0 H1].
    rewrite Nat2Z.inj_succ, Z.pow_succ_r in Hh by lia.
    destruct (Z_lt_le_dec h (2 ^ Z.of_nat k * (2 * acc + 1))) as [Hlt | Hge].
    + apply (IH (2 * acc)%Z h H0). lia.
    + apply (IH (2 * acc + 1)%Z h H1). lia.
Qed.

Lemma ToFloat32_checked :
  forall_bits 16 (fun h => SFsame (Utils.ToFloat32 h) (half_value_flushed h)) 0
  = true.
Proof. vm_compute. reflexivity. Qed.

Lemma half_value_flushed_finite (h : Z) :
  isfinite (half_value_flushed h) = true.
Proof.
  unfold half_value_flushed. cbv zeta.
  destruct (Z.land (Z.shiftr h 10) 31 =? 0)%Z; [reflexivity |].
  assert (Hm : (0 <= Z.land h 1023)%Z) by (apply Z.land_nonneg; right; lia).
  destruct ((1024 + Z.land h 1023) * 8192)%Z eqn:E; try lia. reflexivity.
Qed.

(** X28: [ToFloat32] decodes every binary16 pattern with exponent field 1..30
    exactly, reads the patterns with exponent field 0 (zeros and
    subnormals) as a signed zero, and never returns an infinity or a NaN:
    the half-precision infinities and NaNs (exponent field 31) come out as
    finite numbers of magnitude 65536 and above. *)
Theorem ToFloat32_decodes (h : Z) :
  (0 <= h < 65536)%Z ->
  Utils.ToFloat32 h = half_value_flushed h /\
  isfinite (Utils.ToFloat32 h) = true.
Proof.
  intro Hh.
  pose proof (forall_bits_sound 16 _ 0 h ToFloat32_checked) as H.
  cbv beta in H.
  assert (Hr : (2 ^ Z.of_nat 16 * 0 <= h < 2 ^ Z.of_nat 16 * (0 + 1))%Z).
  { change (2 ^ Z.of_nat 16)%Z with 65536%Z. lia. }
  apply SFsame_eq in H; [| exact Hr].
  split; [exact H |]. rewrite H. apply half_value_flushed_finite.
Qed.

Lemma ToFloat32_decodes_witness :
  Utils.ToFloat32 31744 = S754_finite false 8388608 (-7).
Proof.
  destruct (ToFloat32_decodes 31744) as [H _]; [lia |].
  rewrite H. vm_compute. reflexivity.
Defined.

(** ** Bit smearing in [power_of_two_previous] and [power_of_two_next] *)

Lemma window_init (x : Z) : window x 1 x.
Proof.
  intros n Hn; split.
  - intros H; exists 0; split; [lia | now rewrite Z.add_0_r].
  - intros (i & Hi & H). now replace (n + i) with n in H by lia.
Qed.

Lemma window_step (x w y : Z) :
  0 <= w -> window x w y -> window x (2 * w) (Z.lor y (Z.shiftr y w)).
Proof.
  intros Hw Hy n Hn.
  rewrite Z.lor_spec, Z.shiftr_spec by lia.
  rewrite Bool.orb_true_iff, (Hy n Hn), (Hy (n + w)) by lia.
  split.
  - intros [(i & Hi & H) | (i & Hi & H)].
    + exists i; split; [lia | exact H].
    + exists (w + i); split; [lia |]. now rewrite Z.add_assoc.
  - intros (i & Hi & H).
    destruct (Z_lt_ge_dec i w) as [Hlt | Hge].
    + left; exists i; split; [lia | exact H].
    + right; exists (i - w); split; [lia |].
      now replace (n + w + (i - w)) with (n + i) by lia.
Qed.


Lemma smear_window (x : Z) : window x 32 (smear x).
Proof.
  unfold smear.
  apply (window_step x 16); [lia |].
  apply (window_step x 8); [lia |].
  apply (window_step x 4); [lia |].
  apply (window_step x 2); [lia |].
  apply (window_step x 1); [lia |].
  apply window_init.
Qed.

Lemma smear_ones (x : Z) :
  0 < x < 4294967296 -> smear x = Z.ones (Z.log2 x + 1).
Proof.
  intros Hx.
  assert (Hk : 0 <= Z.log2 x < 32).
  { split; [apply Z.log2_nonneg |].
    apply Z.log2_lt_pow2; [lia |]. change (2 ^ 32) with 4294967296. lia. }
  apply Z.bits_inj'; intros n Hn.
  destruct (Z_lt_ge_dec n (Z.log2 x + 1)) as [Hlt | Hge].
  - rewrite Z.ones_spec_low by lia.
    apply (smear_window x n Hn).
    exists (Z.log2 x - n); split; [lia |].
    replace (n + (Z.log2 x - n)) with (Z.log2 x) by lia.
    apply Z.bit_log2; lia.
  - rewrite Z.ones_spec_high by lia.
    destruct (Z.testbit (smear x) n) eqn:E; [| reflexivity].
    apply (smear_window x n Hn) in E. destruct E as (i & Hi & H).
    rewrite Z.bits_above_log2 in H by lia. discriminate.
Qed.

(** X29: for a non-zero 32-bit [x], [power_of_two_previous x] is the largest
    power of two that does not exceed [x]; for [x = 0] it is [0]. *)
Theorem power_of_two_previous_is_floor_power (x : Z) :
  0 < x < 4294967296 ->
  Utils.power_of_two_previous x = 2 ^ Z.log2 x
  /\ Utils.power_of_two_previous x <= x < 2 * Utils.power_of_two_previous x
  /\ Utils.power_of_two_previous 0 = 0.
Proof.
  intros Hx.
  assert (Hk : 0 <= Z.log2 x < 32).
  { split; [apply Z.log2_nonneg |].
    apply Z.log2_lt_pow2; [lia |]. change (2 ^ 32) with 4294967296. lia. }
  assert (E : Utils.power_of_two_previous x = 2 ^ Z.log2 x).
  { change (Utils.power_of_two_previous x)
      with (Utils.wrap32 (smear x - Z.shiftr (smear x) 1)).
    rewrite (smear_ones x Hx).
    rewrite Z.shiftr_div_pow2 by lia.
    rewrite Z.ones_equiv, Z.add_1_r, Z.pow_succ_r by lia.
    change (2 ^ 1) with 2.
    replace (Z.pred (2 * 2 ^ Z.log2 x)) with (1 + (2 ^ Z.log2 x - 1) * 2) by lia.
    rewrite Z.div_add by lia. change (1 / 2) with 0.
    unfold Utils.wrap32. rewrite Z.mod_small; [lia |].
    assert (2 ^ Z.log2 x <= 2 ^ 31) by (apply Z.pow_le_mono_r; lia).
    change (2 ^ 31) with 2147483648 in *.
    assert (0 < 2 ^ Z.log2 x) by (apply Z.pow_pos_nonneg; lia).
    lia. }
  rewrite E. split; [reflexivity |]. split; [| reflexivity].
  pose proof (Z.log2_spec x (proj1 Hx)) as Hs.
  rewrite Z.pow_succ_r in Hs by lia. lia.
Qed.

Lemma power_of_two_previous_is_floor_power_witness :
  0 < 100 < 4294967296 /\ Utils.power_of_two_previous 100 = 64.
Proof.
  split; [lia |].
  destruct (power_of_two_previous_is_floor_power 100) as [H _]; [lia |].
  exact H.
Defined.

(** X30: for an odd [x >= 3], [power_of_two_next x] is one less than the
    power of two above [x] (the post-increment is lost), hence odd and never
    a power of two; for an even [x >= 2] it is [2 * x] reduced modulo 2^32,
    whether or not [x] is a power of two. *)
Theorem power_of_two_next_misses_power (x : Z) :
  2 <= x < 4294967296 ->
  (x mod 2 = 0 -> Utils.power_of_two_next x = (2 * x) mod 4294967296)
  /\ (x mod 2 = 1 ->
      Utils.power_of_two_next x = 2 ^ (Z.log2 x + 1) - 1
      /\ x <= Utils.power_of_two_next x
      /\ Utils.power_of_two_next x mod 2 = 1).
Proof.
  intros Hx.
  unfold Utils.power_of_two_next.
  destruct (x <? 2) eqn:E2; [apply Z.ltb_lt in E2; lia |].
  split; intros Hpar.
  - rewrite Hpar. cbn [Z.eqb].
    rewrite Z.shiftl_mul_pow2 by lia. change (2 ^ 1) with 2.
    unfold Utils.wrap32. f_equal. lia.
  - rewrite Hpar. cbn [Z.eqb].
    assert (Hw : Utils.wrap32 (x - 1) = x - 1)
      by (unfold Utils.wrap32; apply Z.mod_small; lia).
    rewrite Hw.
    change (smear (x - 1) = 2 ^ (Z.log2 x + 1) - 1
            /\ x <= smear (x - 1) /\ smear (x - 1) mod 2 = 1).
    rewrite smear_ones by lia.
    assert (Hlog : Z.log2 (x - 1) = Z.log2 x).
    { assert (Hx2 : x = 2 * (x / 2) + 1)
        by (pose proof (Z.div_mod x 2 ltac:(lia)); lia).
      assert (Hq : 0 < x / 2) by lia.
      rewrite Hx2 at 2.
      replace (x - 1) with (2 * (x / 2)) by lia.
      rewrite Z.log2_double by lia.
      rewrite Z.log2_succ_double by lia. reflexivity. }
    rewrite Hlog, Z.ones_equiv, Z.add_1_r.
    assert (Hk : 0 <= Z.log2 x) by apply Z.log2_nonneg.
    rewrite Z.pow_succ_r by lia.
    split; [lia |].
    pose proof (Z.log2_spec x ltac:(lia)) as Hs.
    rewrite Z.pow_succ_r in Hs by lia.
    split; [lia |].
    replace (Z.pred (2 * 2 ^ Z.log2 x)) with (1 + (2 ^ Z.log2 x - 1) * 2) by lia.
    rewrite Z.mod_add by lia. reflexivity.
Qed.

Lemma power_of_two_next_misses_power_witness :
  2 <= 5 < 4294967296 /\ 5 mod 2 = 1 /\ Utils.power_of_two_next 5 = 7.
Proof.
  split; [lia |]. split; [reflexivity |].
  destruct (power_of_two_next_misses_power 5) as [_ H]; [lia |].
  destruct (H eq_refl) as [E _]. exact E.
Defined.
